(** * Batch spatial join

    A shallow embedding of [Batch_Spatial_Join.py], the ArcGIS Pro toolbox
    script that joins every polygon layer of a workspace onto a target layer.

    The script is glue code around the geoprocessing engine ([arcpy]).  The
    engine is modelled by a record holding what the script can observe and
    change: the environment settings, the datasets (a finite map from catalog
    paths to layers), the message log, the standard output and the list of
    geoprocessing calls made so far.  The script itself is written in a small
    state-and-exception monad over that record, one definition per function of
    the source, with the names of the source.

    A layer has a spatial reference, a shape type, a list of fields and rows
    that map field names to cells.  The geometry is not modelled: which rows
    a spatial join produces is a parameter of the development.

    The file has three parts: the model, the notions the statements are
    written with (among them the data dictionary as the specification
    describes it, and sample data), and the properties. *)

From stdpp Require Import base strings list gmap.
From Stdlib Require Import Ascii ZArith Lia DecimalString DecimalNat.

Local Open Scope Z_scope.

(** ** Python built-ins used by the script *)

Module Py.

(** [s[n:]] for a non-negative [n]. *)
Fixpoint drop (n : nat) (s : string) : string :=
  match n, s with
  | O, _ => s
  | S n', String _ s' => drop n' s'
  | S _, EmptyString => EmptyString
  end.

(** [s[-n:]]: the last [n] characters, the whole string when it is shorter. *)
Definition last_chars (n : nat) (s : string) : string :=
  drop (String.length s - n) s.

(** [sub in s] on two strings: [sub] occurs somewhere in [s]. *)
Fixpoint contains (sub s : string) : bool :=
  String.prefix sub s ||
  match s with
  | EmptyString => false
  | String _ s' => contains sub s'
  end.

(** [str(n)] for an integer. *)
Definition str_of_int (z : Z) : string := NilEmpty.string_of_int (Z.to_int z).

Definition str_of_nat (n : nat) : string := NilEmpty.string_of_uint (Nat.to_uint n).

(** [name[:d]] for the last dot [d] of [name], when there is one. *)
Fixpoint before_last_dot (s : string) : option string :=
  match s with
  | EmptyString => None
  | String c s' =>
      match before_last_dot s' with
      | Some r => Some (String c r)
      | None => if Ascii.eqb c "."%char then Some EmptyString else None
      end
  end.

Fixpoint all_dots (s : string) : bool :=
  match s with
  | EmptyString => true
  | String c s' => Ascii.eqb c "."%char && all_dots s'
  end.

(** [os.path.splitext(name)[0]] for a name without directory part: the
    extension starts at the last dot, leading dots do not count. *)
Definition splitext_root (name : string) : string :=
  match before_last_dot name with
  | Some r => if all_dots r then name else r
  | None => name
  end.

End Py.

(** ** Data of the geoprocessing engine *)

(** A cell of an attribute table as Python sees it through a cursor. *)
Inductive value :=
| VNone
| VStr (s : string)
| VInt (z : Z).

Global Instance value_eq_dec : EqDecision value.
Proof. solve_decision. Defined.

(** [str(v)], as the f-string of the data dictionary prints a key. *)
Definition str_of_value (v : value) : string :=
  match v with
  | VNone => "None"
  | VStr s => s
  | VInt z => Py.str_of_int z
  end.

Record Field := mkField { name : string; type : string }.

Global Instance Field_eq_dec : EqDecision Field.
Proof. solve_decision. Defined.

(** A row maps field names to cells; a field without entry reads as null. *)
Record layer := mkLayer {
  factoryCode : Z;
  shapeType : string;
  fields : list Field;
  rows : list (gmap string value)
}.

(** A catalog path, split as [os.path.split] splits it: the workspace that
    holds the dataset and the name of the dataset in it.  A bare name listed
    by the engine denotes the dataset of that name in the current workspace. *)
Definition os_path_join (head tail : string) : string * string := (head, tail).

Definition os_path_split (p : string * string) : string * string := p.

(** Appending text to a path string appends it to its last component. *)
Definition path_append (p : string * string) (s : string) : string * string :=
  (p.1, p.2 +:+ s).

(** The geoprocessing tools the script calls, as logged by the model. *)
Inductive call :=
| CallCopyFeatures (src dst : string * string)
| CallProject (src dst : string * string) (wkid : Z)
| CallDeleteField (feature : string * string) (names : list string)
| CallAlterField (feature : string * string) (old new alias : string)
| CallSpatialJoin (target join out : string * string)
| CallDelete (feature : string * string)
| CallUpdateRow (table : string * string) (field : string) (v : value).

Inductive severity := Message | Error.

Record engine := mkEngine {
  env_workspace : string;
  env_scratchGDB : string;
  extension_Spatial : string;
  datasets : gmap (string * string) layer;
  messages : list (severity * string);
  stdout : list string;
  gp_errors : string;
  calls : list call
}.

Definition with_workspace (ws : string) (e : engine) : engine :=
  mkEngine ws (env_scratchGDB e) (extension_Spatial e) (datasets e)
           (messages e) (stdout e) (gp_errors e) (calls e).

Definition with_datasets (ds : gmap (string * string) layer) (e : engine) : engine :=
  mkEngine (env_workspace e) (env_scratchGDB e) (extension_Spatial e) ds
           (messages e) (stdout e) (gp_errors e) (calls e).

Definition with_message (m : severity * string) (e : engine) : engine :=
  mkEngine (env_workspace e) (env_scratchGDB e) (extension_Spatial e) (datasets e)
           (messages e ++ [m]) (stdout e) (gp_errors e) (calls e).

Definition with_stdout (s : string) (e : engine) : engine :=
  mkEngine (env_workspace e) (env_scratchGDB e) (extension_Spatial e) (datasets e)
           (messages e) (stdout e ++ [s]) (gp_errors e) (calls e).

Definition with_gp_errors (s : string) (e : engine) : engine :=
  mkEngine (env_workspace e) (env_scratchGDB e) (extension_Spatial e) (datasets e)
           (messages e) (stdout e) s (calls e).

Definition with_call (c : call) (e : engine) : engine :=
  mkEngine (env_workspace e) (env_scratchGDB e) (extension_Spatial e) (datasets e)
           (messages e) (stdout e) (gp_errors e) (calls e ++ [c]).

(** ** The monad of the script: engine state and Python exceptions *)

Inductive exn :=
| ExecuteError (msgs : string)
| SystemExit
| PyError (info : string).

Inductive result (A : Type) :=
| Ok (a : A)
| Raise (x : exn).

Arguments Ok {A} a.
Arguments Raise {A} x.

Definition M (A : Type) : Type := engine -> result A * engine.

Definition ret {A} (a : A) : M A := fun e => (Ok a, e).

Definition bind {A B} (m : M A) (k : A -> M B) : M B :=
  fun e =>
    match m e with
    | (Ok a, e') => k a e'
    | (Raise x, e') => (Raise x, e')
    end.

Definition raise {A} (x : exn) : M A := fun e => (Raise x, e).

Definition gets {A} (f : engine -> A) : M A := fun e => (Ok (f e), e).

Definition modify (f : engine -> engine) : M unit := fun e => (Ok tt, f e).

Declare Scope script_scope.
Delimit Scope script_scope with script.
Notation "x <- m ;; k" := (bind m (fun x => k))
  (at level 100, m at next level, right associativity) : script_scope.
Notation "m ;; k" := (bind m (fun _ => k))
  (at level 100, right associativity) : script_scope.
Local Open Scope script_scope.

(** [try: body / except: handler] *)
Definition try_except {A} (body : M A) (handler : exn -> M A) : M A :=
  fun e =>
    match body e with
    | (Raise x, e') => handler x e'
    | r => r
    end.

(** [try: body / finally: final]; an exception of [final] replaces the
    outcome of [body]. *)
Definition try_finally {A} (body : M A) (final : M unit) : M A :=
  fun e =>
    match body e with
    | (r, e') =>
        match final e' with
        | (Ok _, e'') => (r, e'')
        | (Raise y, e'') => (Raise y, e'')
        end
    end.

Fixpoint for_each {A} (l : list A) (f : A -> M unit) : M unit :=
  match l with
  | [] => ret tt
  | x :: rest => f x ;; for_each rest f
  end.

(** ** Attribute tables *)

Definition row_get (field : string) (r : gmap string value) : value :=
  default VNone (r !! field).

Definition row_set (field : string) (v : value) (r : gmap string value)
  : gmap string value :=
  <[field := v]> r.

Definition row_rename (old new : string) (r : gmap string value)
  : gmap string value :=
  match r !! old with
  | Some v => <[new := v]> (delete old r)
  | None => delete new r
  end.

Definition names (fs : list Field) : list string := name <$> fs.

Definition delete_fields (drop : list string) (l : layer) : layer :=
  mkLayer (factoryCode l) (shapeType l)
          (filter (fun f => name f ∉ drop) (fields l))
          ((fun r => foldr delete r drop) <$> rows l).

Definition alter_field (old new : string) (l : layer) : layer :=
  mkLayer (factoryCode l) (shapeType l)
          ((fun f => if String.eqb (name f) old then mkField new (type f) else f)
             <$> fields l)
          (row_rename old new <$> rows l).

Definition project (wkid : Z) (l : layer) : layer :=
  mkLayer wkid (shapeType l) (fields l) (rows l).

Definition with_rows (rs : list (gmap string value)) (l : layer) : layer :=
  mkLayer (factoryCode l) (shapeType l) (fields l) rs.

(** The two fields a spatial join adds to its output. *)
Definition bookkeeping : list Field :=
  [mkField "Join_Count" "Integer"; mkField "TARGET_FID" "Integer"].

Section Geoprocessing.

(** Which rows a spatial join produces is decided by the geometry, which
    the script never looks at: the rows of a join are a parameter. *)
Variable SpatialJoin_rows : layer -> layer -> list (gmap string value).

(** The schema of a join: the bookkeeping fields, the fields of the target
    and the fields of the joined layer.  Fields are kept under their names:
    the renaming the engine applies to clashing names is not modelled. *)
Definition join_layer (target join : layer) : layer :=
  mkLayer (factoryCode target) (shapeType target)
          (bookkeeping ++ fields target ++ fields join)
          (SpatialJoin_rows target join).

(** *** Engine functions

    What the model assumes of the engine: a tool fails, with
    [arcpy.ExecuteError], exactly when a dataset it reads does not exist;
    with [overwriteOutput] set, a tool overwrites a dataset that exists under
    its output path; [Describe] and the cursors raise an ordinary Python
    exception on a dataset or field that does not exist. *)

Definition AddMessage (s : string) : M unit := modify (with_message (Message, s)).

Definition AddError (s : string) : M unit := modify (with_message (Error, s)).

Definition print (s : string) : M unit := modify (with_stdout s).

Definition GetMessages_2 : M string := gets gp_errors.

Definition CheckExtension_Spatial : M string := gets extension_Spatial.

Definition sys_exit {A} : M A := raise SystemExit.

Definition Describe (p : string * string) : M layer :=
  fun e =>
    match datasets e !! p with
    | Some l => (Ok l, e)
    | None => (Raise (PyError "dataset does not exist"), e)
    end.

Definition ListFields (p : string * string) : M (list Field) :=
  l <- Describe p ;; ret (fields l).

Definition listed (ws : string) (feature_type : option string)
           (kv : (string * string) * layer) : bool :=
  bool_decide (kv.1.1 = ws) &&
  match feature_type with
  | Some t => String.eqb (shapeType kv.2) t
  | None => true
  end.

(** The names of the feature classes of the workspace [ws], of one shape
    type or of all, in the order the engine keeps them. *)
Definition listing (ws : string) (feature_type : option string)
           (ds : gmap (string * string) layer) : list string :=
  (fun kv : (string * string) * layer => kv.1.2)
    <$> filter (fun kv => listed ws feature_type kv = true) (map_to_list ds).

(** [arcpy.ListFeatureClasses(feature_type=...)] *)
Definition ListFeatureClasses (feature_type : option string) : M (list string) :=
  fun e => (Ok (listing (env_workspace e) feature_type (datasets e)), e).

(** A geoprocessing tool: the call is logged; the tool either changes the
    datasets or raises [arcpy.ExecuteError], leaving its messages behind. *)
Definition tool (c : call)
           (run : gmap (string * string) layer -> option (gmap (string * string) layer))
           (err : string) : M unit :=
  fun e =>
    let e1 := with_call c e in
    match run (datasets e1) with
    | Some ds => (Ok tt, with_gp_errors "" (with_datasets ds e1))
    | None => (Raise (ExecuteError err), with_gp_errors err e1)
    end.

Definition CopyFeatures_management (src dst : string * string) : M unit :=
  tool (CallCopyFeatures src dst)
       (fun ds => (fun l => <[dst := l]> ds) <$> ds !! src)
       "ERROR 000732: Input Features: Dataset does not exist".

Definition management_Project (src dst : string * string) (wkid : Z) : M unit :=
  tool (CallProject src dst wkid)
       (fun ds => (fun l => <[dst := project wkid l]> ds) <$> ds !! src)
       "ERROR 000732: Input Dataset: Dataset does not exist".

Definition DeleteField_management (feature : string * string) (drop : list string)
  : M unit :=
  tool (CallDeleteField feature drop)
       (fun ds => (fun l => <[feature := delete_fields drop l]> ds) <$> ds !! feature)
       "ERROR 000732: Input Table: Dataset does not exist".

Definition AlterField_management (feature : string * string)
           (field new_field_name new_field_alias : string) : M unit :=
  tool (CallAlterField feature field new_field_name new_field_alias)
       (fun ds => (fun l => <[feature := alter_field field new_field_name l]> ds)
                    <$> ds !! feature)
       "ERROR 000732: Input Table: Dataset does not exist".

Definition analysis_SpatialJoin (target join out : string * string) : M unit :=
  tool (CallSpatialJoin target join out)
       (fun ds =>
          match ds !! target, ds !! join with
          | Some t, Some j => Some (<[out := join_layer t j]> ds)
          | _, _ => None
          end)
       "ERROR 000732: Dataset does not exist".

Definition Delete_management (feature : string * string) : M unit :=
  tool (CallDelete feature)
       (fun ds => (fun _ => delete feature ds) <$> ds !! feature)
       "ERROR 000732: Input Data Element: Dataset does not exist".

(** [arcpy.CreateScratchName(prefix, workspace=ws)]: the prefix followed by
    the first number that names no dataset of the workspace. *)
Definition CreateScratchName (prefix ws : string) : M (string * string) :=
  fun e =>
    let candidate k := (ws, prefix +:+ Py.str_of_nat k) in
    (Ok (default (candidate (S (size (datasets e))))
                 (head (filter (fun p => datasets e !! p = None)
                               (candidate <$> seq 0 (S (size (datasets e))))))), e).

(** Opening a cursor on one field of a table: the cells of that field, row
    by row.  A missing table or field raises a [RuntimeError]. *)
Definition open_cursor (table : string * string) (field : string)
  : M (list value) :=
  fun e =>
    match datasets e !! table with
    | Some l =>
        if bool_decide (field ∈ names (fields l))
        then (Ok (row_get field <$> rows l), e)
        else (Raise (PyError "A column was specified that does not exist."), e)
    | None => (Raise (PyError "cannot open table"), e)
    end.

(** What an update cursor has done once its loop is over: every row was
    passed to [updateRow] with its new cell.  Nothing else touches the table
    while the cursor is open, so the rows are written in one step; [written]
    has one cell per row. *)
Definition update_rows (table : string * string) (field : string)
           (written : list value) : M unit :=
  fun e =>
    match datasets e !! table with
    | Some l =>
        (Ok tt,
         mkEngine (env_workspace e) (env_scratchGDB e) (extension_Spatial e)
                  (<[table := with_rows (zip_with (row_set field) written (rows l)) l]>
                     (datasets e))
                  (messages e) (stdout e) (gp_errors e)
                  (calls e ++ (CallUpdateRow table field <$> written)))
    | None => (Raise (PyError "cannot open table"), e)
    end.

(** *** The script *)

(** [valueAsText] of the multi-value parameter: the selected entries joined
    by semicolons, [None] when nothing is selected.  The entries offered by
    [updateParameters] have the form [layer:field]. *)
Definition valueAsText (selected : list string) : option string :=
  match selected with
  | [] => None
  | _ => Some (String.concat ";" selected)
  end.

(** The five parameters of the tool, each as its [valueAsText]; the two
    layers by their catalog paths. *)
Record parameters := mkParameters {
  workspace : string;
  corals_input : string * string;
  corals_output : string * string;
  fields_to_delete : option string;
  update_fields : option string
}.

(** Lines 160-169. [fc] is the loop variable of [execute], which the
    function reads from the enclosing scope. *)
Definition change_spatial_reference (coral_spatialReference_WKID : Z)
           (fc feature : string * string) : M (string * string) :=
  join_spatialReference <- Describe feature ;;
  let join_spatialReference_WKID := factoryCode join_spatialReference in
  if negb (coral_spatialReference_WKID =? join_spatialReference_WKID) then
    scratchGDB <- gets env_scratchGDB ;;
    let feature_project :=
      path_append (os_path_join scratchGDB (os_path_split fc).2) "_" in
    management_Project feature feature_project coral_spatialReference_WKID ;;
    ret feature_project
  else
    ret feature.

(** Lines 172-182. [delete] is the text of the multi-value parameter, so
    [field_name in delete] is Python's substring test. *)
Definition delete_join_fields (feature : string * string) (delete : option string)
  : M (string * string) :=
  fields <- ListFields feature ;;
  match delete with
  | None => ret feature
  | Some delete =>
      for_each fields (fun field =>
        let field_name := name field in
        if Py.contains field_name delete
        then DeleteField_management feature [field_name]
        else ret tt) ;;
      ret feature
  end.

Definition reserved (field_name : string) : bool :=
  negb (negb (String.eqb field_name "OBJECTID") &&
        negb (String.eqb field_name "Shape") &&
        negb (String.eqb field_name "Shape_Length") &&
        negb (String.eqb field_name "Shape_Area")).

(** Lines 196-201: the new name of a field. *)
Definition new_field_name (feature_name field_name : string) : string :=
  let newName := feature_name +:+ field_name in
  if (31 <? String.length newName)%nat then
    let extra_characters := (String.length newName - 30)%nat in
    Py.drop extra_characters newName
  else newName.

(** Lines 186-206.  The list [joinFields_str] of [execute], which the
    function extends in place, is passed in and returned. *)
Fixpoint rename_fields (feature : string * string) (fields : list Field)
         (joinFields_str : list string) : M (list string) :=
  match fields with
  | [] => ret joinFields_str
  | field :: rest =>
      let field_name := name field in
      if negb (reserved field_name) then
        let feature_name := (os_path_split feature).2 in
        let newName := new_field_name feature_name field_name in
        AlterField_management feature field_name newName newName ;;
        rename_fields feature rest
          (if String.eqb (type field) "String"
           then joinFields_str ++ [newName] else joinFields_str)
      else rename_fields feature rest joinFields_str
  end.

Definition change_join_field_names (feature : string * string)
           (joinFields_str : list string) : M (list string) :=
  fields <- ListFields feature ;;
  rename_fields feature fields joinFields_str.

(** Lines 209-217. *)
Definition coral_geo_join (coral feature : string * string) : M (string * string) :=
  scratchGDB <- gets env_scratchGDB ;;
  scratch_name <- CreateScratchName "tempCoralJoin" scratchGDB ;;
  analysis_SpatialJoin coral feature scratch_name ;;
  DeleteField_management scratch_name ["Join_Count"; "TARGET_FID"] ;;
  ret scratch_name.

Definition is_gdb (workspace : string) : bool :=
  Py.contains ".gdb" (Py.last_chars 4 workspace).

(** Lines 222-229. *)
Definition convert_shapefiles (features : list string) : M (list string) :=
  for_each features (fun shapefile =>
    ws <- gets env_workspace ;;
    d <- Describe (ws, shapefile) ;;
    if String.eqb (shapeType d) "Polygon" then
      scratchGDB <- gets env_scratchGDB ;;
      let outFeatureClass := os_path_join scratchGDB (Py.splitext_root shapefile) in
      CopyFeatures_management (ws, shapefile) outFeatureClass
    else ret tt) ;;
  scratchGDB <- gets env_scratchGDB ;;
  modify (with_workspace scratchGDB) ;;
  ListFeatureClasses (Some "Polygon").

(** Lines 235-256: one turn of the loop over the polygon layers.  It
    returns the new running target and the new [joinFields_str]. *)
Definition join_step (P : parameters) (coral_spatialReference_WKID : Z)
           (numFeatures counter : nat) (fc : string)
           (corals_input : string * string) (joinFields_str : list string)
  : M ((string * string) * list string) :=
  ws <- gets env_workspace ;;
  let fc := (ws, fc) in
  d <- Describe fc ;;
  if String.eqb (shapeType d) "Polygon" then
    fc <- (if is_gdb (workspace P) then
             scratchGDB <- gets env_scratchGDB ;;
             let feature_copy := os_path_join scratchGDB (os_path_split fc).2 in
             CopyFeatures_management fc feature_copy ;;
             ret feature_copy
           else ret fc) ;;
    change_spatial_reference coral_spatialReference_WKID fc fc ;;
    AddMessage "change spatial reference complete" ;;
    delete_join_fields fc (fields_to_delete P) ;;
    joinFields_str <- change_join_field_names fc joinFields_str ;;
    AddMessage "clean complete" ;;
    corals_input <- coral_geo_join corals_input fc ;;
    AddMessage (Py.str_of_nat counter +:+ "/" +:+ Py.str_of_nat numFeatures
                +:+ " joins complete") ;;
    ret (corals_input, joinFields_str)
  else ret (corals_input, joinFields_str).

(** Lines 234-256: [for counter, fc in enumerate(features, start=1)]. *)
Fixpoint join_loop (P : parameters) (coral_spatialReference_WKID : Z)
         (numFeatures counter : nat) (features : list string)
         (corals_input : string * string) (joinFields_str : list string)
  : M ((string * string) * list string) :=
  match features with
  | [] => ret (corals_input, joinFields_str)
  | fc :: rest =>
      r <- join_step P coral_spatialReference_WKID numFeatures counter fc
                     corals_input joinFields_str ;;
      join_loop P coral_spatialReference_WKID numFeatures (S counter) rest r.1 r.2
  end.

(** *** The recode pass *)

(** The dictionary [attributes]: a Python dict keeps its keys in the order
    of their first insertion, which is the order the log prints them in. *)
Fixpoint dict_get (k : value) (d : list (value * Z)) : option Z :=
  match d with
  | [] => None
  | (k', c) :: d' => if decide (k' = k) then Some c else dict_get k d'
  end.

Fixpoint dict_set (k : value) (c : Z) (d : list (value * Z)) : list (value * Z) :=
  match d with
  | [] => [(k, c)]
  | (k', c') :: d' =>
      if decide (k' = k) then (k', c) :: d' else (k', c') :: dict_set k c d'
  end.

(** Lines 272-279: the read-only pass.  It returns [string_fields], emptied
    when the field has more than six distinct values. *)
Fixpoint first_pass (field : string) (cursor : list value)
         (unique_attributes : list value) (string_fields : list string)
  : M (list string) :=
  match cursor with
  | [] => ret string_fields
  | row0 :: rest =>
      let unique_attributes :=
        if decide (row0 ∈ unique_attributes)
        then unique_attributes else unique_attributes ++ [row0] in
      if (6 <? length unique_attributes)%nat then
        print (field +:+ " has more than 6 unique attributes. " +:+ field
               +:+ " removed from list ") ;;
        ret []
      else first_pass field rest unique_attributes string_fields
  end.

(** Lines 286-296: the cells the update cursor writes, the dictionary and
    the next free code after the rows of [cursor]. *)
Fixpoint second_pass (cursor : list value) (attributes : list (value * Z)) (i : Z)
  : list value * list (value * Z) * Z :=
  match cursor with
  | [] => ([], attributes, i)
  | row0 :: rest =>
      match row0 with
      | VNone =>
          let '(written, attributes', i') :=
            second_pass rest (dict_set VNone 0 attributes) i in
          (VStr "0" :: written, attributes', i')
      | _ =>
          match dict_get row0 attributes with
          | None =>
              let '(written, attributes', i') :=
                second_pass rest (dict_set row0 i attributes) (i + 1) in
              (VInt i :: written, attributes', i')
          | Some c =>
              let '(written, attributes', i') := second_pass rest attributes i in
              (VInt c :: written, attributes', i')
          end
      end
  end.

Definition dictionary_line (kv : value * Z) : string :=
  "     " +:+ str_of_value kv.1 +:+ ":" +:+ Py.str_of_int kv.2.

(** Lines 268-301: the body of the loop over [joinFields_str]. *)
Definition recode_field (corals_output : string * string) (field : string) : M unit :=
  let string_fields := [field] in
  cursor <- open_cursor corals_output field ;;
  string_fields <- first_pass field cursor [] string_fields ;;
  match string_fields with
  | [] => ret tt
  | field0 :: _ =>
      cursor <- open_cursor corals_output field0 ;;
      let '(written, attributes, _) := second_pass cursor [] 1 in
      update_rows corals_output field0 written ;;
      AddMessage field ;;
      for_each attributes (fun kv => AddMessage (dictionary_line kv)) ;;
      AddMessage "---------------"
  end.

(** Lines 263-303. *)
Definition recode_pass (P : parameters) (joinFields_str : list string) : M unit :=
  if bool_decide (update_fields P = Some "Yes") then
    AddMessage "---------------" ;;
    AddMessage "---------------" ;;
    AddMessage "Data Dictionary" ;;
    AddMessage "---------------" ;;
    for_each joinFields_str (recode_field (corals_output P)) ;;
    AddMessage "---------------" ;;
    AddMessage "---------------"
  else ret tt.

(** *** [execute] *)

(** Lines 139-151: the two checks that end the run. *)
Definition preflight : M (list string) :=
  features <- ListFeatureClasses (Some "Polygon") ;;
  let numFeatures := length features in
  extension <- CheckExtension_Spatial ;;
  (if negb (String.eqb extension "Available") then
     AddError "ArcGIS Spatial Analyst extension is not available" ;; sys_exit
   else ret tt) ;;
  (if (numFeatures =? 0)%nat then
     AddError "There are no polygon features in the workspace." ;; sys_exit
   else ret tt) ;;
  ret features.

(** Lines 232-260: the join chain and the copy of its result. *)
Definition join_chain (P : parameters) (coral_spatialReference_WKID : Z)
           (numFeatures : nat) (features : list string) : M (list string) :=
  r <- join_loop P coral_spatialReference_WKID numFeatures 1 features
                 (corals_input P) [] ;;
  CopyFeatures_management r.1 (corals_output P) ;;
  ret r.2.

(** Lines 125-303: the body of the [try] statement.  The settings
    [overwriteOutput], [scratchWorkspace] and [extent] are written for the
    engine and never read by the script. *)
Definition execute_try (P : parameters) : M unit :=
  modify (with_workspace (workspace P)) ;;
  features <- preflight ;;
  let numFeatures := length features in
  coral_spatialReference <- Describe (corals_input P) ;;
  let coral_spatialReference_WKID := factoryCode coral_spatialReference in
  features <- (if negb (is_gdb (workspace P))
               then convert_shapefiles features else ret features) ;;
  joinFields_str <- join_chain P coral_spatialReference_WKID numFeatures features ;;
  recode_pass P joinFields_str.

Definition newline : string := String (ascii_of_nat 10) EmptyString.

Definition str_of_exn (x : exn) : string :=
  match x with
  | ExecuteError msgs => msgs
  | SystemExit => ""
  | PyError info => info
  end.

(** Lines 308-327.  The text of the traceback is not modelled. *)
Definition execute_except (x : exn) : M unit :=
  match x with
  | ExecuteError _ =>
      m <- GetMessages_2 ;; print m ;; AddError m
  | _ =>
      let tbinfo := "<traceback>" in
      let pymsg := "PYTHON ERRORS:" +:+ newline +:+ "Traceback info:" +:+ newline
                   +:+ tbinfo +:+ newline +:+ "Error Info:" +:+ newline
                   +:+ str_of_exn x in
      m <- GetMessages_2 ;;
      let msgs := "ArcPy ERRORS:" +:+ newline +:+ m +:+ newline in
      AddError pymsg ;;
      AddError msgs ;;
      print pymsg ;;
      print msgs
  end.

(** Lines 330-336. *)
Definition execute_finally : M unit :=
  scratchGDB <- gets env_scratchGDB ;;
  modify (with_workspace scratchGDB) ;;
  scratch_features <- ListFeatureClasses None ;;
  for_each scratch_features (fun scratchFeature =>
    ws <- gets env_workspace ;;
    Delete_management (ws, scratchFeature)).

Definition execute (P : parameters) : M unit :=
  try_finally (try_except (execute_try P) execute_except) execute_finally.

End Geoprocessing.

(** ** The choice list of the deletion parameter *)

(** Lines 103-112: the entries one layer adds to the list.  The dictionary of
    the source holds one key at a time, so its loop runs once. *)
Fixpoint offer_fields (fc : string) (lFields : list Field) (fields : list string)
  : list string :=
  match lFields with
  | [] => fields
  | fd :: rest =>
      if negb (reserved (name fd))
      then offer_fields fc rest (fields ++ [fc +:+ ":" +:+ name fd])
      else offer_fields fc rest fields
  end.

(** Lines 101-112. *)
Fixpoint offer_features (features : list string) (fields : list string)
  : M (list string) :=
  match features with
  | [] => ret fields
  | fc :: rest =>
      ws <- gets env_workspace ;;
      lFields <- ListFields (ws, fc) ;;
      offer_features rest (offer_fields fc lFields fields)
  end.

(** Lines 90-115: [updateParameters], from whether the workspace parameter
    was altered and its text to the list assigned to the filter of the
    deletion parameter. *)
Definition updateParameters (workspace_altered : bool) (workspace_valueAsText : string)
  : M (list string) :=
  if workspace_altered then
    modify (with_workspace workspace_valueAsText) ;;
    features <- ListFeatureClasses (Some "Polygon") ;;
    offer_features features []
  else ret [].

(** * Notions used by the statements *)

(** ** The data dictionary, as the specification describes it *)

(** The distinct values of a column, in the order of their first encounter. *)
Fixpoint first_seen (column : list value) : list value :=
  match column with
  | [] => []
  | v :: rest => v :: filter (fun w => w ≠ v) (first_seen rest)
  end.

Definition non_null (column : list value) : list value :=
  filter (fun v => v ≠ VNone) column.

(** The rank of [v] in [l], counted from zero. *)
Fixpoint position (v : value) (l : list value) : nat :=
  match l with
  | [] => O
  | w :: rest => if decide (w = v) then O else S (position v rest)
  end.

(** The code of a value: 0 for null, and for the n-th distinct value that is
    not null, n. *)
Definition spec_code (column : list value) (v : value) : Z :=
  match v with
  | VNone => 0
  | _ => Z.of_nat (S (position v (first_seen (non_null column))))
  end.

Definition spec_mapping (column : list value) : list (value * Z) :=
  (fun v => (v, spec_code column v)) <$> first_seen column.

(** What the recoded column holds: the text ['0'] where it was null, the
    integer code elsewhere. *)
Definition spec_cell (column : list value) (v : value) : value :=
  match v with
  | VNone => VStr "0"
  | _ => VInt (spec_code column v)
  end.

Definition spec_written (column : list value) : list value :=
  spec_cell column <$> column.

(** The line [print]ed for a field that is given up. *)
Definition diagnostic (field : string) : string :=
  field +:+ " has more than 6 unique attributes. " +:+ field +:+ " removed from list ".

(** * The effect of the field steps on a layer *)

(** The layer once [delete_join_fields] is through. *)
Definition deleted (text : option string) (l : layer) : layer :=
  match text with
  | None => l
  | Some t =>
      foldl (fun l f => if Py.contains (name f) t then delete_fields [name f] l else l)
            l (fields l)
  end.

(** The layer once the renaming loop has gone through the fields [fs]. *)
Definition renamed (feature_name : string) (fs : list Field) (l : layer) : layer :=
  foldl (fun l f =>
           if reserved (name f) then l
           else alter_field (name f) (new_field_name feature_name (name f)) l)
        l fs.

(** The names the renaming loop appends to [joinFields_str]. *)
Definition collected (feature_name : string) (fs : list Field) : list string :=
  (fun f => new_field_name feature_name (name f))
    <$> filter (fun f => reserved (name f) = false /\ type f = "String") fs.

(** The layer as it is joined: fields deleted, then renamed. *)
Definition prepared (text : option string) (feature_name : string) (l : layer) : layer :=
  renamed feature_name (fields (deleted text l)) (deleted text l).

(** The layer a join leaves behind once its bookkeeping fields are deleted. *)
Definition join_result (SpatialJoin_rows : layer -> layer -> list (gmap string value))
           (target join : layer) : layer :=
  delete_fields ["Join_Count"; "TARGET_FID"] (join_layer SpatialJoin_rows target join).

(** [e'] is [e] after some geoprocessing: same settings, the datasets [ds']
    and the calls [cs] in addition. *)
Definition evolves (e e' : engine) (ds' : gmap (string * string) layer)
           (cs : list call) : Prop :=
  env_workspace e' = env_workspace e /\
  env_scratchGDB e' = env_scratchGDB e /\
  extension_Spatial e' = extension_Spatial e /\
  datasets e' = ds' /\
  calls e' = calls e ++ cs.

(** * The join chain, as the specification describes it *)

(** [e'] has the settings of [e] and the datasets [ds']. *)
Definition settles (e e' : engine) (ds' : gmap (string * string) layer) : Prop :=
  env_workspace e' = env_workspace e /\
  env_scratchGDB e' = env_scratchGDB e /\
  datasets e' = ds'.

(** The path under which the loop works on the layer [fc]: its copy in the
    scratch database when the workspace is a geodatabase, the layer itself
    otherwise. *)
Definition work_path (P : parameters) (e : engine) (fc : string) : string * string :=
  if is_gdb (workspace P) then (env_scratchGDB e, fc) else (env_workspace e, fc).

(** The path [change_spatial_reference] projects the layer [fc] to. *)
Definition project_path (e : engine) (fc : string) : string * string :=
  (env_scratchGDB e, fc +:+ "_").

(** The polygon layers among [features], each as it is joined. *)
Definition joined_layers (P : parameters) (ds : gmap (string * string) layer)
           (ws : string) (features : list string) : list layer :=
  omap (fun fc =>
          match ds !! (ws, fc) with
          | Some l =>
              if String.eqb (shapeType l) "Polygon"
              then Some (prepared (fields_to_delete P) fc l)
              else None
          | None => None
          end)
       features.

(** The names the renaming loop collects over the whole chain. *)
Definition collected_all (P : parameters) (ds : gmap (string * string) layer)
           (ws : string) (features : list string) : list string :=
  features ≫= (fun fc =>
    match ds !! (ws, fc) with
    | Some l =>
        if String.eqb (shapeType l) "Polygon"
        then collected fc (fields (deleted (fields_to_delete P) l))
        else []
    | None => []
    end).

(** A field of a layer survives the deletion step and is then renamed. *)
Definition survives (text : option string) (f : Field) : Prop :=
  match text with
  | None => True
  | Some t => Py.contains (name f) t = false
  end.

Global Instance survives_dec text f : Decision (survives text f).
Proof. destruct text; simpl; apply _. Defined.



(** * What the recode pass leaves alone *)

(** [l'] is [l] but for the cells of the fields [joinFields_str]. *)
Definition agree_outside (joinFields_str : list string) (l l' : layer) : Prop :=
  factoryCode l' = factoryCode l /\
  shapeType l' = shapeType l /\
  fields l' = fields l /\
  Forall2 (fun r r' : gmap string value =>
             forall g, g ∉ joinFields_str -> r' !! g = r !! g)
          (rows l) (rows l').

(** The datasets [ds'] are [ds] but for such cells of the table [out]. *)
Definition recode_frame (joinFields_str : list string) (out : string * string)
           (ds ds' : gmap (string * string) layer) : Prop :=
  (forall p, p ≠ out -> ds' !! p = ds !! p) /\
  option_Forall2 (agree_outside joinFields_str) (ds !! out) (ds' !! out).

(** * The footprint of a run *)

(** [e'] has the scratch database of [e], and the datasets of [e] outside
    the scratch database [S] and the path [out]. *)
Definition confined (S : string) (out : string * string) (e e' : engine) : Prop :=
  env_scratchGDB e' = env_scratchGDB e /\
  forall p, p.1 ≠ S -> p ≠ out -> datasets e' !! p = datasets e !! p.

(** The computation [m], run with [S] as scratch database, and with [S] as
    current workspace unless [gdb] holds, writes into [S] and to [out] only,
    and leaves the two settings as they are, whether it fails or not. *)
Definition stays {A} (S : string) (out : string * string) (gdb : bool) (m : M A)
  : Prop :=
  forall e, env_scratchGDB e = S -> (gdb = true \/ env_workspace e = S) ->
    confined S out e (m e).2 /\ env_workspace (m e).2 = env_workspace e.

(** * What a run logs *)

(** The computation [m] only adds to the log, and what it adds holds no
    error line unless it fails. *)
Definition quiet {A} (m : M A) : Prop :=
  forall e, exists logged,
    messages (m e).2 = messages e ++ logged /\
    (forall a, (m e).1 = Ok a ->
               Forall (fun line : severity * string => line.1 = Message) logged).

(** The computation [m] logs nothing. *)
Definition silent {A} (m : M A) : Prop :=
  forall e, messages (m e).2 = messages e.

(** The three lines the loop logs for its [counter]-th layer. *)
Definition progress_lines (numFeatures counter : nat) : list (severity * string) :=
  [(Message, "change spatial reference complete");
   (Message, "clean complete");
   (Message, Py.str_of_nat counter +:+ "/" +:+ Py.str_of_nat numFeatures
             +:+ " joins complete")].

(** * Sample data *)

Module Demo.

Definition system_fields : list Field :=
  [mkField "OBJECTID" "OID"; mkField "Shape" "Geometry";
   mkField "Shape_Length" "Double"; mkField "Shape_Area" "Double"].

Definition reef : layer :=
  mkLayer 32617 "Polygon" (system_fields ++ [mkField "NAME" "String"])
          [ {["NAME" := VStr "fore reef"]}; {["NAME" := VStr "lagoon"]} ].

Definition depth : layer :=
  mkLayer 4326 "Polygon"
          (system_fields ++ [mkField "ZONE" "String"; mkField "METRES" "Double"])
          [ {["ZONE" := VStr "shallow"]} ].

Definition corals : layer :=
  mkLayer 4326 "Point"
          [mkField "OBJECTID" "OID"; mkField "Shape" "Geometry";
           mkField "SITE" "String"]
          [ {["SITE" := VStr "A"]}; {["SITE" := VStr "B"]}; {["SITE" := VStr "C"]} ].

(** A join that matches every target row with the first row of the layer. *)
Definition first_row_join (target join : layer) : list (gmap string value) :=
  (fun r => r ∪ default ∅ (head (rows join))) <$> rows target.

Definition workspace_gdb : string := "C:/data/reef.gdb".
Definition scratch_gdb : string := "C:/temp/scratch.gdb".
Definition target_path : string * string := ("C:/data/survey.gdb", "corals").
Definition output_path : string * string := ("C:/data/survey.gdb", "corals_joined").

Definition engine0 : engine :=
  mkEngine "" scratch_gdb "Available"
           (list_to_map [ ((workspace_gdb, "reef"), reef);
                          ((workspace_gdb, "depth"), depth);
                          (target_path, corals) ])
           [] [] "" [].

Definition parameters0 : parameters :=
  mkParameters workspace_gdb target_path output_path None (Some "Yes").

(** A joined layer whose field [reefNAME] holds one null and the given
    texts. *)
Definition joined (texts : list string) : layer :=
  mkLayer 4326 "Point"
          [mkField "OBJECTID" "OID"; mkField "Shape" "Geometry";
           mkField "SITE" "String"; mkField "reefNAME" "String"]
          (∅ :: ((fun s => {["reefNAME" := VStr s; "SITE" := VStr "A"]}) <$> texts)).

Definition engine_with (l : layer) : engine :=
  mkEngine scratch_gdb scratch_gdb "Available" {[ output_path := l ]} [] [] "" [].

(** A layer with a field whose name is part of the name of another. *)
Definition zones : layer :=
  mkLayer 4326 "Polygon"
          (system_fields ++ [mkField "ZONE" "String"; mkField "ZONE_NAME" "String";
                             mkField "METRES" "Double"])
          [].

Definition engine_zones : engine :=
  mkEngine workspace_gdb scratch_gdb "Available" {[ (scratch_gdb, "reef") := zones ]}
           [] [] "" [].

(** Two layers with long names that differ at the front only. *)
Definition north : string := "north_reef_geomorphic_zones_2019".
Definition south : string := "south_reef_geomorphic_zones_2019".

Definition engine_long_names : engine :=
  mkEngine workspace_gdb scratch_gdb "Available"
           (list_to_map [ ((workspace_gdb, north), depth);
                          ((workspace_gdb, south), depth);
                          (target_path, corals) ])
           [] [] "" [].

End Demo.

(** * Properties *)

Local Close Scope Z_scope.

(** A decidable fact about closed data, by evaluation. *)
Ltac by_evaluation := apply (bool_decide_unpack _); vm_compute; exact I.

(** ** Strings *)

Lemma string_length_app (s t : string) :
  String.length (s +:+ t) = (String.length s + String.length t)%nat.
Proof. induction s as [|c s IH]; simpl; [done | by rewrite IH]. Qed.

Lemma drop_length (n : nat) (s : string) :
  String.length (Py.drop n s) = (String.length s - n)%nat.
Proof.
  revert s. induction n as [|n IH]; intros s.
  - simpl. lia.
  - destruct s as [|c s]; simpl; [done | apply IH].
Qed.

(** [s[n:]] is what is left of [s] once its first [n] characters are gone. *)
Lemma drop_is_tail (n : nat) (s : string) :
  n <= String.length s ->
  exists front, s = front +:+ Py.drop n s /\ String.length front = n.
Proof.
  revert s. induction n as [|n IH]; intros s Hn.
  - by exists EmptyString.
  - destruct s as [|c s]; simpl in Hn; [lia |].
    destruct (IH s) as (front & Heq & Hlen); [lia |].
    exists (String c front). split; [| by simpl; rewrite Hlen].
    change (String c s = String c (front +:+ Py.drop n s)). congruence.
Qed.

Lemma reserved_spec (field_name : string) :
  reserved field_name = true <->
  field_name ∈ ["OBJECTID"; "Shape"; "Shape_Length"; "Shape_Area"].
Proof.
  unfold reserved. rewrite !elem_of_cons, elem_of_nil.
  destruct (String.eqb_spec field_name "OBJECTID");
    destruct (String.eqb_spec field_name "Shape");
    destruct (String.eqb_spec field_name "Shape_Length");
    destruct (String.eqb_spec field_name "Shape_Area"); simpl; intuition congruence.
Qed.

(** The new name never exceeds the 31 characters the engine allows. *)
Lemma new_field_name_length (feature_name field_name : string) :
  (String.length (new_field_name feature_name field_name) <= 31)%nat.
Proof.
  unfold new_field_name.
  destruct (Nat.ltb_spec 31 (String.length (feature_name +:+ field_name))).
  - rewrite drop_length. lia.
  - lia.
Qed.

(** ** Distinct values of a column *)

Lemma elem_of_first_seen (l : list value) (v : value) : v ∈ first_seen l <-> v ∈ l.
Proof.
  induction l as [|w l IH]; simpl; [done |].
  rewrite !elem_of_cons, list_elem_of_filter, IH.
  destruct (decide (v = w)); tauto.
Qed.

Lemma NoDup_first_seen (l : list value) : NoDup (first_seen l).
Proof.
  induction l as [|w l IH]; simpl; [constructor |].
  apply NoDup_cons. split.
  - rewrite list_elem_of_filter. tauto.
  - by apply NoDup_filter.
Qed.

Lemma filter_filter_comm {A} (P Q : A -> Prop)
      `{!forall x, Decision (P x)} `{!forall x, Decision (Q x)} (l : list A) :
  filter P (filter Q l) = filter Q (filter P l).
Proof. rewrite !list_filter_filter. apply list_filter_iff. tauto. Qed.

Lemma first_seen_filter (P : value -> Prop) `{!forall x, Decision (P x)} (l : list value) :
  first_seen (filter P l) = filter P (first_seen l).
Proof.
  induction l as [|w l IH]; simpl; [done |].
  rewrite filter_cons. destruct (decide (P w)); simpl.
  - rewrite filter_cons_True by done. rewrite IH. by rewrite filter_filter_comm.
  - rewrite filter_cons_False by done. rewrite IH.
    rewrite list_filter_filter. apply list_filter_iff. intuition congruence.
Qed.

(** Appending to a column appends its new values to the distinct ones. *)
Lemma first_seen_app (a b : list value) :
  first_seen (a ++ b) = first_seen a ++ filter (fun v => v ∉ a) (first_seen b).
Proof.
  induction a as [|w a IH]; simpl.
  - symmetry. induction (first_seen b) as [|x l IHl]; [done |].
    rewrite filter_cons_True by apply not_elem_of_nil. by rewrite IHl.
  - rewrite IH, filter_app. do 2 f_equal.
    rewrite list_filter_filter. apply list_filter_iff.
    intros x. rewrite not_elem_of_cons. tauto.
Qed.

Lemma first_seen_snoc (a : list value) (v : value) :
  first_seen (a ++ [v]) = if decide (v ∈ a) then first_seen a else first_seen a ++ [v].
Proof.
  rewrite first_seen_app. simpl. rewrite filter_nil.
  destruct (decide (v ∈ a)).
  - rewrite filter_cons_False by tauto. by rewrite app_nil_r.
  - by rewrite filter_cons_True.
Qed.

Lemma position_app_l (v : value) (l k : list value) :
  v ∈ l -> position v (l ++ k) = position v l.
Proof.
  induction l as [|w l IH]; simpl; [by rewrite elem_of_nil |].
  rewrite elem_of_cons. destruct (decide (w = v)); [done |].
  intros [? | ?]; [congruence | by rewrite IH].
Qed.

Lemma position_snoc_new (v : value) (l : list value) :
  v ∉ l -> position v (l ++ [v]) = length l.
Proof.
  induction l as [|w l IH]; simpl.
  - by rewrite decide_True.
  - rewrite not_elem_of_cons. intros [? ?].
    rewrite decide_False by congruence. by rewrite IH.
Qed.

Lemma position_NoDup (l : list value) :
  NoDup l -> (fun v => position v l) <$> l = seq 0 (length l).
Proof.
  induction 1 as [|w l Hw Hl IH]; simpl; [done |].
  rewrite decide_True by done. f_equal.
  rewrite <- fmap_S_seq, <- IH, <- list_fmap_compose.
  apply list_fmap_ext. intros i x Hx. simpl.
  rewrite decide_False; [done |].
  intros ->. apply Hw. by eapply list_elem_of_lookup_2.
Qed.

(** ** The read-only pass *)

Lemma filter_not_in_nil (l : list value) : filter (fun v => v ∉ []) l = l.
Proof.
  induction l as [|x l IH]; [done |].
  rewrite filter_cons_True by apply not_elem_of_nil. by rewrite IH.
Qed.

Lemma unique_attributes_step (seen : list value) (v : value) (rest : list value) :
  let seen' := if decide (v ∈ seen) then seen else seen ++ [v] in
  seen' ++ filter (fun w => w ∉ seen') (first_seen rest) =
  seen ++ filter (fun w => w ∉ seen) (first_seen (v :: rest)).
Proof.
  simpl. destruct (decide (v ∈ seen)) as [Hin | Hnin].
  - rewrite filter_cons_False by tauto. f_equal.
    symmetry. apply list_filter_filter_l. intros x Hx ->. done.
  - rewrite filter_cons_True by done. rewrite <- app_assoc. simpl. do 2 f_equal.
    rewrite list_filter_filter. apply list_filter_iff.
    intros x. rewrite elem_of_app, list_elem_of_singleton. tauto.
Qed.

Lemma first_pass_run (field : string) (cursor seen : list value)
      (string_fields : list string) (e : engine) :
  length seen <= 6 ->
  first_pass field cursor seen string_fields e =
  if decide (length (seen ++ filter (fun w => w ∉ seen) (first_seen cursor)) <= 6)
  then (Ok string_fields, e)
  else (Ok [], with_stdout (diagnostic field) e).
Proof.
  revert seen. induction cursor as [|v rest IH]; intros seen Hseen.
  - simpl. rewrite filter_nil, app_nil_r. by rewrite decide_True.
  - pose proof (unique_attributes_step seen v rest) as Hstep.
    cbn zeta in Hstep. rewrite <- Hstep. cbn [first_pass].
    set (seen' := if decide (v ∈ seen) then seen else seen ++ [v]) in *.
    destruct (Nat.ltb_spec 6 (length seen')) as [Hbig | Hsmall].
    + rewrite decide_False; [done |]. rewrite length_app. lia.
    + by apply IH.
Qed.

Lemma first_pass_spec (field : string) (column : list value) (e : engine) :
  first_pass field column [] [field] e =
  if decide (length (first_seen column) <= 6)
  then (Ok [field], e)
  else (Ok [], with_stdout (diagnostic field) e).
Proof.
  rewrite first_pass_run by (simpl; lia). simpl. by rewrite filter_not_in_nil.
Qed.

(** ** The rewriting pass *)

Lemma dict_get_mapping (pre : list value) (f : value -> Z) (l : list value) (v : value) :
  dict_get v ((fun w => (w, f w)) <$> l) = if decide (v ∈ l) then Some (f v) else None.
Proof.
  induction l as [|w l IH]; csimpl; [done |].
  destruct (decide (w = v)) as [-> | Hne].
  - by rewrite decide_True by apply list_elem_of_here.
  - rewrite IH. destruct (decide (v ∈ l)).
    + by rewrite decide_True by (by apply list_elem_of_further).
    + rewrite decide_False; [done |]. rewrite elem_of_cons. intuition congruence.
Qed.

Lemma dict_set_same (k : value) (c : Z) (d : list (value * Z)) :
  dict_get k d = Some c -> dict_set k c d = d.
Proof.
  induction d as [|[k' c'] d IH]; simpl; [done |].
  destruct (decide (k' = k)); [congruence | intros ?; by rewrite IH].
Qed.

Lemma dict_set_new (k : value) (c : Z) (d : list (value * Z)) :
  dict_get k d = None -> dict_set k c d = d ++ [(k, c)].
Proof.
  induction d as [|[k' c'] d IH]; simpl; [done |].
  destruct (decide (k' = k)); [done | intros ?; by rewrite IH].
Qed.

Lemma elem_of_non_null (l : list value) (v : value) :
  v ∈ non_null l <-> v ≠ VNone /\ v ∈ l.
Proof. unfold non_null. by rewrite list_elem_of_filter. Qed.

(** The code of a value does not change when the column grows. *)
Lemma spec_code_stable (pre rest : list value) (v : value) :
  v ∈ pre -> spec_code (pre ++ rest) v = spec_code pre v.
Proof.
  intros Hv. destruct v; simpl; [done | |];
    unfold non_null; rewrite filter_app, first_seen_app, position_app_l; try done;
    apply elem_of_first_seen, list_elem_of_filter; done.
Qed.

Lemma spec_mapping_snoc_old (pre : list value) (v : value) :
  v ∈ pre -> spec_mapping (pre ++ [v]) = spec_mapping pre.
Proof.
  intros Hv. unfold spec_mapping. rewrite first_seen_snoc, decide_True by done.
  apply list_fmap_ext. intros i w Hw. f_equal. apply spec_code_stable.
  apply elem_of_first_seen. by eapply list_elem_of_lookup_2.
Qed.

Lemma spec_mapping_snoc_new (pre : list value) (v : value) :
  v ∉ pre ->
  spec_mapping (pre ++ [v]) = spec_mapping pre ++ [(v, spec_code (pre ++ [v]) v)].
Proof.
  intros Hv. unfold spec_mapping. rewrite first_seen_snoc, decide_False by done.
  rewrite fmap_app. simpl. f_equal.
  apply list_fmap_ext. intros i w Hw. f_equal. apply spec_code_stable.
  apply elem_of_first_seen. by eapply list_elem_of_lookup_2.
Qed.

Lemma spec_code_new (pre : list value) (v : value) :
  v ≠ VNone -> v ∉ pre ->
  spec_code (pre ++ [v]) v = (1 + Z.of_nat (length (first_seen (non_null pre))))%Z.
Proof.
  intros Hnull Hv.
  assert (position v (first_seen (non_null (pre ++ [v])))
          = length (first_seen (non_null pre))) as Hpos.
  { unfold non_null. rewrite filter_app, filter_cons_True, filter_nil by done.
    rewrite first_seen_snoc, decide_False.
    - apply position_snoc_new. rewrite elem_of_first_seen, list_elem_of_filter.
      tauto.
    - rewrite list_elem_of_filter. tauto. }
  destruct v; simpl; [done | |]; rewrite Hpos; lia.
Qed.

Lemma non_null_count_snoc (pre : list value) (v : value) :
  length (first_seen (non_null (pre ++ [v]))) =
  if decide (v ≠ VNone /\ v ∉ pre)
  then S (length (first_seen (non_null pre)))
  else length (first_seen (non_null pre)).
Proof.
  unfold non_null. rewrite filter_app. simpl. rewrite filter_cons, filter_nil.
  destruct (decide (v ≠ VNone)) as [Hn | Hn].
  - rewrite first_seen_snoc.
    destruct (decide (v ∈ filter (fun w => w ≠ VNone) pre)) as [Hin | Hnin].
    + rewrite decide_False; [done |].
      apply list_elem_of_filter in Hin. tauto.
    + rewrite decide_True.
      * rewrite length_app. simpl. lia.
      * split; [done |]. intros ?. apply Hnin, list_elem_of_filter. done.
  - rewrite app_nil_r. rewrite decide_False; [done | tauto].
Qed.

Lemma dict_get_spec_mapping (pre : list value) (v : value) :
  dict_get v (spec_mapping pre) =
  if decide (v ∈ pre) then Some (spec_code pre v) else None.
Proof.
  unfold spec_mapping. rewrite (dict_get_mapping pre).
  destruct (decide (v ∈ pre)) as [Hin | Hnin].
  - by rewrite decide_True by (by apply elem_of_first_seen).
  - by rewrite decide_False by (by rewrite elem_of_first_seen).
Qed.

Lemma second_pass_non_null (v : value) (rest : list value)
      (attributes : list (value * Z)) (i : Z) :
  v ≠ VNone ->
  second_pass (v :: rest) attributes i =
  match dict_get v attributes with
  | None =>
      let '(written, attributes', i') :=
        second_pass rest (dict_set v i attributes) (i + 1)%Z in
      (VInt i :: written, attributes', i')
  | Some c =>
      let '(written, attributes', i') := second_pass rest attributes i in
      (VInt c :: written, attributes', i')
  end.
Proof. by destruct v. Qed.

Lemma spec_cell_non_null (column : list value) (v : value) :
  v ≠ VNone -> spec_cell column v = VInt (spec_code column v).
Proof. by destruct v. Qed.

(** The rewriting pass, started after the rows of [pre], computes what the
    specification says of the whole column. *)
Lemma second_pass_from (pre rest : list value) :
  second_pass rest (spec_mapping pre)
              (1 + Z.of_nat (length (first_seen (non_null pre))))%Z =
  (spec_cell (pre ++ rest) <$> rest,
   spec_mapping (pre ++ rest),
   (1 + Z.of_nat (length (first_seen (non_null (pre ++ rest)))))%Z).
Proof.
  revert pre. induction rest as [|v rest IH]; intros pre.
  - simpl. by rewrite app_nil_r.
  - assert (pre ++ v :: rest = (pre ++ [v]) ++ rest) as Hsplit
        by (by rewrite <- app_assoc).
    pose proof (non_null_count_snoc pre v) as Hcount.
    pose proof (dict_get_spec_mapping pre v) as Hget.
    assert (v ∈ pre ++ [v]) as Hlast
        by (apply elem_of_app; right; apply list_elem_of_here).
    destruct (decide (v = VNone)) as [-> | Hnull].
    + (* a null row *)
      cbn [second_pass].
      assert (dict_set VNone 0%Z (spec_mapping pre) = spec_mapping (pre ++ [VNone])) as ->.
      { destruct (decide (VNone ∈ pre)) as [Hin | Hnin].
        - rewrite spec_mapping_snoc_old by done. by apply dict_set_same.
        - rewrite spec_mapping_snoc_new by done. by apply dict_set_new. }
      rewrite decide_False in Hcount by (by intros [? _]). rewrite <- Hcount.
      rewrite IH, <- Hsplit. done.
    + rewrite second_pass_non_null, Hget by done.
      rewrite fmap_cons, spec_cell_non_null by done.
      rewrite Hsplit, (spec_code_stable (pre ++ [v]) rest v) by done.
      destruct (decide (v ∈ pre)) as [Hin | Hnin].
      * rewrite decide_False in Hcount by (by intros [_ ?]). rewrite <- Hcount.
        rewrite <- (spec_mapping_snoc_old pre v) by done.
        rewrite IH. by rewrite spec_code_stable.
      * rewrite decide_True in Hcount by done.
        pose proof (spec_code_new pre v Hnull Hnin) as Hcode.
        rewrite dict_set_new, <- Hcode by done.
        rewrite <- spec_mapping_snoc_new by done.
        replace (spec_code (pre ++ [v]) v + 1)%Z
          with (1 + Z.of_nat (length (first_seen (non_null (pre ++ [v])))))%Z
          by (rewrite Hcode, Hcount; lia).
        by rewrite IH.
Qed.

Lemma second_pass_spec (column : list value) :
  second_pass column [] 1%Z =
  (spec_written column, spec_mapping column,
   (1 + Z.of_nat (length (first_seen (non_null column))))%Z).
Proof. exact (second_pass_from [] column). Qed.

(** ** The mapping of the data dictionary *)

Lemma spec_mapping_keys (column : list value) :
  (spec_mapping column).*1 = first_seen column.
Proof.
  unfold spec_mapping. rewrite <- list_fmap_compose.
  induction (first_seen column) as [|v l IH]; csimpl; [done | by rewrite IH].
Qed.

Lemma spec_mapping_codes (column : list value) :
  (spec_mapping column).*2 = spec_code column <$> first_seen column.
Proof.
  unfold spec_mapping. rewrite <- list_fmap_compose.
  induction (first_seen column) as [|v l IH]; csimpl; [done | by rewrite IH].
Qed.

(** The distinct values that are not null get 1, 2, ... in the order of
    their first encounter. *)
Lemma spec_codes_non_null (column : list value) :
  spec_code column <$> first_seen (non_null column) =
  Z.of_nat <$> seq 1 (length (first_seen (non_null column))).
Proof.
  rewrite <- fmap_S_seq, <- (position_NoDup (first_seen (non_null column)))
    by apply NoDup_first_seen.
  rewrite <- !list_fmap_compose. apply list_fmap_ext. intros i v Hv.
  apply list_elem_of_lookup_2, elem_of_first_seen, elem_of_non_null in Hv.
  destruct Hv as [Hv _]. by destruct v.
Qed.

Lemma position_inj (l : list value) (x y : value) :
  x ∈ l -> y ∈ l -> position x l = position y l -> x = y.
Proof.
  induction l as [|w l IH]; simpl; [by rewrite elem_of_nil |].
  rewrite !elem_of_cons.
  destruct (decide (w = x)), (decide (w = y)); try congruence.
  intros [? | ?] [? | ?] [= ?]; try congruence. by apply IH.
Qed.

Lemma spec_code_range (column : list value) (v : value) :
  v ∈ column -> v ≠ VNone ->
  (1 <= spec_code column v <= Z.of_nat (length (first_seen (non_null column))))%Z.
Proof.
  intros Hv Hnull.
  assert (spec_code column v ∈ spec_code column <$> first_seen (non_null column)) as Hc.
  { apply list_elem_of_fmap_2, elem_of_first_seen, elem_of_non_null. done. }
  rewrite spec_codes_non_null in Hc.
  apply list_elem_of_fmap in Hc as (n & -> & Hn). apply elem_of_seq in Hn. lia.
Qed.

Lemma spec_code_inj (column : list value) (x y : value) :
  x ∈ column -> y ∈ column -> spec_code column x = spec_code column y -> x = y.
Proof.
  intros Hx Hy Heq.
  destruct (decide (x = VNone)) as [-> | Hxn], (decide (y = VNone)) as [-> | Hyn].
  - done.
  - pose proof (spec_code_range column y Hy Hyn). simpl in Heq. lia.
  - pose proof (spec_code_range column x Hx Hxn). simpl in Heq. lia.
  - apply (position_inj (first_seen (non_null column)));
      [by apply elem_of_first_seen, elem_of_non_null ..|].
    destruct x, y; simpl in Heq; try done; lia.
Qed.

Lemma NoDup_spec_codes (column : list value) : NoDup (spec_mapping column).*2.
Proof.
  rewrite spec_mapping_codes. apply NoDup_fmap_2_strong; [| apply NoDup_first_seen].
  intros x y Hx Hy. rewrite elem_of_first_seen in Hx, Hy. by apply spec_code_inj.
Qed.

Lemma elem_of_spec_codes (column : list value) (c : Z) :
  c ∈ (spec_mapping column).*2 <->
  (1 <= c <= Z.of_nat (length (first_seen (non_null column))))%Z \/
  (c = 0%Z /\ VNone ∈ column).
Proof.
  rewrite spec_mapping_codes, list_elem_of_fmap. split.
  - intros (v & -> & Hv). rewrite elem_of_first_seen in Hv.
    destruct (decide (v = VNone)) as [-> | Hn]; [by right |].
    left. by apply spec_code_range.
  - intros [Hc | [-> Hnull]].
    + assert (c ∈ spec_code column <$> first_seen (non_null column)) as Hin.
      { rewrite spec_codes_non_null. apply list_elem_of_fmap.
        exists (Z.to_nat c). split; [lia |]. apply elem_of_seq. lia. }
      apply list_elem_of_fmap in Hin as (v & -> & Hv).
      exists v. split; [done |].
      apply elem_of_first_seen, elem_of_non_null in Hv. apply elem_of_first_seen. tauto.
    + exists VNone. split; [done | by apply elem_of_first_seen].
Qed.

(** ** One field of the recode pass *)

Lemma for_each_AddMessage {A} (f : A -> string) (l : list A) (e : engine) :
  for_each l (fun x => AddMessage (f x)) e =
  (Ok tt,
   mkEngine (env_workspace e) (env_scratchGDB e) (extension_Spatial e) (datasets e)
            (messages e ++ ((fun x => (Message, f x)) <$> l))
            (stdout e) (gp_errors e) (calls e)).
Proof.
  revert e. induction l as [|x l IH]; intros e.
  - simpl. unfold ret. rewrite app_nil_r. by destruct e.
  - cbn [for_each]. unfold bind, AddMessage, modify at 1.
    rewrite IH. simpl. by rewrite <- app_assoc.
Qed.

Lemma open_cursor_ok (table : string * string) (field : string) (l : layer) (e : engine) :
  datasets e !! table = Some l -> field ∈ names (fields l) ->
  open_cursor table field e = (Ok (row_get field <$> rows l), e).
Proof.
  intros Hl Hf. unfold open_cursor. rewrite Hl. by rewrite bool_decide_eq_true_2.
Qed.

(** A field with at most six distinct values is rewritten and logged. *)
Lemma recode_field_small (table : string * string) (field : string) (l : layer)
      (e : engine) :
  datasets e !! table = Some l -> field ∈ names (fields l) ->
  length (first_seen (row_get field <$> rows l)) <= 6 ->
  recode_field table field e =
  (Ok tt,
   mkEngine (env_workspace e) (env_scratchGDB e) (extension_Spatial e)
     (<[table := with_rows (zip_with (row_set field)
                              (spec_written (row_get field <$> rows l)) (rows l)) l]>
        (datasets e))
     (messages e ++ [(Message, field)]
        ++ ((fun kv => (Message, dictionary_line kv))
              <$> spec_mapping (row_get field <$> rows l))
        ++ [(Message, "---------------")])
     (stdout e) (gp_errors e)
     (calls e ++ (CallUpdateRow table field
                    <$> spec_written (row_get field <$> rows l)))).
Proof.
  intros Hl Hf Hsmall. unfold recode_field.
  unfold bind at 1. rewrite (open_cursor_ok _ _ l) by done.
  unfold bind at 1. rewrite first_pass_spec, decide_True by done.
  unfold bind at 1. rewrite (open_cursor_ok _ _ l) by done.
  rewrite second_pass_spec.
  unfold bind at 1. unfold update_rows. rewrite Hl.
  unfold bind at 1. unfold AddMessage at 1, modify at 1.
  unfold bind at 1. rewrite for_each_AddMessage.
  unfold AddMessage, modify, with_message. simpl. by rewrite <- !app_assoc.
Qed.

(** A field with more than six distinct values is only reported. *)
Lemma recode_field_large (table : string * string) (field : string) (l : layer)
      (e : engine) :
  datasets e !! table = Some l -> field ∈ names (fields l) ->
  6 < length (first_seen (row_get field <$> rows l)) ->
  recode_field table field e = (Ok tt, with_stdout (diagnostic field) e).
Proof.
  intros Hl Hf Hlarge. unfold recode_field.
  unfold bind at 1. rewrite (open_cursor_ok _ _ l) by done.
  unfold bind at 1. rewrite first_pass_spec, decide_False by lia. done.
Qed.

Lemma row_get_set (field : string) (v : value) (r : gmap string value) :
  row_get field (row_set field v r) = v.
Proof. unfold row_get, row_set. by rewrite lookup_insert_eq. Qed.

Lemma column_after_update (field : string) (g : value -> value)
      (rs : list (gmap string value)) :
  row_get field <$> zip_with (row_set field) (g <$> (row_get field <$> rs)) rs =
  g <$> (row_get field <$> rs).
Proof.
  induction rs as [|r rs IH]; csimpl; [done |]. by rewrite row_get_set, IH.
Qed.

(** C5.  A field in which the read-only pass finds more than six distinct
    values, nulls included, is given up: the run goes on, no dataset is
    changed and no row is passed to [updateRow], one diagnostic line is
    printed, and nothing about the field enters the logged data dictionary. *)
Theorem recode_gives_up_field_with_many_values
        (table : string * string) (field : string) (l : layer) (e : engine) :
  datasets e !! table = Some l ->
  field ∈ names (fields l) ->
  6 < length (first_seen (row_get field <$> rows l)) ->
  exists e',
    recode_field table field e = (Ok tt, e') /\
    datasets e' = datasets e /\
    calls e' = calls e /\
    stdout e' = stdout e ++ [diagnostic field] /\
    messages e' = messages e.
Proof.
  intros Hl Hf Hlarge. exists (with_stdout (diagnostic field) e).
  split; [by eapply recode_field_large | done].
Qed.

Lemma recode_gives_up_field_with_many_values_witness :
  let l := Demo.joined ["a"; "b"; "c"; "d"; "e"; "f"] in
  let e := Demo.engine_with l in
  datasets e !! Demo.output_path = Some l /\
  "reefNAME" ∈ names (fields l) /\
  6 < length (first_seen (row_get "reefNAME" <$> rows l)) /\
  exists e',
    recode_field Demo.output_path "reefNAME" e = (Ok tt, e') /\
    datasets e' = datasets e /\
    calls e' = calls e /\
    stdout e' = stdout e ++ [diagnostic "reefNAME"] /\
    messages e' = messages e.
Proof.
  assert (datasets (Demo.engine_with (Demo.joined ["a"; "b"; "c"; "d"; "e"; "f"]))
            !! Demo.output_path
          = Some (Demo.joined ["a"; "b"; "c"; "d"; "e"; "f"])) as H1
      by (vm_compute; reflexivity).
  assert ("reefNAME" ∈ names (fields (Demo.joined ["a"; "b"; "c"; "d"; "e"; "f"]))) as H2
      by by_evaluation.
  assert (6 < length (first_seen (row_get "reefNAME"
            <$> rows (Demo.joined ["a"; "b"; "c"; "d"; "e"; "f"])))) as H3
      by (vm_compute; lia).
  exact (conj H1 (conj H2 (conj H3
    (recode_gives_up_field_with_many_values _ _ _ _ H1 H2 H3)))).
Defined.

(** C4, as amended.  A field with at most six distinct values, nulls
    included, is recoded: every row receives its code, the text ['0'] where
    the cell was null and the integer code elsewhere; the mapping is logged in
    full, one line per distinct value in the order of first encounter; the
    distinct values that are not null get the codes 1, 2, ..., k in that
    order; null is recorded with code 0 when a null row occurs.  The codes of
    the mapping are pairwise distinct and are exactly 1..k, together with 0
    when and only when the field has a null row. *)
Theorem recode_assigns_first_seen_codes
        (table : string * string) (field : string) (l : layer) (e : engine) :
  datasets e !! table = Some l ->
  field ∈ names (fields l) ->
  length (first_seen (row_get field <$> rows l)) <= 6 ->
  let column := row_get field <$> rows l in
  let k := length (first_seen (non_null column)) in
  exists e' l',
    recode_field table field e = (Ok tt, e') /\
    datasets e' !! table = Some l' /\
    row_get field <$> rows l' = spec_written column /\
    calls e' = calls e ++ (CallUpdateRow table field <$> spec_written column) /\
    messages e' =
      messages e ++ (Message, field)
        :: ((fun kv => (Message, dictionary_line kv)) <$> spec_mapping column)
        ++ [(Message, "---------------")] /\
    (spec_mapping column).*1 = first_seen column /\
    spec_code column <$> first_seen (non_null column) = Z.of_nat <$> seq 1 k /\
    (VNone ∈ column -> (VNone, 0%Z) ∈ spec_mapping column) /\
    NoDup (spec_mapping column).*2 /\
    (forall c : Z,
        c ∈ (spec_mapping column).*2 <->
        (1 <= c <= Z.of_nat k)%Z \/ (c = 0%Z /\ VNone ∈ column)).
Proof.
  intros Hl Hf Hsmall column k.
  eexists _, _. split; [by apply (recode_field_small _ _ l) |].
  cbn [datasets calls messages]. rewrite lookup_insert_eq.
  split; [done |]. split; [apply column_after_update |].
  split; [done |]. split; [done |].
  split; [apply spec_mapping_keys |]. split; [apply spec_codes_non_null |].
  split.
  - intros Hnull. unfold spec_mapping. apply list_elem_of_fmap.
    exists VNone. split; [done | by apply elem_of_first_seen].
  - split; [apply NoDup_spec_codes | apply elem_of_spec_codes].
Qed.

Lemma recode_assigns_first_seen_codes_witness :
  let l := Demo.joined ["lagoon"; "crest"; "lagoon"] in
  let e := Demo.engine_with l in
  datasets e !! Demo.output_path = Some l /\
  "reefNAME" ∈ names (fields l) /\
  length (first_seen (row_get "reefNAME" <$> rows l)) <= 6 /\
  exists e' l',
    recode_field Demo.output_path "reefNAME" e = (Ok tt, e') /\
    datasets e' !! Demo.output_path = Some l' /\
    row_get "reefNAME" <$> rows l' = [VStr "0"; VInt 1; VInt 2; VInt 1] /\
    messages e' = [(Message, "reefNAME"); (Message, "     None:0");
                   (Message, "     lagoon:1"); (Message, "     crest:2");
                   (Message, "---------------")].
Proof.
  assert (datasets (Demo.engine_with (Demo.joined ["lagoon"; "crest"; "lagoon"]))
            !! Demo.output_path
          = Some (Demo.joined ["lagoon"; "crest"; "lagoon"])) as H1
      by (vm_compute; reflexivity).
  assert ("reefNAME" ∈ names (fields (Demo.joined ["lagoon"; "crest"; "lagoon"]))) as H2
      by by_evaluation.
  assert (length (first_seen (row_get "reefNAME"
            <$> rows (Demo.joined ["lagoon"; "crest"; "lagoon"]))) <= 6) as H3
      by (vm_compute; lia).
  split; [exact H1 |]. split; [exact H2 |]. split; [exact H3 |].
  destruct (recode_assigns_first_seen_codes _ _ _ _ H1 H2 H3)
    as (e' & l' & Hrun & Hl' & Hcol & _ & Hmsg & _).
  exists e', l'. split; [exact Hrun |]. split; [exact Hl' |].
  split; [rewrite Hcol; vm_compute; reflexivity |].
  rewrite Hmsg. vm_compute. reflexivity.
Defined.

(** C4 as the specification words it fails on a field without null: the two
    texts get the codes 1 and 2, and no value is mapped to 0, so the mapping
    is not onto 0..2. *)
Lemma recode_without_null_misses_zero :
  let '(written, attributes, _) :=
    second_pass [VStr "lagoon"; VStr "crest"; VStr "lagoon"] [] 1%Z in
  written = [VInt 1; VInt 2; VInt 1] /\
  attributes = [(VStr "lagoon", 1%Z); (VStr "crest", 2%Z)] /\
  ~ (forall c : Z, (0 <= c <= 2)%Z -> c ∈ attributes.*2).
Proof.
  cbv beta iota delta [second_pass dict_get dict_set]. simpl.
  split; [done |]. split; [done |].
  intros H. specialize (H 0%Z ltac:(lia)).
  rewrite !elem_of_cons, elem_of_nil in H. lia.
Qed.

(** ** Geoprocessing tools *)

Lemma evolves_refl (e : engine) : evolves e e (datasets e) [].
Proof. unfold evolves. by rewrite app_nil_r. Qed.

Lemma evolves_trans (e e1 e2 : engine) ds1 ds2 cs1 cs2 :
  evolves e e1 ds1 cs1 -> evolves e1 e2 ds2 cs2 -> evolves e e2 ds2 (cs1 ++ cs2).
Proof.
  unfold evolves. intros (-> & -> & -> & _ & Hc1) (-> & -> & -> & -> & ->).
  rewrite Hc1. by rewrite app_assoc.
Qed.

Lemma tool_ok (c : call) run (err : string) (e : engine) ds' :
  run (datasets e) = Some ds' ->
  exists e', tool c run err e = (Ok tt, e') /\ evolves e e' ds' [c] /\
             messages e' = messages e /\ stdout e' = stdout e.
Proof. intros Hrun. unfold tool. simpl. rewrite Hrun. by eexists. Qed.

Lemma Describe_ok (p : string * string) (l : layer) (e : engine) :
  datasets e !! p = Some l -> Describe p e = (Ok l, e).
Proof. intros Hl. unfold Describe. by rewrite Hl. Qed.

Lemma ListFields_ok (p : string * string) (l : layer) (e : engine) :
  datasets e !! p = Some l -> ListFields p e = (Ok (fields l), e).
Proof. intros Hl. unfold ListFields, bind. by rewrite (Describe_ok p l). Qed.

Lemma AlterField_ok (feature : string * string) (old new alias : string)
      (l : layer) (e : engine) :
  datasets e !! feature = Some l ->
  exists e',
    AlterField_management feature old new alias e = (Ok tt, e') /\
    evolves e e' (<[feature := alter_field old new l]> (datasets e))
            [CallAlterField feature old new alias] /\
    messages e' = messages e /\ stdout e' = stdout e.
Proof. intros Hl. apply tool_ok. by rewrite Hl. Qed.

Lemma DeleteField_ok (feature : string * string) (drop : list string)
      (l : layer) (e : engine) :
  datasets e !! feature = Some l ->
  exists e',
    DeleteField_management feature drop e = (Ok tt, e') /\
    evolves e e' (<[feature := delete_fields drop l]> (datasets e))
            [CallDeleteField feature drop] /\
    messages e' = messages e /\ stdout e' = stdout e.
Proof. intros Hl. apply tool_ok. by rewrite Hl. Qed.

Lemma CopyFeatures_ok (src dst : string * string) (l : layer) (e : engine) :
  datasets e !! src = Some l ->
  exists e',
    CopyFeatures_management src dst e = (Ok tt, e') /\
    evolves e e' (<[dst := l]> (datasets e)) [CallCopyFeatures src dst] /\
    messages e' = messages e /\ stdout e' = stdout e.
Proof. intros Hl. apply tool_ok. by rewrite Hl. Qed.

Lemma Project_ok (src dst : string * string) (wkid : Z) (l : layer) (e : engine) :
  datasets e !! src = Some l ->
  exists e',
    management_Project src dst wkid e = (Ok tt, e') /\
    evolves e e' (<[dst := project wkid l]> (datasets e)) [CallProject src dst wkid] /\
    messages e' = messages e /\ stdout e' = stdout e.
Proof. intros Hl. apply tool_ok. by rewrite Hl. Qed.

Lemma Delete_ok (feature : string * string) (l : layer) (e : engine) :
  datasets e !! feature = Some l ->
  exists e',
    Delete_management feature e = (Ok tt, e') /\
    evolves e e' (delete feature (datasets e)) [CallDelete feature] /\
    messages e' = messages e /\ stdout e' = stdout e.
Proof. intros Hl. apply tool_ok. by rewrite Hl. Qed.

(** ** Renaming *)

Lemma renamed_cons (feature_name : string) (f : Field) (fs : list Field) (l : layer) :
  renamed feature_name (f :: fs) l =
  renamed feature_name fs
          (if reserved (name f) then l
           else alter_field (name f) (new_field_name feature_name (name f)) l).
Proof. done. Qed.

Lemma rename_fields_run (feature : string * string) (fs : list Field)
      (joinFields_str : list string) (l : layer) (e : engine) :
  datasets e !! feature = Some l ->
  exists e',
    rename_fields feature fs joinFields_str e
      = (Ok (joinFields_str ++ collected feature.2 fs), e') /\
    evolves e e' (<[feature := renamed feature.2 fs l]> (datasets e))
            ((fun f => CallAlterField feature (name f)
                         (new_field_name feature.2 (name f))
                         (new_field_name feature.2 (name f)))
               <$> filter (fun f => reserved (name f) = false) fs) /\
    messages e' = messages e /\ stdout e' = stdout e.
Proof.
  revert joinFields_str l e. induction fs as [|f fs IH]; intros jf l e Hl.
  - exists e. simpl. unfold ret, collected. rewrite filter_nil, app_nil_r.
    rewrite insert_id by done. split; [done |]. split; [apply evolves_refl | done].
  - cbn [rename_fields]. unfold collected. rewrite !filter_cons, renamed_cons.
    destruct (reserved (name f)) eqn:Hres; cbn [negb].
    + rewrite decide_False by (by intros [? _]). rewrite decide_False by done.
      by apply IH.
    + rewrite (decide_True (P := false = false)) by done.
      destruct (AlterField_ok feature (name f) (new_field_name feature.2 (name f))
                              (new_field_name feature.2 (name f)) l e Hl)
        as (e1 & Hrun & Hev1 & Hm1 & Hs1).
      unfold os_path_split, bind at 1. rewrite Hrun.
      destruct (IH (if String.eqb (type f) "String"
                    then jf ++ [new_field_name feature.2 (name f)] else jf)
                   (alter_field (name f) (new_field_name feature.2 (name f)) l) e1)
        as (e' & Hrun' & Hev' & Hm' & Hs').
      { destruct Hev1 as (_ & _ & _ & -> & _). by rewrite lookup_insert_eq. }
      exists e'. rewrite Hrun'. split.
      * f_equal. f_equal. unfold collected.
        destruct (String.eqb_spec (type f) "String") as [Ht | Ht].
        -- rewrite decide_True by done. rewrite fmap_cons, <- app_assoc. done.
        -- rewrite decide_False by (by intros [_ ?]). done.
      * split; [| by rewrite Hm', Hs'].
        pose proof (evolves_trans _ _ _ _ _ _ _ Hev1 Hev') as Hev.
        simpl in Hev. rewrite fmap_cons.
        destruct Hev as (? & ? & ? & Hds & ?). repeat split; try done.
        destruct Hev1 as (_ & _ & _ & Hds1 & _).
        rewrite Hds, Hds1. apply insert_insert_eq.
Qed.

Lemma change_join_field_names_run (feature : string * string)
      (joinFields_str : list string) (l : layer) (e : engine) :
  datasets e !! feature = Some l ->
  exists e',
    change_join_field_names feature joinFields_str e
      = (Ok (joinFields_str ++ collected feature.2 (fields l)), e') /\
    evolves e e' (<[feature := renamed feature.2 (fields l) l]> (datasets e))
            ((fun f => CallAlterField feature (name f)
                         (new_field_name feature.2 (name f))
                         (new_field_name feature.2 (name f)))
               <$> filter (fun f => reserved (name f) = false) (fields l)) /\
    messages e' = messages e /\ stdout e' = stdout e.
Proof.
  intros Hl. unfold change_join_field_names, bind.
  rewrite (ListFields_ok feature l) by done. by apply rename_fields_run.
Qed.



(** ** Three runs that go wrong *)

(** C1, evaluated.  The target has WKID 4326 and the layer [reef] WKID
    32617.  One turn of the loop projects the scratch copy of [reef] into
    [reef_], and then joins the copy that was not projected: the layer handed
    to the spatial join still has WKID 32617.  The layer [depth], whose WKID
    is the target's, is joined without any projection. *)
Theorem reprojected_copy_is_not_joined :
  let e := with_workspace Demo.workspace_gdb Demo.engine0 in
  let fc := (Demo.scratch_gdb, "reef") in
  let fc_project := (Demo.scratch_gdb, "reef_") in
  let r := join_step Demo.first_row_join Demo.parameters0 4326 2 1 "reef"
                     Demo.target_path [] e in
  factoryCode <$> datasets e !! (Demo.workspace_gdb, "reef") = Some 32617%Z /\
  factoryCode <$> datasets e !! Demo.target_path = Some 4326%Z /\
  r.1 = Ok ((Demo.scratch_gdb, "tempCoralJoin0"), ["reefNAME"]) /\
  calls r.2 =
    [CallCopyFeatures (Demo.workspace_gdb, "reef") fc;
     CallProject fc fc_project 4326;
     CallAlterField fc "NAME" "reefNAME" "reefNAME";
     CallSpatialJoin Demo.target_path fc (Demo.scratch_gdb, "tempCoralJoin0");
     CallDeleteField (Demo.scratch_gdb, "tempCoralJoin0") ["Join_Count"; "TARGET_FID"]] /\
  factoryCode <$> datasets r.2 !! fc = Some 32617%Z /\
  factoryCode <$> datasets r.2 !! fc_project = Some 4326%Z /\
  calls (join_step Demo.first_row_join Demo.parameters0 4326 2 2 "depth"
                   Demo.target_path [] e).2 =
    [CallCopyFeatures (Demo.workspace_gdb, "depth") (Demo.scratch_gdb, "depth");
     CallAlterField (Demo.scratch_gdb, "depth") "ZONE" "depthZONE" "depthZONE";
     CallAlterField (Demo.scratch_gdb, "depth") "METRES" "depthMETRES" "depthMETRES";
     CallSpatialJoin Demo.target_path (Demo.scratch_gdb, "depth")
                     (Demo.scratch_gdb, "tempCoralJoin0");
     CallDeleteField (Demo.scratch_gdb, "tempCoralJoin0") ["Join_Count"; "TARGET_FID"]].
Proof. vm_compute. repeat split; reflexivity. Qed.

(** C2, evaluated.  The user selects the entry [reef:ZONE_NAME], and the
    layer [reef] has the fields [ZONE], [ZONE_NAME] and [METRES].  The
    deletion step also deletes the field [ZONE], which is no entry of the
    selection: its name occurs in the text of the selection. *)
Theorem delete_removes_unselected_field :
  let selected := ["reef:ZONE_NAME"] in
  let feature := (Demo.scratch_gdb, "reef") in
  let r := delete_join_fields feature (valueAsText selected) Demo.engine_zones in
  ~ "ZONE" ∈ selected /\
  r.1 = Ok feature /\
  calls r.2 = [CallDeleteField feature ["ZONE"]; CallDeleteField feature ["ZONE_NAME"]] /\
  (names ∘ fields) <$> datasets r.2 !! feature =
    Some ["OBJECTID"; "Shape"; "Shape_Length"; "Shape_Area"; "METRES"].
Proof.
  split.
  - rewrite list_elem_of_singleton. discriminate.
  - vm_compute. repeat split; reflexivity.
Qed.

(** C6, evaluated.  No new name has more than 31 characters.  But two
    layers whose names differ in their first characters only give the field
    [ZONE] the same new name, because the truncation cuts the front of the
    name: the rename step hands the same name twice to the output layer. *)
Theorem rename_gives_two_fields_one_name :
  let r := join_loop Demo.first_row_join Demo.parameters0 4326 2 1
                     [Demo.north; Demo.south] Demo.target_path []
                     Demo.engine_long_names in
  (forall feature_name field_name,
      String.length (new_field_name feature_name field_name) <= 31) /\
  Demo.north ≠ Demo.south /\
  new_field_name Demo.north "ZONE" = "reef_geomorphic_zones_2019ZONE" /\
  new_field_name Demo.south "ZONE" = "reef_geomorphic_zones_2019ZONE" /\
  match r.1 with Ok a => Some a.2 | Raise _ => None end =
    Some ["reef_geomorphic_zones_2019ZONE"; "reef_geomorphic_zones_2019ZONE"].
Proof.
  split; [apply new_field_name_length |].
  split; [discriminate |]. vm_compute. repeat split; reflexivity.
Qed.

(** ** Listing a workspace *)

Lemma ListFeatureClasses_run (feature_type : option string) (e : engine) :
  ListFeatureClasses feature_type e
  = (Ok (listing (env_workspace e) feature_type (datasets e)), e).
Proof. done. Qed.

Lemma elem_of_listing (ws : string) (feature_type : option string)
      (ds : gmap (string * string) layer) (n : string) :
  n ∈ listing ws feature_type ds <->
  exists l, ds !! (ws, n) = Some l /\
            match feature_type with
            | Some t => shapeType l = t
            | None => True
            end.
Proof.
  unfold listing. rewrite list_elem_of_fmap. split.
  - intros ([[w m] l] & -> & Hin). apply list_elem_of_filter in Hin as [Hl Hin].
    apply elem_of_map_to_list in Hin. unfold listed in Hl. simpl in *.
    apply andb_true_iff in Hl as [Hw Ht]. apply bool_decide_eq_true in Hw as ->.
    exists l. split; [done |]. destruct feature_type; [| done].
    by apply String.eqb_eq.
  - intros (l & Hl & Ht). exists ((ws, n), l). split; [done |].
    apply list_elem_of_filter. split; [| by apply elem_of_map_to_list].
    unfold listed. simpl. rewrite bool_decide_eq_true_2 by done. simpl.
    destruct feature_type; [| done]. by apply String.eqb_eq.
Qed.

Lemma NoDup_listing (ws : string) (feature_type : option string)
      (ds : gmap (string * string) layer) :
  NoDup (listing ws feature_type ds).
Proof.
  unfold listing. apply NoDup_fmap_2_strong.
  - intros [[w1 n1] l1] [[w2 n2] l2] H1 H2 Hn. simpl in Hn. subst n2.
    apply list_elem_of_filter in H1 as [Hl1 H1], H2 as [Hl2 H2].
    apply elem_of_map_to_list in H1, H2. unfold listed in *. simpl in *.
    apply andb_true_iff in Hl1 as [Hw1 _], Hl2 as [Hw2 _].
    apply bool_decide_eq_true in Hw1, Hw2. subst. congruence.
  - apply NoDup_filter, NoDup_map_to_list.
Qed.

(** ** The cleanup *)

Lemma delete_loop_run (S : string) (l : list string) (e : engine) :
  env_workspace e = S ->
  NoDup l ->
  (forall n, n ∈ l -> is_Some (datasets e !! (S, n))) ->
  exists e',
    for_each l (fun scratchFeature =>
                  ws <- gets env_workspace ;; Delete_management (ws, scratchFeature)) e
    = (Ok tt, e') /\
    env_workspace e' = S /\
    env_scratchGDB e' = env_scratchGDB e /\
    (forall p, datasets e' !! p =
               if decide (p.1 = S /\ p.2 ∈ l) then None else datasets e !! p) /\
    calls e' = calls e ++ (CallDelete <$> ((fun n => (S, n)) <$> l)) /\
    messages e' = messages e /\ stdout e' = stdout e.
Proof.
  revert e. induction l as [|n l IH]; intros e Hws Hnd Hex.
  - exists e. simpl. unfold ret. rewrite app_nil_r. repeat split; try done.
    intros p. rewrite decide_False; [done |]. rewrite elem_of_nil. tauto.
  - apply NoDup_cons in Hnd as [Hn Hnd].
    destruct (Hex n) as [x Hx]; [apply list_elem_of_here |].
    cbn [for_each]. unfold bind at 1. unfold bind at 1. unfold gets at 1. rewrite Hws.
    destruct (Delete_ok (S, n) x e Hx) as (e1 & -> & (Hw1 & Hs1 & _ & Hds1 & Hc1) & Hm1 & Ho1).
    destruct (IH e1) as (e' & -> & Hw' & Hs' & Hds' & Hc' & Hm' & Ho').
    { congruence. }
    { done. }
    { intros m Hm. rewrite Hds1, lookup_delete_ne.
      - apply Hex. by apply list_elem_of_further.
      - intros [= ->]. done. }
    exists e'. repeat split; try congruence.
    + intros p. rewrite Hds', Hds1. destruct p as [w m]. simpl.
      destruct (decide (w = S /\ m ∈ l)) as [[-> Hm] | Hno].
      * rewrite decide_True; [done |]. split; [done | by apply list_elem_of_further].
      * destruct (decide ((w, m) = (S, n))) as [[= -> ->] | Hne].
        -- rewrite lookup_delete_eq, decide_True; [done |].
           split; [done | apply list_elem_of_here].
        -- rewrite lookup_delete_ne by done. rewrite decide_False; [done |].
           rewrite elem_of_cons. intros [-> [-> | ?]]; [by apply Hne | by apply Hno].
    + rewrite Hc', Hc1. csimpl. by rewrite <- app_assoc.
Qed.

(** The cleanup succeeds from any state and leaves nothing in the scratch
    database. *)
Lemma execute_finally_run (e : engine) :
  exists e',
    execute_finally e = (Ok tt, e') /\
    env_scratchGDB e' = env_scratchGDB e /\
    (forall p, datasets e' !! p =
               if decide (p.1 = env_scratchGDB e) then None else datasets e !! p) /\
    calls e' =
      calls e ++ (CallDelete <$> ((fun n => (env_scratchGDB e, n))
                    <$> listing (env_scratchGDB e) None (datasets e))) /\
    messages e' = messages e /\ stdout e' = stdout e.
Proof.
  unfold execute_finally. unfold bind at 1, gets at 1. unfold bind at 1, modify at 1.
  unfold bind at 1. rewrite ListFeatureClasses_run.
  cbn [env_workspace datasets with_workspace].
  destruct (delete_loop_run (env_scratchGDB e)
              (listing (env_scratchGDB e) None (datasets e))
              (with_workspace (env_scratchGDB e) e))
    as (e' & -> & _ & Hs & Hds & Hc & Hm & Ho).
  { done. }
  { apply NoDup_listing. }
  { intros n (l & Hl & _)%elem_of_listing. by exists l. }
  exists e'. repeat split; try done.
  intros [w m]. rewrite Hds. simpl.
  destruct (decide (w = env_scratchGDB e)) as [-> | Hw].
  - destruct (decide (env_scratchGDB e = env_scratchGDB e /\
                      m ∈ listing (env_scratchGDB e) None (datasets e)))
      as [_ | Hno]; [done |].
    destruct (datasets e !! (env_scratchGDB e, m)) as [l |] eqn:Hl; [| done].
    exfalso. apply Hno. split; [done |]. apply elem_of_listing. by exists l.
  - rewrite decide_False; [done | tauto].
Qed.

(** The handlers of [execute] log the error and end normally. *)
Lemma execute_except_run (x : exn) (e : engine) :
  exists e',
    execute_except x e = (Ok tt, e') /\
    evolves e e' (datasets e) [] /\
    (exists logged, messages e' = messages e ++ logged /\
                    Forall (fun m => m.1 = Error) logged).
Proof.
  destruct x; unfold execute_except, bind, GetMessages_2, gets, print, AddError, modify;
    cbn beta iota zeta; (eexists; split; [reflexivity |]);
    (split; [unfold evolves; simpl; by rewrite app_nil_r |]);
    simpl; rewrite <- ?app_assoc; (eexists; split; [reflexivity |]);
    repeat constructor.
Qed.

(** ** Exit paths of [execute] *)

Lemma finally_after_any_body (body : M unit) (e : engine) :
  exists r0 e0 e1 e2,
    body e = (r0, e0) /\
    match r0 with
    | Ok _ => e1 = e0
    | Raise x => execute_except x e0 = (Ok tt, e1)
    end /\
    execute_finally e1 = (Ok tt, e2) /\
    try_finally (try_except body execute_except) execute_finally e = (Ok tt, e2) /\
    calls e2 =
      calls e1 ++ (CallDelete <$> ((fun n => (env_scratchGDB e1, n))
                     <$> listing (env_scratchGDB e1) None (datasets e1))) /\
    (forall n, datasets e2 !! (env_scratchGDB e2, n) = None).
Proof.
  destruct (body e) as [r0 e0] eqn:Hbody.
  assert (exists e1, try_except body execute_except e = (Ok tt, e1) /\
                     match r0 with
                     | Ok _ => e1 = e0
                     | Raise x => execute_except x e0 = (Ok tt, e1)
                     end) as (e1 & Htry & Hr0).
  { unfold try_except. rewrite Hbody. destruct r0 as [[] | x].
    - by exists e0.
    - destruct (execute_except_run x e0) as (e1 & Hx & _). by exists e1. }
  destruct (execute_finally_run e1) as (e2 & Hfin & Hs & Hds & Hc & _).
  exists r0, e0, e1, e2. repeat split; try done.
  - unfold try_finally. by rewrite Htry, Hfin.
  - intros n. rewrite Hds, Hs. simpl. by rewrite decide_True.
Qed.

(** C8.  [execute] is its [try] body under the two handlers and the cleanup.
    Whatever the body does from whatever state, and so on every exit path
    (the body ends normally, raises [ExecuteError], or raises anything else,
    [sys.exit] included), the handlers end normally, the cleanup runs, calls
    [Delete] on every feature class listed in the scratch database and on
    nothing else, and leaves no dataset in the scratch database. *)
Theorem cleanup_runs_on_every_exit
        (SpatialJoin_rows : layer -> layer -> list (gmap string value))
        (P : parameters) :
  execute SpatialJoin_rows P =
    try_finally (try_except (execute_try SpatialJoin_rows P) execute_except)
                execute_finally /\
  forall (body : M unit) (e : engine),
  exists r0 e0 e1 e2,
    body e = (r0, e0) /\
    match r0 with
    | Ok _ => e1 = e0
    | Raise x => execute_except x e0 = (Ok tt, e1)
    end /\
    execute_finally e1 = (Ok tt, e2) /\
    try_finally (try_except body execute_except) execute_finally e = (Ok tt, e2) /\
    calls e2 =
      calls e1 ++ (CallDelete <$> ((fun n => (env_scratchGDB e1, n))
                     <$> listing (env_scratchGDB e1) None (datasets e1))) /\
    (forall n, datasets e2 !! (env_scratchGDB e2, n) = None).
Proof. split; [done | apply finally_after_any_body]. Qed.

(** The three exit paths on sample data: a complete run, an early abort and
    a missing target.  Each ends with an empty scratch database. *)
Example run_to_completion :
  let r := execute Demo.first_row_join Demo.parameters0 Demo.engine0 in
  r.1 = Ok tt /\
  listing Demo.scratch_gdb None (datasets r.2) = [] /\
  (names ∘ fields) <$> (datasets r.2 !! Demo.output_path) =
    Some ["OBJECTID"; "Shape"; "SITE";
          "OBJECTID"; "Shape"; "Shape_Length"; "Shape_Area"; "reefNAME";
          "OBJECTID"; "Shape"; "Shape_Length"; "Shape_Area"; "depthZONE";
          "depthMETRES"].
Proof. vm_compute. repeat split; reflexivity. Qed.

Example run_without_extension :
  let e := mkEngine "" Demo.scratch_gdb "NotLicensed" (datasets Demo.engine0) [] [] "" [] in
  let r := execute Demo.first_row_join Demo.parameters0 e in
  (execute_try Demo.first_row_join Demo.parameters0 e).1 = Raise SystemExit /\
  r.1 = Ok tt /\ calls r.2 = [] /\ datasets r.2 !! Demo.output_path = None.
Proof. vm_compute. repeat split; reflexivity. Qed.

Example run_without_target :
  let P := mkParameters Demo.workspace_gdb ("C:/data/survey.gdb", "missing")
                        Demo.output_path None None in
  let r := execute Demo.first_row_join P Demo.engine0 in
  (execute_try Demo.first_row_join P Demo.engine0).1
    = Raise (PyError "dataset does not exist") /\
  r.1 = Ok tt /\ listing Demo.scratch_gdb None (datasets r.2) = [].
Proof. vm_compute. repeat split; reflexivity. Qed.

(** ** The preflight checks *)

Lemma listing_nil (ws : string) (feature_type : string)
      (ds : gmap (string * string) layer) :
  (forall n l, ds !! (ws, n) = Some l -> shapeType l ≠ feature_type) ->
  listing ws (Some feature_type) ds = [].
Proof.
  intros Hno. apply elem_of_nil_inv. intros n (l & Hl & Ht)%elem_of_listing.
  by apply (Hno n l).
Qed.

Lemma preflight_exit (e : engine) :
  extension_Spatial e ≠ "Available" \/
  listing (env_workspace e) (Some "Polygon") (datasets e) = [] ->
  exists msg,
    preflight e = (Raise SystemExit, with_message (Error, msg) e) /\
    msg ∈ ["ArcGIS Spatial Analyst extension is not available";
           "There are no polygon features in the workspace."].
Proof.
  intros Hcase. unfold preflight.
  unfold bind at 1. rewrite ListFeatureClasses_run.
  unfold bind at 1, CheckExtension_Spatial, gets.
  destruct (String.eqb_spec (extension_Spatial e) "Available") as [Hav | Hnot].
  - destruct Hcase as [? | Hnil]; [done |]. rewrite Hnil.
    eexists. split; [reflexivity |]. apply list_elem_of_further, list_elem_of_here.
  - eexists. split; [reflexivity |]. apply list_elem_of_here.
Qed.

(** C9.  When the Spatial extension is not available, or the workspace
    holds no polygon layer, the body of the run logs an error and ends by
    [sys.exit] in a state that differs from the initial one by the workspace
    setting and that message only: no geoprocessing tool was called and no
    dataset was touched.  The whole run then makes no call but the deletions
    of the cleanup, and holds no dataset that was not there before: no output
    layer is produced. *)
Theorem preflight_aborts_before_any_work
        (SpatialJoin_rows : layer -> layer -> list (gmap string value))
        (P : parameters) (e : engine) :
  extension_Spatial e ≠ "Available" \/
  (forall n l, datasets e !! (workspace P, n) = Some l -> shapeType l ≠ "Polygon") ->
  exists msg e2,
    msg ∈ ["ArcGIS Spatial Analyst extension is not available";
           "There are no polygon features in the workspace."] /\
    execute_try SpatialJoin_rows P e =
      (Raise SystemExit, with_message (Error, msg) (with_workspace (workspace P) e)) /\
    execute SpatialJoin_rows P e = (Ok tt, e2) /\
    (Error, msg) ∈ messages e2 /\
    (forall c, c ∈ calls e2 -> c ∈ calls e \/ exists p, c = CallDelete p) /\
    (forall p l, datasets e2 !! p = Some l -> datasets e !! p = Some l).
Proof.
  intros Hcase.
  destruct (preflight_exit (with_workspace (workspace P) e)) as (msg & Hpre & Hmsg).
  { destruct Hcase as [? | Hno]; [by left | right]. by apply listing_nil. }
  assert (execute_try SpatialJoin_rows P e =
          (Raise SystemExit, with_message (Error, msg) (with_workspace (workspace P) e)))
    as Htry.
  { unfold execute_try. unfold bind at 1, modify at 1. unfold bind at 1.
    by rewrite Hpre. }
  destruct (finally_after_any_body (execute_try SpatialJoin_rows P) e)
    as (r0 & e0 & e1 & e2 & Hbody & Hr0 & _ & Hrun & Hc & _).
  rewrite Htry in Hbody. injection Hbody as <- <-.
  destruct (execute_except_run SystemExit
              (with_message (Error, msg) (with_workspace (workspace P) e)))
    as (e1' & Hx & (_ & Hs1 & _ & Hds1 & Hc1) & (logged & Hm1 & _)).
  rewrite Hr0 in Hx. injection Hx as <-.
  destruct (execute_finally_run e1) as (e2' & Hfin & _ & Hds & _ & Hm & _).
  assert (e2' = e2) as ->.
  { unfold execute, try_finally, try_except in Hrun. rewrite Htry, Hr0, Hfin in Hrun.
    congruence. }
  exists msg, e2. split; [done |]. split; [done |]. split; [done |].
  split; [| split].
  - rewrite Hm, Hm1. simpl. rewrite !elem_of_app, list_elem_of_singleton. tauto.
  - intros c. rewrite Hc, Hc1, app_nil_r. simpl.
    rewrite elem_of_app, list_elem_of_fmap.
    intros [? | (p & -> & _)]; [by left | right; by exists p].
  - intros p l. rewrite Hds, Hds1. simpl. by destruct (decide _).
Qed.

Lemma preflight_aborts_before_any_work_witness :
  let e := mkEngine "" Demo.scratch_gdb "NotLicensed" (datasets Demo.engine0) [] [] "" [] in
  (extension_Spatial e ≠ "Available" \/
   (forall n l, datasets e !! (workspace Demo.parameters0, n) = Some l ->
                shapeType l ≠ "Polygon")) /\
  exists msg e2,
    msg ∈ ["ArcGIS Spatial Analyst extension is not available";
           "There are no polygon features in the workspace."] /\
    execute_try Demo.first_row_join Demo.parameters0 e =
      (Raise SystemExit,
       with_message (Error, msg) (with_workspace (workspace Demo.parameters0) e)) /\
    execute Demo.first_row_join Demo.parameters0 e = (Ok tt, e2) /\
    (Error, msg) ∈ messages e2 /\
    (forall c, c ∈ calls e2 -> c ∈ calls e \/ exists p, c = CallDelete p) /\
    (forall p l, datasets e2 !! p = Some l -> datasets e !! p = Some l).
Proof.
  assert (extension_Spatial
            (mkEngine "" Demo.scratch_gdb "NotLicensed" (datasets Demo.engine0) [] [] "" [])
          ≠ "Available") as H1 by (simpl; discriminate).
  split; [left; exact H1 |].
  exact (preflight_aborts_before_any_work Demo.first_row_join Demo.parameters0 _
           (or_introl H1)).
Defined.

(** ** The field steps on a layer *)

Lemma filter_ext_in {A} (P Q : A -> Prop)
      `{!forall x, Decision (P x)} `{!forall x, Decision (Q x)} (l : list A) :
  (forall x, x ∈ l -> (P x <-> Q x)) -> filter P l = filter Q l.
Proof.
  induction l as [|x l IH]; intros Hext; [done |].
  rewrite !filter_cons.
  destruct (decide (P x)) as [HP | HP], (decide (Q x)) as [HQ | HQ].
  - f_equal. apply IH. intros y Hy. apply Hext. by apply list_elem_of_further.
  - exfalso. apply HQ, Hext; [apply list_elem_of_here | done].
  - exfalso. apply HP, Hext; [apply list_elem_of_here | done].
  - apply IH. intros y Hy. apply Hext. by apply list_elem_of_further.
Qed.

Lemma deleted_loop_fields (t : string) (fs : list Field) (l : layer) :
  fields (foldl (fun l f => if Py.contains (name f) t
                            then delete_fields [name f] l else l) l fs) =
  filter (fun f => name f ∉ (name <$> filter (fun g => Py.contains (name g) t = true) fs))
         (fields l).
Proof.
  revert l. induction fs as [|g fs IH]; intros l.
  - simpl. symmetry.
    induction (fields l) as [|f k IHk]; [done |].
    rewrite filter_cons_True by apply not_elem_of_nil. by rewrite IHk.
  - cbn [foldl]. rewrite IH, filter_cons.
    destruct (Py.contains (name g) t) eqn:Hg.
    + rewrite decide_True by done. cbn [delete_fields fields].
      rewrite list_filter_filter. apply list_filter_iff. intros f.
      rewrite fmap_cons, !not_elem_of_cons.
      pose proof (not_elem_of_nil (name f)). tauto.
    + by rewrite decide_False by done.
Qed.

(** The deletion step keeps the fields whose name does not occur in the text
    of the parameter. *)
Lemma deleted_fields (text : option string) (l : layer) :
  fields (deleted text l) = filter (survives text) (fields l).
Proof.
  destruct text as [t |]; simpl.
  - rewrite deleted_loop_fields. apply filter_ext_in. intros f Hf.
    rewrite list_elem_of_fmap. split.
    + intros Hno. destruct (Py.contains (name f) t) eqn:Hc; [| done].
      exfalso. apply Hno. exists f. split; [done |]. by apply list_elem_of_filter.
    + intros Hc (g & Hname & Hg). apply list_elem_of_filter in Hg as [Hg _].
      congruence.
  - symmetry. induction (fields l) as [|f k IHk]; [done |].
    rewrite filter_cons_True by done. by rewrite IHk.
Qed.



(** ** One turn of the loop *)

Lemma evolves_settles (e e' : engine) ds cs : evolves e e' ds cs -> settles e e' ds.
Proof. unfold evolves, settles. tauto. Qed.

Lemma delete_join_fields_run (feature : string * string) (text : option string)
      (l : layer) (e : engine) :
  datasets e !! feature = Some l ->
  exists e',
    delete_join_fields feature text e = (Ok feature, e') /\
    settles e e' (<[feature := deleted text l]> (datasets e)).
Proof.
  intros Hl. unfold delete_join_fields. unfold bind at 1.
  rewrite (ListFields_ok feature l) by done.
  destruct text as [t |]; simpl.
  - assert (forall fs k e0,
      datasets e0 !! feature = Some k ->
      exists e',
        for_each fs (fun field =>
          if Py.contains (name field) t
          then DeleteField_management feature [name field] else ret tt) e0
        = (Ok tt, e') /\
        settles e0 e'
          (<[feature := foldl (fun l f => if Py.contains (name f) t
                                          then delete_fields [name f] l else l) k fs]>
             (datasets e0))) as Hloop.
    { induction fs as [|f fs IH]; intros k e0 Hk.
      - exists e0. simpl. by rewrite insert_id.
      - cbn [for_each foldl]. unfold bind at 1.
        destruct (Py.contains (name f) t).
        + destruct (DeleteField_ok feature [name f] k e0 Hk)
            as (e1 & -> & (Hw1 & Hs1 & _ & Hds1 & _) & _).
          destruct (IH (delete_fields [name f] k) e1) as (e' & -> & Hw' & Hs' & Hds').
          { by rewrite Hds1, lookup_insert_eq. }
          exists e'. split; [done |]. repeat split; try congruence.
          rewrite Hds', Hds1. apply insert_insert_eq.
        + unfold ret at 1. by apply IH. }
    destruct (Hloop (fields l) l e Hl) as (e' & Hrun & Hset).
    exists e'. unfold bind. by rewrite Hrun.
  - exists e. unfold ret. split; [done |]. unfold settles. by rewrite insert_id.
Qed.

Lemma CreateScratchName_run (prefix ws : string) (e : engine) :
  exists k, CreateScratchName prefix ws e = (Ok (ws, prefix +:+ Py.str_of_nat k), e).
Proof.
  unfold CreateScratchName.
  destruct (head (filter (fun p => datasets e !! p = None)
                         ((fun k => (ws, prefix +:+ Py.str_of_nat k))
                            <$> seq 0 (S (size (datasets e)))))) as [p |] eqn:Hhead.
  - apply head_Some_elem_of, list_elem_of_filter in Hhead as [_ Hp].
    apply list_elem_of_fmap in Hp as (k & -> & _). by exists k.
  - by eexists.
Qed.

Lemma SpatialJoin_ok (SpatialJoin_rows : layer -> layer -> list (gmap string value))
      (target join out : string * string) (t j : layer) (e : engine) :
  datasets e !! target = Some t -> datasets e !! join = Some j ->
  exists e',
    analysis_SpatialJoin SpatialJoin_rows target join out e = (Ok tt, e') /\
    settles e e' (<[out := join_layer SpatialJoin_rows t j]> (datasets e)).
Proof.
  intros Ht Hj.
  edestruct (tool_ok (CallSpatialJoin target join out)) as (e' & Hrun & Hev & _);
    [| exists e'; split; [exact Hrun | by eapply evolves_settles]].
  simpl. by rewrite Ht, Hj.
Qed.

Lemma coral_geo_join_run (SpatialJoin_rows : layer -> layer -> list (gmap string value))
      (coral feature : string * string) (t j : layer) (e : engine) :
  datasets e !! coral = Some t -> datasets e !! feature = Some j ->
  exists k e',
    let scratch_name := (env_scratchGDB e, "tempCoralJoin" +:+ Py.str_of_nat k) in
    coral_geo_join SpatialJoin_rows coral feature e = (Ok scratch_name, e') /\
    settles e e' (<[scratch_name := join_result SpatialJoin_rows t j]> (datasets e)).
Proof.
  intros Ht Hj. unfold coral_geo_join. unfold bind at 1, gets at 1.
  destruct (CreateScratchName_run "tempCoralJoin" (env_scratchGDB e) e) as (k & Hname).
  unfold bind at 1. rewrite Hname.
  destruct (SpatialJoin_ok SpatialJoin_rows coral feature
              (env_scratchGDB e, "tempCoralJoin" +:+ Py.str_of_nat k) t j e Ht Hj)
    as (e1 & Hjoin & Hw1 & Hs1 & Hds1).
  unfold bind at 1. rewrite Hjoin.
  destruct (DeleteField_ok (env_scratchGDB e, "tempCoralJoin" +:+ Py.str_of_nat k)
              ["Join_Count"; "TARGET_FID"] (join_layer SpatialJoin_rows t j) e1)
    as (e2 & Hdel & (Hw2 & Hs2 & _ & Hds2 & _) & _).
  { by rewrite Hds1, lookup_insert_eq. }
  unfold bind at 1. rewrite Hdel.
  exists k, e2. split; [done |]. repeat split; try congruence.
  rewrite Hds2, Hds1. apply insert_insert_eq.
Qed.

(** The projection step leaves the layer it is given as it is: it returns the
    layer, or writes the projected copy under another path. *)
Lemma change_spatial_reference_run (wkid : Z) (fc : string * string) (l : layer)
      (e : engine) :
  datasets e !! fc = Some l ->
  exists r e',
    change_spatial_reference wkid fc fc e = (Ok r, e') /\
    env_workspace e' = env_workspace e /\
    env_scratchGDB e' = env_scratchGDB e /\
    (forall p, p ≠ (env_scratchGDB e, fc.2 +:+ "_") -> datasets e' !! p = datasets e !! p).
Proof.
  intros Hl. unfold change_spatial_reference. unfold bind at 1.
  rewrite (Describe_ok fc l) by done.
  destruct (wkid =? factoryCode l)%Z; cbn [negb].
  - by exists fc, e.
  - unfold bind at 1, gets at 1. unfold os_path_split, os_path_join, path_append.
    cbn [fst snd].
    destruct (Project_ok fc (env_scratchGDB e, fc.2 +:+ "_") wkid l e Hl)
      as (e1 & Hrun & (Hw1 & Hs1 & _ & Hds1 & _) & _).
    unfold bind at 1. rewrite Hrun.
    eexists _, e1. split; [reflexivity |]. repeat split; try done.
    intros p Hp. by rewrite Hds1, lookup_insert_ne.
Qed.

Lemma str_app_underscore_ne (s : string) : s ≠ s +:+ "_".
Proof.
  intros Heq. apply (f_equal String.length) in Heq.
  rewrite string_length_app in Heq. simpl in Heq. lia.
Qed.

Lemma prefix_app (p s : string) : String.prefix p (p +:+ s) = true.
Proof.
  induction p as [|c p IH]; [by destruct s |].
  change (String.prefix (String c p) (String c (p +:+ s)) = true). simpl.
  by destruct (Ascii.ascii_dec c c).
Qed.

Lemma work_path_tail (P : parameters) (e : engine) (fc : string) :
  (work_path P e fc).2 = fc.
Proof. unfold work_path. by destruct (is_gdb (workspace P)). Qed.

Lemma work_path_not_project (P : parameters) (e : engine) (fc : string) :
  work_path P e fc ≠ project_path e fc.
Proof.
  intros Heq. apply (f_equal snd) in Heq. rewrite work_path_tail in Heq.
  by apply (str_app_underscore_ne fc).
Qed.

(** The layer is brought under its work path unchanged. *)
Lemma scratch_copy_run (P : parameters) (fc : string) (l : layer) (e : engine) :
  datasets e !! (env_workspace e, fc) = Some l ->
  exists e',
    (if is_gdb (workspace P) then
       scratchGDB <- gets env_scratchGDB ;;
       let feature_copy :=
         os_path_join scratchGDB (os_path_split (env_workspace e, fc)).2 in
       CopyFeatures_management (env_workspace e, fc) feature_copy ;;
       ret feature_copy
     else ret (env_workspace e, fc)) e
    = (Ok (work_path P e fc), e') /\
    env_workspace e' = env_workspace e /\
    env_scratchGDB e' = env_scratchGDB e /\
    datasets e' !! work_path P e fc = Some l /\
    (forall p, p ≠ work_path P e fc -> datasets e' !! p = datasets e !! p).
Proof.
  intros Hl. unfold work_path. destruct (is_gdb (workspace P)).
  - unfold bind at 1, gets at 1. unfold os_path_join, os_path_split. cbn [snd].
    destruct (CopyFeatures_ok (env_workspace e, fc) (env_scratchGDB e, fc) l e Hl)
      as (e1 & Hrun & (Hw1 & Hs1 & _ & Hds1 & _) & _).
    unfold bind at 1. rewrite Hrun. exists e1. split; [done |].
    repeat split; try done.
    + by rewrite Hds1, lookup_insert_eq.
    + intros p Hp. by rewrite Hds1, lookup_insert_ne.
  - by exists e.
Qed.

(** One turn of the loop on a polygon layer: the layer is prepared under its
    work path and joined onto the running target; the result of the join is
    the new running target. *)
Lemma join_step_polygon
      (SpatialJoin_rows : layer -> layer -> list (gmap string value))
      (P : parameters) (wkid : Z) (numFeatures counter : nat) (fc : string)
      (t : string * string) (jf : list string) (l T : layer) (e : engine) :
  datasets e !! (env_workspace e, fc) = Some l ->
  String.eqb (shapeType l) "Polygon" = true ->
  datasets e !! t = Some T ->
  t ≠ work_path P e fc ->
  t ≠ project_path e fc ->
  exists k e',
    let t' := (env_scratchGDB e, "tempCoralJoin" +:+ Py.str_of_nat k) in
    join_step SpatialJoin_rows P wkid numFeatures counter fc t jf e
    = (Ok (t', jf ++ collected fc (fields (deleted (fields_to_delete P) l))), e') /\
    env_workspace e' = env_workspace e /\
    env_scratchGDB e' = env_scratchGDB e /\
    datasets e' !! t'
    = Some (join_result SpatialJoin_rows T (prepared (fields_to_delete P) fc l)) /\
    (forall p, p ≠ work_path P e fc -> p ≠ project_path e fc -> p ≠ t' ->
               datasets e' !! p = datasets e !! p).
Proof.
  intros Hl Hpoly HT Htw Htp. unfold join_step.
  unfold bind at 1, gets at 1. unfold bind at 1.
  rewrite (Describe_ok _ l) by done. rewrite Hpoly.
  destruct (scratch_copy_run P fc l e Hl) as (e1 & Hcopy & Hw1 & Hs1 & Hl1 & Hf1).
  cbn zeta in Hcopy. unfold bind at 1. rewrite Hcopy.
  set (wp := work_path P e fc) in *.
  assert (wp.2 = fc) as Htail by apply work_path_tail.
  assert (wp ≠ project_path e fc) as Hwp by apply work_path_not_project.
  destruct (change_spatial_reference_run wkid wp l e1 Hl1)
    as (r & e2 & Hcsr & Hw2 & Hs2 & Hf2).
  rewrite Htail, Hs1 in Hf2. fold (project_path e fc) in Hf2.
  unfold bind at 1. rewrite Hcsr.
  unfold bind at 1, AddMessage at 1, modify at 1.
  destruct (delete_join_fields_run wp (fields_to_delete P) l
              (with_message (Message, "change spatial reference complete") e2))
    as (e3 & Hdel & Hw3 & Hs3 & Hds3).
  { simpl. by rewrite Hf2. }
  unfold bind at 1. rewrite Hdel.
  destruct (change_join_field_names_run wp jf (deleted (fields_to_delete P) l) e3)
    as (e4 & Hren & (Hw4 & Hs4 & _ & Hds4 & _) & _).
  { by rewrite Hds3, lookup_insert_eq. }
  unfold bind at 1. rewrite Hren. rewrite Htail in *.
  fold (prepared (fields_to_delete P) fc l) in Hds4.
  unfold bind at 1, AddMessage at 1, modify at 1.
  destruct (coral_geo_join_run SpatialJoin_rows t wp T
              (prepared (fields_to_delete P) fc l)
              (with_message (Message, "clean complete") e4))
    as (k & e5 & Hjoin & Hw5 & Hs5 & Hds5).
  { simpl. rewrite Hds4, Hds3. simpl.
    rewrite !lookup_insert_ne by done. rewrite Hf2, Hf1; done. }
  { simpl. by rewrite Hds4, lookup_insert_eq. }
  cbn zeta in Hjoin. unfold bind at 1. rewrite Hjoin.
  unfold bind at 1, AddMessage at 1, modify at 1. unfold ret.
  simpl in Hw3, Hs3, Hds3, Hw5, Hs5, Hds5.
  assert (env_scratchGDB e4 = env_scratchGDB e) as Hs by congruence.
  simpl. rewrite Hs in Hds5 |- *.
  exists k, (with_message
               (Message, Py.str_of_nat counter +:+ "/" +:+ Py.str_of_nat numFeatures
                         +:+ " joins complete") e5).
  cbn zeta. split; [done |]. simpl.
  split; [congruence |]. split; [congruence |]. split.
  - by rewrite Hds5, lookup_insert_eq.
  - intros p Hp1 Hp2 Hp3. rewrite Hds5, Hds4, Hds3.
    rewrite !lookup_insert_ne by done. simpl. rewrite Hf2, Hf1; done.
Qed.

Lemma join_step_other
      (SpatialJoin_rows : layer -> layer -> list (gmap string value))
      (P : parameters) (wkid : Z) (numFeatures counter : nat) (fc : string)
      (t : string * string) (jf : list string) (l : layer) (e : engine) :
  datasets e !! (env_workspace e, fc) = Some l ->
  String.eqb (shapeType l) "Polygon" = false ->
  join_step SpatialJoin_rows P wkid numFeatures counter fc t jf e = (Ok (t, jf), e).
Proof.
  intros Hl Hpoly. unfold join_step.
  unfold bind at 1, gets at 1. unfold bind at 1.
  rewrite (Describe_ok _ l) by done. by rewrite Hpoly.
Qed.

(** ** The chain of joins *)

Lemma join_result_fields
      (SpatialJoin_rows : layer -> layer -> list (gmap string value)) (T J : layer) :
  fields (join_result SpatialJoin_rows T J) =
  filter (fun f => name f ∉ ["Join_Count"; "TARGET_FID"]) (fields T) ++
  filter (fun f => name f ∉ ["Join_Count"; "TARGET_FID"]) (fields J).
Proof.
  unfold join_result, join_layer, delete_fields. cbn [fields].
  by rewrite !filter_app.
Qed.



Lemma joined_layers_ext (P : parameters) (ds ds' : gmap (string * string) layer)
      (ws : string) (features : list string) :
  (forall fc, fc ∈ features -> ds' !! (ws, fc) = ds !! (ws, fc)) ->
  joined_layers P ds' ws features = joined_layers P ds ws features /\
  collected_all P ds' ws features = collected_all P ds ws features.
Proof.
  unfold joined_layers, collected_all.
  induction features as [|fc features IH]; intros Hext; [done |].
  csimpl. rewrite (Hext fc) by apply list_elem_of_here.
  destruct IH as [-> ->]; [| done].
  intros fc' Hfc'. apply Hext. by apply list_elem_of_further.
Qed.

Lemma scratch_name_not_layer (ws ws' : string) (k : nat) (fc : string) :
  String.prefix "tempCoralJoin" fc = false ->
  (ws, "tempCoralJoin" +:+ Py.str_of_nat k) ≠ (ws', fc).
Proof.
  intros Hfc [= _ <-]. by rewrite prefix_app in Hfc.
Qed.

Lemma join_loop_run
      (SpatialJoin_rows : layer -> layer -> list (gmap string value))
      (P : parameters) (wkid : Z) (numFeatures : nat) (features : list string) :
  forall (counter : nat) (t : string * string) (jf : list string) (T : layer)
         (e : engine),
  datasets e !! t = Some T ->
  (forall fc, fc ∈ features -> is_Some (datasets e !! (env_workspace e, fc))) ->
  NoDup features ->
  (forall fc, fc ∈ features -> t ≠ work_path P e fc /\ t ≠ project_path e fc) ->
  (forall fc, fc ∈ features ->
     String.prefix "tempCoralJoin" fc = false /\
     String.prefix "tempCoralJoin" (fc +:+ "_") = false) ->
  (forall fc fc', fc ∈ features -> fc' ∈ features ->
     (env_workspace e, fc) ≠ project_path e fc') ->
  exists tN eN,
    join_loop SpatialJoin_rows P wkid numFeatures counter features t jf e
    = (Ok (tN, jf ++ collected_all P (datasets e) (env_workspace e) features), eN) /\
    env_workspace eN = env_workspace e /\
    env_scratchGDB eN = env_scratchGDB e /\
    datasets eN !! tN
    = Some (foldl (join_result SpatialJoin_rows) T
                  (joined_layers P (datasets e) (env_workspace e) features)).
Proof.
  induction features as [|fc rest IH]; intros counter t jf T e HT Hex Hnd Ht Hscr Hsep.
  - exists t, e. simpl. unfold ret, collected_all. csimpl. by rewrite app_nil_r.
  - apply NoDup_cons in Hnd as [Hfc Hnd].
    destruct (Hex fc) as [l Hl]; [apply list_elem_of_here |].
    destruct (Ht fc) as [Htw Htp]; [apply list_elem_of_here |].
    cbn [join_loop]. unfold bind at 1.
    unfold joined_layers, collected_all. csimpl. rewrite Hl.
    fold (joined_layers P (datasets e) (env_workspace e) rest).
    fold (collected_all P (datasets e) (env_workspace e) rest).
    destruct (String.eqb (shapeType l) "Polygon") eqn:Hpoly.
    + destruct (join_step_polygon SpatialJoin_rows P wkid numFeatures counter fc t jf
                  l T e Hl Hpoly HT Htw Htp)
        as (k & e1 & Hstep & Hw1 & Hs1 & Ht1 & Hframe).
      cbn zeta in Hstep, Ht1, Hframe. rewrite Hstep. cbn [fst snd].
      assert (forall fc', fc' ∈ rest ->
                datasets e1 !! (env_workspace e, fc') = datasets e !! (env_workspace e, fc'))
        as Hkeep.
      { intros fc' Hfc'. apply Hframe.
        - intros Heq. apply (f_equal snd) in Heq. rewrite work_path_tail in Heq.
          simpl in Heq. congruence.
        - apply Hsep; [by apply list_elem_of_further | apply list_elem_of_here].
        - apply not_eq_sym, scratch_name_not_layer.
          apply Hscr. by apply list_elem_of_further. }
      destruct (IH (S counter)
                  (env_scratchGDB e, "tempCoralJoin" +:+ Py.str_of_nat k)
                  (jf ++ collected fc (fields (deleted (fields_to_delete P) l)))
                  (join_result SpatialJoin_rows T (prepared (fields_to_delete P) fc l))
                  e1)
        as (tN & eN & Hloop & HwN & HsN & HtN); try done.
      * intros fc' Hfc'. rewrite Hw1, Hkeep by done.
        apply Hex. by apply list_elem_of_further.
      * intros fc' Hfc'. unfold work_path, project_path. rewrite Hw1, Hs1.
        destruct (Hscr fc') as [Hp1 Hp2]; [by apply list_elem_of_further |].
        split.
        -- destruct (is_gdb (workspace P)); by apply scratch_name_not_layer.
        -- by apply scratch_name_not_layer.
      * intros fc' Hfc'. apply Hscr. by apply list_elem_of_further.
      * intros fc1 fc2 H1 H2. unfold project_path. rewrite Hw1, Hs1.
        apply Hsep; by apply list_elem_of_further.
      * rewrite Hw1 in Hloop, HtN, HwN.
        destruct (joined_layers_ext P (datasets e) (datasets e1) (env_workspace e) rest)
          as [HJ HC]; [done |].
        rewrite HJ in HtN. rewrite HC in Hloop.
        exists tN, eN. rewrite Hloop, <- app_assoc.
        split; [done |]. split; [done |]. split; [congruence | done].
    + rewrite (join_step_other SpatialJoin_rows P wkid numFeatures counter fc t jf l e)
        by done.
      cbn [fst snd]. simpl.
      apply IH; try done.
      * intros fc' Hfc'. apply Hex. by apply list_elem_of_further.
      * intros fc' Hfc'. apply Ht. by apply list_elem_of_further.
      * intros fc' Hfc'. apply Hscr. by apply list_elem_of_further.
      * intros fc1 fc2 H1 H2. apply Hsep; by apply list_elem_of_further.
Qed.



(** ** The frame of the recode pass *)

Lemma agree_outside_refl (jf : list string) (l : layer) : agree_outside jf l l.
Proof.
  repeat split. induction (rows l) as [|r rs IH]; constructor; done.
Qed.

Lemma agree_outside_trans (jf : list string) (l1 l2 l3 : layer) :
  agree_outside jf l1 l2 -> agree_outside jf l2 l3 -> agree_outside jf l1 l3.
Proof.
  intros (Hc1 & Hs1 & Hf1 & Hr1) (Hc2 & Hs2 & Hf2 & Hr2).
  split; [congruence |]. split; [congruence |]. split; [congruence |].
  revert Hr2. generalize (rows l3). clear -Hr1.
  induction Hr1 as [|r r' rs rs' Hr Hrs IH]; intros rs3 H3.
  - inversion H3. constructor.
  - inversion H3 as [| ? y ? k Hy Hk]; subst.
    apply Forall2_cons. split; [| by apply IH].
    intros g Hg. by rewrite Hy, Hr.
Qed.

Lemma recode_frame_refl (jf : list string) (out : string * string) ds :
  recode_frame jf out ds ds.
Proof.
  split; [done |]. destruct (ds !! out); constructor. apply agree_outside_refl.
Qed.

Lemma recode_frame_trans (jf : list string) (out : string * string) ds1 ds2 ds3 :
  recode_frame jf out ds1 ds2 -> recode_frame jf out ds2 ds3 ->
  recode_frame jf out ds1 ds3.
Proof.
  intros [Hp1 Ho1] [Hp2 Ho2]. split.
  - intros p Hp. by rewrite Hp2, Hp1.
  - destruct Ho1; inversion Ho2; subst; constructor.
    by eapply agree_outside_trans.
Qed.

Lemma rows_agree_after_update (jf : list string) (field : string) (g : value -> value)
      (rs : list (gmap string value)) :
  field ∈ jf ->
  Forall2 (fun r r' : gmap string value => forall h, h ∉ jf -> r' !! h = r !! h)
          rs (zip_with (row_set field) (g <$> (row_get field <$> rs)) rs).
Proof.
  intros Hf. induction rs as [|r rs IH]; csimpl; constructor; [| done].
  intros h Hh. unfold row_set. apply lookup_insert_ne. by intros ->.
Qed.

(** Recoding a field of [joinFields_str] changes cells of that field, in the
    output table, and nothing else, whether it ends normally or not. *)
Lemma recode_field_frame (jf : list string) (out : string * string) (field : string)
      (e : engine) :
  field ∈ jf ->
  recode_frame jf out (datasets e) (datasets (recode_field out field e).2).
Proof.
  intros Hf.
  destruct (datasets e !! out) as [l |] eqn:Hl.
  - destruct (decide (field ∈ names (fields l))) as [Hin | Hnin].
    + destruct (decide (length (first_seen (row_get field <$> rows l)) <= 6)).
      * rewrite (recode_field_small out field l) by done. cbn [snd datasets].
        split; [intros p Hp; by apply lookup_insert_ne |].
        rewrite Hl, lookup_insert_eq. constructor.
        repeat split. cbn [rows with_rows]. by apply rows_agree_after_update.
      * rewrite (recode_field_large out field l) by (done || lia).
        apply recode_frame_refl.
    + unfold recode_field, bind, open_cursor. rewrite Hl.
      rewrite bool_decide_eq_false_2 by done. apply recode_frame_refl.
  - unfold recode_field, bind, open_cursor. rewrite Hl. apply recode_frame_refl.
Qed.

Lemma recode_loop_frame (jf : list string) (out : string * string)
      (todo : list string) (e : engine) :
  (forall field, field ∈ todo -> field ∈ jf) ->
  recode_frame jf out (datasets e) (datasets (for_each todo (recode_field out) e).2).
Proof.
  revert e. induction todo as [|field todo IH]; intros e Hsub.
  - apply recode_frame_refl.
  - cbn [for_each]. unfold bind.
    pose proof (recode_field_frame jf out field e) as Hstep.
    destruct (recode_field out field e) as [[[] | x] e1].
    + eapply recode_frame_trans; [apply Hstep, Hsub, list_elem_of_here |].
      apply IH. intros f Hin. apply Hsub. by apply list_elem_of_further.
    + apply Hstep, Hsub, list_elem_of_here.
Qed.

Lemma recode_pass_frame (P : parameters) (jf : list string) (e : engine) :
  recode_frame jf (corals_output P) (datasets e) (datasets (recode_pass P jf e).2).
Proof.
  unfold recode_pass. destruct (bool_decide (update_fields P = Some "Yes")).
  - unfold bind at 1, AddMessage at 1, modify at 1.
    unfold bind at 1, AddMessage at 1, modify at 1.
    unfold bind at 1, AddMessage at 1, modify at 1.
    unfold bind at 1, AddMessage at 1, modify at 1.
    unfold bind at 1.
    set (e4 := with_message _ (with_message _ (with_message _ (with_message _ e)))).
    pose proof (recode_loop_frame jf (corals_output P) jf e4 (fun _ H => H)) as Hloop.
    destruct (for_each jf (recode_field (corals_output P)) e4) as [[[] | x] e5];
      exact Hloop.
  - apply recode_frame_refl.
Qed.

(** C10.  The recode pass touches nothing but cells of the fields in
    [joinFields_str]: every other dataset stays as it is, and the output
    layer keeps its spatial reference, its fields, the number of its rows
    and, in every row, the cell of every field that is not in the list.  When
    the update parameter is not ['Yes'] the pass does nothing at all.  The
    list itself is what the renamer collects: the new names of the fields of
    type [String], the four reserved names apart. *)
Theorem recode_touches_only_collected_fields
        (P : parameters) (joinFields_str : list string) (e : engine) :
  let e' := (recode_pass P joinFields_str e).2 in
  (update_fields P ≠ Some "Yes" -> recode_pass P joinFields_str e = (Ok tt, e)) /\
  (forall p, p ≠ corals_output P -> datasets e' !! p = datasets e !! p) /\
  (datasets e !! corals_output P = None -> datasets e' !! corals_output P = None) /\
  (forall l, datasets e !! corals_output P = Some l ->
     exists l',
       datasets e' !! corals_output P = Some l' /\
       factoryCode l' = factoryCode l /\
       shapeType l' = shapeType l /\
       fields l' = fields l /\
       length (rows l') = length (rows l) /\
       forall i r r' g,
         rows l !! i = Some r -> rows l' !! i = Some r' ->
         g ∉ joinFields_str -> r' !! g = r !! g) /\
  (forall feature l collected_so_far e0,
     datasets e0 !! feature = Some l ->
     exists e1,
       change_join_field_names feature collected_so_far e0
       = (Ok (collected_so_far ++
              ((fun f => new_field_name feature.2 (name f))
                 <$> filter (fun f =>
                       ~ name f ∈ ["OBJECTID"; "Shape"; "Shape_Length"; "Shape_Area"]
                       /\ type f = "String") (fields l))), e1)).
Proof.
  intros e'. pose proof (recode_pass_frame P joinFields_str e) as [Hother Hout].
  fold e' in Hother, Hout. split; [| split; [| split; [| split]]].
  - intros Hno. unfold recode_pass. by rewrite bool_decide_eq_false_2.
  - exact Hother.
  - intros Hnone. rewrite Hnone in Hout. by inversion Hout.
  - intros l Hl. rewrite Hl in Hout. inversion Hout as [l0 l' Hagree |]; subst.
    destruct Hagree as (Hc & Hs & Hf & Hr).
    exists l'. repeat split; try done.
    + symmetry. by eapply Forall2_length.
    + intros i r r' g Hi Hi' Hg.
      eapply (Forall2_lookup_lr _ _ _ i r r') in Hr; eauto.
  - intros feature l jf0 e0 Hl.
    destruct (change_join_field_names_run feature jf0 l e0 Hl) as (e1 & Hrun & _).
    exists e1. rewrite Hrun. do 3 f_equal. unfold collected. f_equal.
    apply list_filter_iff. intros f. rewrite <- reserved_spec.
    destruct (reserved (name f)); split; intros [? ?]; split; done.
Qed.

(** * Further properties of the script *)

(** ** Substrings and suffixes *)

Lemma string_app_assoc (a b c : string) : (a +:+ b) +:+ c = a +:+ (b +:+ c).
Proof.
  induction a as [|x a IH]; [done |].
  change (String x ((a +:+ b) +:+ c) = String x (a +:+ (b +:+ c))). by rewrite IH.
Qed.

Lemma string_app_nil_r (a : string) : a +:+ "" = a.
Proof.
  induction a as [|x a IH]; [done |].
  change (String x (a +:+ "") = String x a). by rewrite IH.
Qed.

Lemma string_app_inv_head (a b c : string) : a +:+ b = a +:+ c -> b = c.
Proof.
  induction a as [|x a IH]; [done |].
  change (String x (a +:+ b) = String x (a +:+ c) -> b = c).
  intros [= H]. by apply IH.
Qed.

Lemma prefix_true (p s : string) :
  String.prefix p s = true -> exists rest, s = p +:+ rest.
Proof.
  revert s. induction p as [|x p IH]; intros s.
  - intros _. by exists s.
  - destruct s as [|y s]; simpl; [done |].
    destruct (Ascii.ascii_dec x y) as [-> | ?]; [| done].
    intros (rest & ->)%IH. by exists rest.
Qed.

Lemma contains_nil (sub : string) : Py.contains sub "" = String.prefix sub "".
Proof. apply orb_false_r. Qed.

Lemma contains_cons (sub : string) (c : ascii) (s : string) :
  Py.contains sub (String c s) = String.prefix sub (String c s) || Py.contains sub s.
Proof. done. Qed.

(** [sub in s] holds exactly when [s] is some text, [sub], and some text. *)
Lemma contains_spec (sub s : string) :
  Py.contains sub s = true <-> exists front back, s = front +:+ sub +:+ back.
Proof.
  split.
  - induction s as [|c s IH].
    + rewrite contains_nil. intros (rest & Hs)%prefix_true. by exists "", rest.
    + rewrite contains_cons. intros [Hp | Hc]%orb_true_iff.
      * apply prefix_true in Hp as (rest & Hs). by exists "", rest.
      * destruct (IH Hc) as (front & back & ->). by exists (String c front), back.
  - intros (front & back & ->). induction front as [|c front IH].
    + change (Py.contains sub (sub +:+ back) = true).
      destruct (sub +:+ back) as [|c t] eqn:Heq.
      * rewrite contains_nil, <- Heq. apply prefix_app.
      * rewrite contains_cons, <- Heq, prefix_app. done.
    + change (Py.contains sub (String c (front +:+ sub +:+ back)) = true).
      rewrite contains_cons, IH. apply orb_true_r.
Qed.

Lemma drop_app (p s : string) : Py.drop (String.length p) (p +:+ s) = s.
Proof. induction p as [|c p IH]; [done | exact IH]. Qed.

Lemma drop_app_le (n : nat) (p s : string) :
  n <= String.length p -> Py.drop n (p +:+ s) = Py.drop n p +:+ s.
Proof.
  revert p. induction n as [|n IH]; intros p Hn; [done |].
  destruct p as [|c p]; simpl in Hn; [lia |].
  change (Py.drop n (p +:+ s) = Py.drop n p +:+ s). apply IH. lia.
Qed.

(** X1.  The test ['.gdb' in workspace[-4:]], which decides whether the
    layers are converted first and whether the loop copies them, holds
    exactly for the workspaces whose path ends in [.gdb], in that case. *)
Theorem is_gdb_iff_ends_with_gdb (workspace : string) :
  is_gdb workspace = true <-> exists front, workspace = front +:+ ".gdb".
Proof.
  unfold is_gdb, Py.last_chars. split.
  - intros (a & b & Hlast)%contains_spec.
    pose proof (drop_length (String.length workspace - 4) workspace) as Hlen.
    rewrite Hlast, !string_length_app in Hlen. simpl in Hlen.
    assert (String.length a = 0 /\ String.length b = 0) as [Ha Hb] by lia.
    destruct a; [| done]. destruct b; [| done].
    destruct (drop_is_tail (String.length workspace - 4) workspace) as (front & Hw & _);
      [lia |].
    exists front. by rewrite Hw, Hlast at 1.
  - intros (front & ->). rewrite string_length_app. simpl.
    replace (String.length front + 4 - 4) with (String.length front) by lia.
    by rewrite drop_app.
Qed.

Lemma is_gdb_iff_ends_with_gdb_witness :
  (exists front, Demo.workspace_gdb = front +:+ ".gdb") /\
  is_gdb Demo.workspace_gdb = true /\
  is_gdb "C:/data/shapes" = false.
Proof.
  assert (exists front, Demo.workspace_gdb = front +:+ ".gdb") as H
      by (by exists "C:/data/reef").
  split; [exact H |].
  split; [exact (proj2 (is_gdb_iff_ends_with_gdb Demo.workspace_gdb) H) |].
  reflexivity.
Defined.

(** ** What the new name keeps of the old one *)


Lemma string_app_inv_tail_length (a b n1 n2 : string) :
  a +:+ n1 = b +:+ n2 -> String.length n1 = String.length n2 -> n1 = n2.
Proof.
  revert b. induction a as [|x a IH]; intros b Heq Hlen.
  - destruct b as [|y b]; [done |].
    apply (f_equal String.length) in Heq.
    change (String.length n1 = S (String.length (b +:+ n2))) in Heq.
    rewrite string_length_app in Heq. lia.
  - destruct b as [|y b].
    + apply (f_equal String.length) in Heq.
      change (S (String.length (a +:+ n1)) = String.length n2) in Heq.
      rewrite string_length_app in Heq. lia.
    + change (String x (a +:+ n1) = String y (b +:+ n2)) in Heq.
      injection Heq as _ Heq. by apply (IH b).
Qed.

Lemma new_field_name_short (feature_name field_name : string) :
  String.length field_name <= 30 ->
  exists lost kept,
    feature_name = lost +:+ kept /\
    new_field_name feature_name field_name = kept +:+ field_name.
Proof.
  unfold new_field_name. rewrite string_length_app. intros Hshort.
  destruct (Nat.ltb_spec 31 (String.length feature_name + String.length field_name)).
  - destruct (drop_is_tail
                (String.length feature_name + String.length field_name - 30)
                feature_name) as (lost & Hname & _); [lia |].
    exists lost, (Py.drop (String.length feature_name + String.length field_name - 30)
                          feature_name).
    split; [done |]. apply drop_app_le. lia.
  - exists "", feature_name. done.
Qed.



(** X3.  Within one layer the renaming keeps two different field names
    apart when neither name is cut, and also when both names have the same
    length of at most 30 characters, cut or not. *)
Theorem new_names_distinct_within_layer (feature_name n1 n2 : string) :
  n1 ≠ n2 ->
  (String.length (feature_name +:+ n1) <= 31 /\
   String.length (feature_name +:+ n2) <= 31) \/
  (String.length n1 = String.length n2 /\ String.length n1 <= 30) ->
  new_field_name feature_name n1 ≠ new_field_name feature_name n2.
Proof.
  intros Hne [[H1 H2] | [Hlen Hshort]] Heq; apply Hne.
  - unfold new_field_name in Heq.
    destruct (Nat.ltb_spec 31 (String.length (feature_name +:+ n1))); [lia |].
    destruct (Nat.ltb_spec 31 (String.length (feature_name +:+ n2))); [lia |].
    by apply string_app_inv_head in Heq.
  - destruct (new_field_name_short feature_name n1) as (l1 & k1 & _ & Hn1); [done |].
    destruct (new_field_name_short feature_name n2) as (l2 & k2 & _ & Hn2); [lia |].
    rewrite Hn1, Hn2 in Heq. by apply string_app_inv_tail_length in Heq.
Qed.

Lemma new_names_distinct_within_layer_witness :
  "habitat_class_code_1" ≠ "habitat_class_code_2" /\
  (String.length "habitat_class_code_1" = String.length "habitat_class_code_2" /\
   String.length "habitat_class_code_1" <= 30) /\
  new_field_name "north_reef_geomorphic_zones_2019" "habitat_class_code_1"
  ≠ new_field_name "north_reef_geomorphic_zones_2019" "habitat_class_code_2".
Proof.
  assert ("habitat_class_code_1" ≠ "habitat_class_code_2") as H1 by discriminate.
  assert (String.length "habitat_class_code_1" = String.length "habitat_class_code_2" /\
          String.length "habitat_class_code_1" <= 30) as H2
      by (vm_compute; split; [reflexivity | lia]).
  exact (conj H1 (conj H2
    (new_names_distinct_within_layer "north_reef_geomorphic_zones_2019"
       "habitat_class_code_1" "habitat_class_code_2" H1 (or_intror H2)))).
Defined.

(** ** More on the recode pass *)

Lemma spec_cell_inj (column : list value) (v w : value) :
  v ∈ column -> w ∈ column -> spec_cell column v = spec_cell column w -> v = w.
Proof.
  intros Hv Hw Heq.
  destruct (decide (v = VNone)) as [-> | Hvn], (decide (w = VNone)) as [-> | Hwn].
  - done.
  - rewrite (spec_cell_non_null column w) in Heq by done. done.
  - rewrite (spec_cell_non_null column v) in Heq by done. done.
  - rewrite !spec_cell_non_null in Heq by done.
    injection Heq as Heq. by apply (spec_code_inj column).
Qed.

Lemma spec_cell_not_null (column : list value) (v : value) :
  spec_cell column v ≠ VNone.
Proof. by destruct v. Qed.

(** X4.  Recoding a field with at most six distinct values loses nothing:
    the table keeps its number of rows, no recoded cell is null, and two rows
    hold the same recoded cell exactly when they held the same cell before. *)
Theorem recode_keeps_rows_apart
        (table : string * string) (field : string) (l : layer) (e : engine) :
  datasets e !! table = Some l ->
  field ∈ names (fields l) ->
  length (first_seen (row_get field <$> rows l)) <= 6 ->
  exists e' l',
    recode_field table field e = (Ok tt, e') /\
    datasets e' !! table = Some l' /\
    length (rows l') = length (rows l) /\
    forall i j r1 r2 r1' r2',
      rows l !! i = Some r1 -> rows l !! j = Some r2 ->
      rows l' !! i = Some r1' -> rows l' !! j = Some r2' ->
      row_get field r1' ≠ VNone /\
      (row_get field r1' = row_get field r2' <-> row_get field r1 = row_get field r2).
Proof.
  intros Hl Hf Hsmall. eexists _, _.
  split; [by apply (recode_field_small _ _ l) |].
  cbn [datasets]. rewrite lookup_insert_eq. split; [done |].
  cbn [rows with_rows]. unfold spec_written. split.
  { rewrite length_zip_with, !length_fmap. lia. }
  intros i j r1 r2 r1' r2' H1 H2 H1' H2'.
  set (column := row_get field <$> rows l) in *.
  assert (forall k r r', rows l !! k = Some r ->
            zip_with (row_set field) (spec_cell column <$> column) (rows l) !! k = Some r' ->
            row_get field r' = spec_cell column (row_get field r) /\
            row_get field r ∈ column) as Hcell.
  { intros k r r' Hr Hr'.
    apply lookup_zip_with_Some in Hr' as (w & r0 & -> & Hw & Hr0).
    rewrite Hr in Hr0. injection Hr0 as <-.
    unfold column in Hw. rewrite !list_lookup_fmap, Hr in Hw. injection Hw as <-.
    split; [apply row_get_set |].
    unfold column. apply list_elem_of_fmap_2. by eapply list_elem_of_lookup_2. }
  destruct (Hcell i r1 r1' H1 H1') as [-> Hin1].
  destruct (Hcell j r2 r2' H2 H2') as [-> Hin2].
  split; [apply spec_cell_not_null |].
  split; [by apply spec_cell_inj | by intros ->].
Qed.

Lemma recode_keeps_rows_apart_witness :
  let l := Demo.joined ["lagoon"; "crest"; "lagoon"] in
  let e := Demo.engine_with l in
  exists e' l',
    recode_field Demo.output_path "reefNAME" e = (Ok tt, e') /\
    datasets e' !! Demo.output_path = Some l' /\
    length (rows l') = 4.
Proof.
  assert (datasets (Demo.engine_with (Demo.joined ["lagoon"; "crest"; "lagoon"]))
            !! Demo.output_path
          = Some (Demo.joined ["lagoon"; "crest"; "lagoon"])) as H1
      by (vm_compute; reflexivity).
  assert ("reefNAME" ∈ names (fields (Demo.joined ["lagoon"; "crest"; "lagoon"]))) as H2
      by by_evaluation.
  assert (length (first_seen (row_get "reefNAME"
            <$> rows (Demo.joined ["lagoon"; "crest"; "lagoon"]))) <= 6) as H3
      by (vm_compute; lia).
  destruct (recode_keeps_rows_apart _ _ _ _ H1 H2 H3) as (e' & l' & Hrun & Hl' & Hlen & _).
  exists e', l'. split; [exact Hrun |]. split; [exact Hl' |].
  rewrite Hlen. vm_compute. reflexivity.
Defined.

Lemma recode_field_ok (table : string * string) (field : string) (l : layer)
      (e : engine) :
  datasets e !! table = Some l -> field ∈ names (fields l) ->
  exists e' l',
    recode_field table field e = (Ok tt, e') /\
    datasets e' !! table = Some l' /\
    fields l' = fields l.
Proof.
  intros Hl Hf.
  destruct (decide (length (first_seen (row_get field <$> rows l)) <= 6)).
  - eexists _, _. split; [by apply (recode_field_small _ _ l) |].
    cbn [datasets]. by rewrite lookup_insert_eq.
  - exists (with_stdout (diagnostic field) e), l.
    split; [apply (recode_field_large _ _ l); (done || lia) | done].
Qed.

Lemma recode_field_missing (table : string * string) (field : string) (l : layer)
      (e : engine) :
  datasets e !! table = Some l -> field ∉ names (fields l) ->
  recode_field table field e
  = (Raise (PyError "A column was specified that does not exist."), e).
Proof.
  intros Hl Hf. unfold recode_field, bind, open_cursor.
  rewrite Hl. by rewrite bool_decide_eq_false_2.
Qed.

Lemma recode_loop_outcome (out : string * string) (todo : list string) (l : layer)
      (e : engine) :
  datasets e !! out = Some l ->
  ((forall f, f ∈ todo -> f ∈ names (fields l)) ->
   exists e' l', for_each todo (recode_field out) e = (Ok tt, e') /\
                 datasets e' !! out = Some l' /\ fields l' = fields l) /\
  (~ (forall f, f ∈ todo -> f ∈ names (fields l)) ->
   exists e', for_each todo (recode_field out) e
              = (Raise (PyError "A column was specified that does not exist."), e')).
Proof.
  revert l e. induction todo as [|f todo IH]; intros l e Hl.
  - split.
    + intros _. by exists e, l.
    + intros Hno. exfalso. apply Hno. intros f Hf. by apply elem_of_nil in Hf.
  - cbn [for_each]. unfold bind.
    destruct (decide (f ∈ names (fields l))) as [Hf | Hf].
    + destruct (recode_field_ok out f l e Hl Hf) as (e1 & l1 & -> & Hl1 & Hfields).
      destruct (IH l1 e1 Hl1) as [Hall Hsome]. rewrite Hfields in Hall, Hsome. split.
      * intros Hin. destruct Hall as (e' & l' & Hrun & Hl' & Hf').
        { intros g Hg. apply Hin. by apply list_elem_of_further. }
        by exists e', l'.
      * intros Hno. apply Hsome. intros Hin. apply Hno.
        intros g [-> | Hg]%elem_of_cons; [done | by apply Hin].
    + rewrite (recode_field_missing out f l e) by done. split.
      * intros Hin. exfalso. apply Hf, Hin, list_elem_of_here.
      * intros _. by exists e.
Qed.

(** X5.  With the update parameter set to ['Yes'] and the output layer in
    place, the recode pass ends normally exactly when every name in
    [joinFields_str] is a field of the output layer; otherwise it stops at
    the first name that is not, with the exception of the cursor. *)
Theorem recode_pass_needs_every_field
        (P : parameters) (joinFields_str : list string) (l : layer) (e : engine) :
  update_fields P = Some "Yes" ->
  datasets e !! corals_output P = Some l ->
  ((forall f, f ∈ joinFields_str -> f ∈ names (fields l)) ->
   (recode_pass P joinFields_str e).1 = Ok tt) /\
  (~ (forall f, f ∈ joinFields_str -> f ∈ names (fields l)) ->
   (recode_pass P joinFields_str e).1
   = Raise (PyError "A column was specified that does not exist.")).
Proof.
  intros Hyes Hl.
  pose (e4 := with_message (Message, "---------------")
                (with_message (Message, "Data Dictionary")
                   (with_message (Message, "---------------")
                      (with_message (Message, "---------------") e)))).
  assert (recode_pass P joinFields_str e =
          match for_each joinFields_str (recode_field (corals_output P)) e4 with
          | (Ok _, e') =>
              (Ok tt, with_message (Message, "---------------")
                        (with_message (Message, "---------------") e'))
          | (Raise x, e') => (Raise x, e')
          end) as ->.
  { unfold recode_pass. rewrite bool_decide_eq_true_2 by done.
    unfold bind at 1, AddMessage at 1, modify at 1.
    unfold bind at 1, AddMessage at 1, modify at 1.
    unfold bind at 1, AddMessage at 1, modify at 1.
    unfold bind at 1, AddMessage at 1, modify at 1.
    unfold bind at 1. fold e4.
    by destruct (for_each joinFields_str (recode_field (corals_output P)) e4)
      as [[[] | x] e']. }
  destruct (recode_loop_outcome (corals_output P) joinFields_str l e4 Hl) as [Hall Hsome].
  split.
  - intros Hin. destruct (Hall Hin) as (e' & l' & -> & _). done.
  - intros Hno. destruct (Hsome Hno) as (e' & ->). done.
Qed.

Lemma recode_pass_needs_every_field_witness :
  let l := Demo.joined ["lagoon"; "crest"] in
  let e := Demo.engine_with l in
  update_fields Demo.parameters0 = Some "Yes" /\
  datasets e !! corals_output Demo.parameters0 = Some l /\
  (recode_pass Demo.parameters0 ["reefNAME"; "SITE"] e).1 = Ok tt /\
  (recode_pass Demo.parameters0 ["reefNAME"; "depthZONE"] e).1
  = Raise (PyError "A column was specified that does not exist.").
Proof.
  assert (update_fields Demo.parameters0 = Some "Yes") as H1 by reflexivity.
  assert (datasets (Demo.engine_with (Demo.joined ["lagoon"; "crest"]))
            !! corals_output Demo.parameters0
          = Some (Demo.joined ["lagoon"; "crest"])) as H2 by (vm_compute; reflexivity).
  split; [exact H1 |]. split; [exact H2 |]. split.
  - apply (proj1 (recode_pass_needs_every_field Demo.parameters0 ["reefNAME"; "SITE"]
                    _ _ H1 H2)).
    intros f Hf. rewrite !elem_of_cons, elem_of_nil in Hf.
    destruct Hf as [-> | [-> | []]]; by_evaluation.
  - apply (proj2 (recode_pass_needs_every_field Demo.parameters0 ["reefNAME"; "depthZONE"]
                    _ _ H1 H2)).
    intros Hall. specialize (Hall "depthZONE").
    assert ("depthZONE" ∉ names (fields (Demo.joined ["lagoon"; "crest"]))) as Hno
        by by_evaluation.
    apply Hno, Hall. apply list_elem_of_further, list_elem_of_here.
Defined.

(** ** What a selection deletes *)

Lemma concat_contains (sep x : string) (l : list string) :
  x ∈ l -> exists front back, String.concat sep l = front +:+ x +:+ back.
Proof.
  induction l as [|y l IH]; [by intros ?%elem_of_nil |].
  intros [-> | Hin]%elem_of_cons.
  - destruct l as [|z l].
    + exists "", "". simpl. by rewrite string_app_nil_r.
    + by exists "", (sep +:+ String.concat sep (z :: l)).
  - destruct l as [|z l]; [by apply elem_of_nil in Hin |].
    destruct (IH Hin) as (a & b & Heq).
    exists (y +:+ sep +:+ a), b.
    change (String.concat sep (y :: z :: l))
      with (y +:+ sep +:+ String.concat sep (z :: l)).
    by rewrite Heq, !string_app_assoc.
Qed.

Lemma deleted_loop_rows (t : string) (fs : list Field) (l : layer) :
  rows (foldl (fun l f => if Py.contains (name f) t
                          then delete_fields [name f] l else l) l fs) =
  (fun r : gmap string value =>
     foldl (fun r f => if Py.contains (name f) t then delete (name f) r else r) r fs)
    <$> rows l.
Proof.
  revert l. induction fs as [|g fs IH]; intros l.
  - simpl. by rewrite list_fmap_id.
  - cbn [foldl]. rewrite IH. destruct (Py.contains (name g) t).
    + cbn [delete_fields rows]. by rewrite <- list_fmap_compose.
    + done.
Qed.

Lemma deleted_cells_kept (t : string) (fs : list Field) (r : gmap string value)
      (g : string) :
  Py.contains g t = false ->
  foldl (fun r f => if Py.contains (name f) t then delete (name f) r else r) r fs !! g
  = r !! g.
Proof.
  intros Hg. revert r. induction fs as [|f fs IH]; intros r; [done |].
  cbn [foldl]. rewrite IH. destruct (Py.contains (name f) t) eqn:Hf; [| done].
  apply lookup_delete_ne. congruence.
Qed.

(** X6.  The deletion step compares field names with the text of the
    selection, whatever layer an entry was offered for: once an entry
    [fc:n] is selected, the step removes the field [n] from every layer it
    is run on.  It keeps exactly the fields whose name does not occur in the
    text, with their cells, and touches no other dataset. *)
Theorem selected_field_is_deleted
        (feature : string * string) (selected : list string) (fc n : string)
        (l : layer) (e : engine) :
  datasets e !! feature = Some l ->
  fc +:+ ":" +:+ n ∈ selected ->
  exists e' l',
    delete_join_fields feature (valueAsText selected) e = (Ok feature, e') /\
    datasets e' !! feature = Some l' /\
    ~ n ∈ names (fields l') /\
    fields l' =
      filter (fun f => Py.contains (name f) (String.concat ";" selected) = false)
             (fields l) /\
    length (rows l') = length (rows l) /\
    (forall i r r' g,
        rows l !! i = Some r -> rows l' !! i = Some r' ->
        Py.contains g (String.concat ";" selected) = false ->
        r' !! g = r !! g) /\
    (forall p, p ≠ feature -> datasets e' !! p = datasets e !! p).
Proof.
  intros Hl Hsel.
  destruct (delete_join_fields_run feature (valueAsText selected) l e Hl)
    as (e' & Hrun & _ & _ & Hds).
  assert (valueAsText selected = Some (String.concat ";" selected)) as Htext.
  { destruct selected; [by apply elem_of_nil in Hsel | done]. }
  set (text := String.concat ";" selected) in *.
  assert (Py.contains n text = true) as Hn.
  { apply contains_spec.
    destruct (concat_contains ";" _ _ Hsel) as (a & b & Heq).
    exists (a +:+ fc +:+ ":"), b. fold text in Heq.
    by rewrite Heq, !string_app_assoc. }
  exists e', (deleted (valueAsText selected) l).
  split; [done |]. split; [by rewrite Hds, lookup_insert_eq |].
  assert (fields (deleted (valueAsText selected) l)
          = filter (fun f => Py.contains (name f) text = false) (fields l)) as Hfields.
  { rewrite deleted_fields, Htext. done. }
  split.
  { rewrite Hfields. unfold names. intros (f & Hname & Hf)%list_elem_of_fmap.
    apply list_elem_of_filter in Hf as [Hf _]. congruence. }
  split; [done |].
  rewrite Htext. cbn [deleted]. rewrite deleted_loop_rows. split.
  { by rewrite length_fmap. }
  split.
  - intros i r r' g Hr Hr' Hg.
    rewrite list_lookup_fmap, Hr in Hr'. injection Hr' as <-.
    by apply deleted_cells_kept.
  - intros p Hp. rewrite Hds. by apply lookup_insert_ne.
Qed.

Lemma selected_field_is_deleted_witness :
  let feature := (Demo.scratch_gdb, "reef") in
  datasets Demo.engine_zones !! feature = Some Demo.zones /\
  "depth" +:+ ":" +:+ "METRES" ∈ ["reef:ZONE"; "depth:METRES"] /\
  exists e' l',
    delete_join_fields feature (valueAsText ["reef:ZONE"; "depth:METRES"])
                       Demo.engine_zones = (Ok feature, e') /\
    datasets e' !! feature = Some l' /\
    ~ "METRES" ∈ names (fields l').
Proof.
  assert (datasets Demo.engine_zones !! (Demo.scratch_gdb, "reef") = Some Demo.zones)
    as H1 by (vm_compute; reflexivity).
  assert ("depth" +:+ ":" +:+ "METRES" ∈ ["reef:ZONE"; "depth:METRES"]) as H2
      by by_evaluation.
  split; [exact H1 |]. split; [exact H2 |].
  destruct (selected_field_is_deleted _ _ _ _ _ _ H1 H2)
    as (e' & l' & Hrun & Hl' & Hn & _).
  by exists e', l'.
Defined.

(** ** The entries offered for deletion *)

Lemma offer_fields_spec (fc : string) (lFields : list Field) (fields : list string) :
  offer_fields fc lFields fields =
  fields ++ ((fun fd => fc +:+ ":" +:+ name fd)
               <$> filter (fun fd => reserved (name fd) = false) lFields).
Proof.
  revert fields. induction lFields as [|fd rest IH]; intros fields.
  - by rewrite app_nil_r.
  - cbn [offer_fields]. rewrite filter_cons. destruct (reserved (name fd)).
    + rewrite decide_False by done. apply IH.
    + rewrite decide_True by done. cbn [negb]. rewrite IH, fmap_cons.
      by rewrite <- app_assoc.
Qed.

Lemma offer_features_run (features : list string) (acc : list string) (e : engine) :
  (forall fc, fc ∈ features -> is_Some (datasets e !! (env_workspace e, fc))) ->
  exists offered,
    offer_features features acc e = (Ok (acc ++ offered), e) /\
    forall x, x ∈ offered <->
      exists fc l fd,
        fc ∈ features /\ datasets e !! (env_workspace e, fc) = Some l /\
        fd ∈ fields l /\ reserved (name fd) = false /\
        x = fc +:+ ":" +:+ name fd.
Proof.
  revert acc. induction features as [|fc rest IH]; intros acc Hall.
  - exists []. rewrite app_nil_r. split; [done |].
    intros x. split; [by intros ?%elem_of_nil |].
    by intros (fc & _ & _ & ?%elem_of_nil & _).
  - destruct (Hall fc) as [l Hl]; [apply list_elem_of_here |].
    cbn [offer_features]. unfold bind at 1, gets at 1. unfold bind at 1.
    rewrite (ListFields_ok _ l) by done.
    destruct (IH (offer_fields fc (fields l) acc)) as (offered & -> & Hoff).
    { intros g Hg. apply Hall. by apply list_elem_of_further. }
    rewrite offer_fields_spec, <- app_assoc. eexists. split; [done |].
    intros x. rewrite elem_of_app, Hoff, list_elem_of_fmap. split.
    + intros [(fd & -> & Hfd) | (g & k & fd & Hg & Hk & Hfd & Hres & ->)].
      * apply list_elem_of_filter in Hfd as [Hres Hfd].
        exists fc, l, fd. split; [apply list_elem_of_here | done].
      * exists g, k, fd. split; [by apply list_elem_of_further | done].
    + intros (g & k & fd & [-> | Hg]%elem_of_cons & Hk & Hfd & Hres & ->).
      * left. exists fd. split; [done |]. apply list_elem_of_filter.
        rewrite Hl in Hk. injection Hk as <-. done.
      * right. by exists g, k, fd.
Qed.

(** X7.  When the workspace parameter has been altered, [updateParameters]
    makes it the current workspace and offers for deletion exactly the
    entries [layer:field] of the fields, other than the four system fields,
    of the polygon layers of that workspace; it reads the datasets and never
    fails.  Otherwise it offers nothing. *)
Theorem updateParameters_offers_polygon_fields (workspace_valueAsText : string)
        (e : engine) :
  (exists offered,
     updateParameters true workspace_valueAsText e
     = (Ok offered, with_workspace workspace_valueAsText e) /\
     forall x, x ∈ offered <->
       exists fc l fd,
         datasets e !! (workspace_valueAsText, fc) = Some l /\
         shapeType l = "Polygon" /\
         fd ∈ fields l /\
         ~ name fd ∈ ["OBJECTID"; "Shape"; "Shape_Length"; "Shape_Area"] /\
         x = fc +:+ ":" +:+ name fd) /\
  updateParameters false workspace_valueAsText e = (Ok [], e).
Proof.
  split; [| done].
  unfold updateParameters. unfold bind at 1, modify at 1. unfold bind at 1.
  rewrite ListFeatureClasses_run.
  set (e1 := with_workspace workspace_valueAsText e).
  destruct (offer_features_run
              (listing (env_workspace e1) (Some "Polygon") (datasets e1)) [] e1)
    as (offered & Hrun & Hoff).
  { intros fc (l & Hl & _)%elem_of_listing. by exists l. }
  exists offered. split; [exact Hrun |].
  intros x. rewrite Hoff. split.
  - intros (fc & l & fd & Hfc & Hl & Hfd & Hres & ->).
    apply elem_of_listing in Hfc as (l0 & Hl0 & Hshape).
    rewrite Hl in Hl0. injection Hl0 as <-.
    exists fc, l, fd. repeat split; try done.
    rewrite <- reserved_spec. by rewrite Hres.
  - intros (fc & l & fd & Hl & Hshape & Hfd & Hres & ->).
    exists fc, l, fd. repeat split; try done.
    + apply elem_of_listing. by exists l.
    + rewrite <- reserved_spec in Hres. by destruct (reserved (name fd)).
Qed.

(** ** The output of a join *)

Lemma str_of_nat_inj (a b : nat) : Py.str_of_nat a = Py.str_of_nat b -> a = b.
Proof.
  unfold Py.str_of_nat. intros H.
  apply (f_equal NilEmpty.uint_of_string) in H. rewrite !NilEmpty.usu in H.
  injection H as H. apply (f_equal Nat.of_uint) in H.
  by rewrite !DecimalNat.Unsigned.of_to in H.
Qed.

(** Among more distinct paths than there are datasets, one is free. *)
Lemma free_candidate (ds : gmap (string * string) layer)
      (candidates : list (string * string)) :
  NoDup candidates -> size ds < length candidates ->
  exists p, p ∈ candidates /\ ds !! p = None.
Proof.
  intros Hnd Hlen.
  destruct (decide (Exists (fun p => ds !! p = None) candidates)) as [Hex | Hno].
  - by apply Exists_exists in Hex.
  - exfalso. apply not_Exists_Forall in Hno; [| intros p; apply _].
    rewrite Forall_forall in Hno.
    assert (candidates ⊆+ (map_to_list ds).*1) as Hsub.
    { apply NoDup_submseteq; [done |]. intros p Hp.
      destruct (ds !! p) as [l |] eqn:Hl; [| by destruct (Hno p Hp)].
      apply list_elem_of_fmap. exists (p, l). split; [done |].
      by apply elem_of_map_to_list. }
    apply submseteq_length in Hsub.
    rewrite length_fmap, length_map_to_list in Hsub. lia.
Qed.

Lemma CreateScratchName_fresh (prefix ws : string) (e : engine) :
  exists k,
    CreateScratchName prefix ws e = (Ok (ws, prefix +:+ Py.str_of_nat k), e) /\
    datasets e !! (ws, prefix +:+ Py.str_of_nat k) = None.
Proof.
  unfold CreateScratchName.
  set (candidates := (fun k => (ws, prefix +:+ Py.str_of_nat k))
                       <$> seq 0 (S (size (datasets e)))).
  destruct (free_candidate (datasets e) candidates) as (q & Hq & Hfree).
  { apply NoDup_fmap_2; [| apply NoDup_seq].
    intros a b [= H]. by apply string_app_inv_head, str_of_nat_inj in H. }
  { unfold candidates. rewrite length_fmap, length_seq. lia. }
  destruct (head (filter (fun p => datasets e !! p = None) candidates))
    as [p |] eqn:Hhead.
  - apply head_Some_elem_of, list_elem_of_filter in Hhead as [Hp Hin].
    apply list_elem_of_fmap in Hin as (k & -> & _). by exists k.
  - exfalso. apply head_None in Hhead.
    assert (q ∈ filter (fun p => datasets e !! p = None) candidates) as Hin
        by by apply list_elem_of_filter.
    rewrite Hhead in Hin. by apply elem_of_nil in Hin.
Qed.

(** X8.  A join of two layers that exist writes its result into the scratch
    database under a name that no dataset has: it overwrites nothing, and
    leaves every dataset as it was, the running target and the joined layer
    among them.  The result has the fields of the target followed by those
    of the layer, without the two bookkeeping fields of the join. *)
Theorem join_output_is_a_new_dataset
        (SpatialJoin_rows : layer -> layer -> list (gmap string value))
        (coral feature : string * string) (t j : layer) (e : engine) :
  datasets e !! coral = Some t -> datasets e !! feature = Some j ->
  exists scratch_name e' l',
    coral_geo_join SpatialJoin_rows coral feature e = (Ok scratch_name, e') /\
    scratch_name.1 = env_scratchGDB e /\
    datasets e !! scratch_name = None /\
    datasets e' !! scratch_name = Some l' /\
    (forall p, p ≠ scratch_name -> datasets e' !! p = datasets e !! p) /\
    fields l' =
      filter (fun f => name f ∉ ["Join_Count"; "TARGET_FID"]) (fields t) ++
      filter (fun f => name f ∉ ["Join_Count"; "TARGET_FID"]) (fields j) /\
    factoryCode l' = factoryCode t /\
    shapeType l' = shapeType t.
Proof.
  intros Ht Hj. unfold coral_geo_join. unfold bind at 1, gets at 1.
  destruct (CreateScratchName_fresh "tempCoralJoin" (env_scratchGDB e) e)
    as (k & Hname & Hfree).
  unfold bind at 1. rewrite Hname.
  set (scratch_name := (env_scratchGDB e, "tempCoralJoin" +:+ Py.str_of_nat k)) in *.
  destruct (SpatialJoin_ok SpatialJoin_rows coral feature scratch_name t j e Ht Hj)
    as (e1 & Hjoin & Hw1 & Hs1 & Hds1).
  unfold bind at 1. rewrite Hjoin.
  destruct (DeleteField_ok scratch_name ["Join_Count"; "TARGET_FID"]
              (join_layer SpatialJoin_rows t j) e1)
    as (e2 & Hdel & (Hw2 & Hs2 & _ & Hds2 & _) & _).
  { by rewrite Hds1, lookup_insert_eq. }
  unfold bind at 1. rewrite Hdel.
  exists scratch_name, e2, (join_result SpatialJoin_rows t j).
  split; [done |]. split; [done |]. split; [done |].
  split; [by rewrite Hds2, lookup_insert_eq |].
  split.
  { intros p Hp. rewrite Hds2, Hds1. by rewrite !lookup_insert_ne. }
  split; [apply join_result_fields | done].
Qed.

Lemma join_output_is_a_new_dataset_witness :
  let e := Demo.engine0 in
  datasets e !! Demo.target_path = Some Demo.corals /\
  datasets e !! (Demo.workspace_gdb, "reef") = Some Demo.reef /\
  exists scratch_name e' l',
    coral_geo_join Demo.first_row_join Demo.target_path (Demo.workspace_gdb, "reef") e
    = (Ok scratch_name, e') /\
    datasets e' !! scratch_name = Some l' /\
    datasets e' !! Demo.target_path = Some Demo.corals /\
    names (fields l') =
      ["OBJECTID"; "Shape"; "SITE";
       "OBJECTID"; "Shape"; "Shape_Length"; "Shape_Area"; "NAME"].
Proof.
  assert (datasets Demo.engine0 !! Demo.target_path = Some Demo.corals) as H1
      by (vm_compute; reflexivity).
  assert (datasets Demo.engine0 !! (Demo.workspace_gdb, "reef") = Some Demo.reef) as H2
      by (vm_compute; reflexivity).
  split; [exact H1 |]. split; [exact H2 |].
  destruct (join_output_is_a_new_dataset Demo.first_row_join _ _ _ _ _ H1 H2)
    as (scratch_name & e' & l' & Hrun & _ & Hfree & Hl' & Hkeep & Hfields & _).
  exists scratch_name, e', l'. split; [exact Hrun |]. split; [exact Hl' |]. split.
  - rewrite Hkeep; [exact H1 |]. intros Heq. rewrite <- Heq, H1 in Hfree. discriminate.
  - unfold names. rewrite Hfields. vm_compute. reflexivity.
Defined.

(** ** The projection step *)

(** X9.  A layer that has the spatial reference of the target is returned as
    it is, and nothing is run.  Any other layer is projected once, to the
    path made of the scratch database, the name of the layer of the loop and
    an underscore: the copy has the spatial reference of the target and the
    shape type, fields and rows of the layer; no other dataset changes, so
    the layer itself keeps its spatial reference unless it lies under that
    path; and the step run again on the copy projects nothing. *)
Theorem projection_is_made_once
        (coral_spatialReference_WKID : Z) (fc feature : string * string)
        (l : layer) (e : engine) :
  datasets e !! feature = Some l ->
  (factoryCode l = coral_spatialReference_WKID ->
   change_spatial_reference coral_spatialReference_WKID fc feature e = (Ok feature, e)) /\
  (factoryCode l ≠ coral_spatialReference_WKID ->
   exists e' l',
     let feature_project := (env_scratchGDB e, fc.2 +:+ "_") in
     change_spatial_reference coral_spatialReference_WKID fc feature e
     = (Ok feature_project, e') /\
     datasets e' !! feature_project = Some l' /\
     factoryCode l' = coral_spatialReference_WKID /\
     shapeType l' = shapeType l /\ fields l' = fields l /\ rows l' = rows l /\
     (forall p, p ≠ feature_project -> datasets e' !! p = datasets e !! p) /\
     calls e' = calls e ++ [CallProject feature feature_project coral_spatialReference_WKID] /\
     change_spatial_reference coral_spatialReference_WKID fc feature_project e'
     = (Ok feature_project, e')).
Proof.
  intros Hl. split.
  - intros Hsame. unfold change_spatial_reference. unfold bind at 1.
    rewrite (Describe_ok feature l) by done.
    by rewrite Hsame, Z.eqb_refl.
  - intros Hother. unfold change_spatial_reference at 1. unfold bind at 1.
    rewrite (Describe_ok feature l) by done.
    assert ((coral_spatialReference_WKID =? factoryCode l)%Z = false) as ->
        by (apply Z.eqb_neq; congruence).
    cbn [negb]. unfold bind at 1, gets at 1.
    unfold path_append, os_path_join, os_path_split. cbn [fst snd].
    set (feature_project := (env_scratchGDB e, fc.2 +:+ "_")).
    destruct (Project_ok feature feature_project coral_spatialReference_WKID l e Hl)
      as (e' & Hrun & (_ & _ & _ & Hds & Hcalls) & _).
    unfold bind at 1. rewrite Hrun.
    exists e', (project coral_spatialReference_WKID l).
    assert (datasets e' !! feature_project = Some (project coral_spatialReference_WKID l))
      as Hcopy by by rewrite Hds, lookup_insert_eq.
    split; [done |]. split; [done |]. repeat (split; [done |]).
    split; [| split; [done |]].
    + intros p Hp. rewrite Hds. by apply lookup_insert_ne.
    + unfold change_spatial_reference. unfold bind at 1.
      rewrite (Describe_ok feature_project _ e' Hcopy).
      cbn [project factoryCode]. by rewrite Z.eqb_refl.
Qed.

Lemma projection_is_made_once_witness :
  let e := Demo.engine0 in
  let feature := (Demo.workspace_gdb, "reef") in
  datasets e !! feature = Some Demo.reef /\
  factoryCode Demo.reef ≠ 4326%Z /\
  exists e' l',
    change_spatial_reference 4326 feature feature e
    = (Ok (Demo.scratch_gdb, "reef_"), e') /\
    datasets e' !! (Demo.scratch_gdb, "reef_") = Some l' /\
    factoryCode l' = 4326%Z /\
    datasets e' !! feature = Some Demo.reef.
Proof.
  assert (datasets Demo.engine0 !! (Demo.workspace_gdb, "reef") = Some Demo.reef) as H1
      by (vm_compute; reflexivity).
  assert (factoryCode Demo.reef ≠ 4326%Z) as H2 by (vm_compute; discriminate).
  split; [exact H1 |]. split; [exact H2 |].
  destruct (proj2 (projection_is_made_once 4326 (Demo.workspace_gdb, "reef") _ _ _ H1) H2)
    as (e' & l' & Hrun & Hl' & Hcode & _ & _ & _ & Hkeep & _).
  exists e', l'. split; [exact Hrun |]. split; [exact Hl' |]. split; [exact Hcode |].
  rewrite Hkeep; [exact H1 |]. discriminate.
Defined.

(** ** The footprint of a run *)

Section Footprint.

Variable SpatialJoin_rows : layer -> layer -> list (gmap string value).
Variables (S : string) (out : string * string) (gdb : bool).

Lemma confined_refl (e : engine) : confined S out e e.
Proof. by split. Qed.

Lemma confined_trans (e1 e2 e3 : engine) :
  confined S out e1 e2 -> confined S out e2 e3 -> confined S out e1 e3.
Proof.
  intros [Hs1 Hd1] [Hs2 Hd2]. split; [congruence |].
  intros p H1 H2. by rewrite Hd2, Hd1.
Qed.

Lemma stays_bind {A B} (Q : A -> Prop) (m : M A) (k : A -> M B) :
  stays S out gdb m ->
  (forall e a, env_scratchGDB e = S -> (gdb = true \/ env_workspace e = S) ->
               (m e).1 = Ok a -> Q a) ->
  (forall a, Q a -> stays S out gdb (k a)) ->
  stays S out gdb (bind m k).
Proof.
  intros Hm HQ Hk e HS HW. unfold bind.
  specialize (Hm e HS HW). specialize (HQ e).
  destruct (m e) as [[a | x] e1]; simpl in *; [| done].
  destruct Hm as [Hc1 HW1].
  destruct (Hk a (HQ a HS HW eq_refl) e1) as [Hc2 HW2].
  { destruct Hc1. congruence. }
  { by rewrite HW1. }
  split; [by eapply confined_trans | congruence].
Qed.

Lemma stays_seq {A B} (m : M A) (k : A -> M B) :
  stays S out gdb m -> (forall a, stays S out gdb (k a)) ->
  stays S out gdb (bind m k).
Proof. intros Hm Hk. apply (stays_bind (fun _ => True)); auto. Qed.

Lemma stays_pure {A} (m : M A) : (forall e, (m e).2 = e) -> stays S out gdb m.
Proof. intros Hm e _ _. rewrite Hm. split; [apply confined_refl | done]. Qed.

Lemma stays_ret {A} (a : A) : stays S out gdb (ret a).
Proof. by apply stays_pure. Qed.



Lemma stays_scratchGDB {B} (k : string -> M B) :
  stays S out gdb (k S) ->
  stays S out gdb (scratchGDB <- gets env_scratchGDB ;; k scratchGDB).
Proof. intros Hk e HS HW. unfold bind, gets. rewrite HS. by apply Hk. Qed.

Lemma stays_workspace {B} (k : string -> M B) :
  (forall ws, gdb = true \/ ws = S -> stays S out gdb (k ws)) ->
  stays S out gdb (ws <- gets env_workspace ;; k ws).
Proof. intros Hk e HS HW. unfold bind, gets. by apply Hk. Qed.

Lemma stays_AddMessage (s : string) : stays S out gdb (AddMessage s).
Proof. intros e _ _. split; [by split | done]. Qed.



Lemma stays_Describe (p : string * string) : stays S out gdb (Describe p).
Proof. apply stays_pure. intros e. unfold Describe. by destruct (datasets e !! p). Qed.

Lemma stays_ListFields (p : string * string) : stays S out gdb (ListFields p).
Proof.
  unfold ListFields. apply stays_seq; [apply stays_Describe | intros; apply stays_ret].
Qed.


Lemma stays_CreateScratchName {B} (prefix ws : string) (k : string * string -> M B) :
  (forall p, p.1 = ws -> stays S out gdb (k p)) ->
  stays S out gdb (scratch_name <- CreateScratchName prefix ws ;; k scratch_name).
Proof.
  intros Hk e HS HW. unfold bind.
  destruct (CreateScratchName_run prefix ws e) as (n & ->). by apply Hk.
Qed.


Lemma stays_for_each {A} (l : list A) (f : A -> M unit) :
  (forall x, stays S out gdb (f x)) -> stays S out gdb (for_each l f).
Proof.
  intros Hf. induction l as [|x l IH]; [apply stays_ret |].
  cbn [for_each]. by apply stays_seq.
Qed.

Lemma stays_tool (c : call)
      (run : gmap (string * string) layer -> option (gmap (string * string) layer))
      (err : string) :
  (forall ds ds', run ds = Some ds' ->
                  forall p, p.1 ≠ S -> p ≠ out -> ds' !! p = ds !! p) ->
  stays S out gdb (tool c run err).
Proof.
  intros Hrun e _ _. unfold tool. cbn [with_call datasets].
  destruct (run (datasets e)) as [ds |] eqn:Hds; (split; [split |]); try done.
  cbn [datasets with_gp_errors with_datasets]. by apply Hrun.
Qed.

Lemma written_path (dst p : string * string) :
  dst.1 = S \/ dst = out -> p.1 ≠ S -> p ≠ out -> p ≠ dst.
Proof. by intros [H | H] ? ? ->. Qed.

Lemma insert_outside (ds ds' : gmap (string * string) layer) (src dst p : string * string)
      (h : layer -> layer) :
  (fun l => <[dst := h l]> ds) <$> ds !! src = Some ds' ->
  p ≠ dst -> ds' !! p = ds !! p.
Proof. destruct (ds !! src); simpl; intros [= <-] ?; by rewrite lookup_insert_ne. Qed.

Lemma stays_CopyFeatures (src dst : string * string) :
  dst.1 = S \/ dst = out -> stays S out gdb (CopyFeatures_management src dst).
Proof.
  intros Hdst. apply stays_tool. intros ds ds' Hrun p H1 H2.
  eapply (insert_outside _ _ src dst p (fun l => l)); [done | by apply written_path].
Qed.

Lemma stays_Project (src dst : string * string) (wkid : Z) :
  dst.1 = S \/ dst = out -> stays S out gdb (management_Project src dst wkid).
Proof.
  intros Hdst. apply stays_tool. intros ds ds' Hrun p H1 H2.
  eapply insert_outside; [done | by apply written_path].
Qed.

Lemma stays_DeleteField (feature : string * string) (drop : list string) :
  feature.1 = S \/ feature = out ->
  stays S out gdb (DeleteField_management feature drop).
Proof.
  intros Hdst. apply stays_tool. intros ds ds' Hrun p H1 H2.
  eapply insert_outside; [done | by apply written_path].
Qed.

Lemma stays_AlterField (feature : string * string) (old new alias : string) :
  feature.1 = S \/ feature = out ->
  stays S out gdb (AlterField_management feature old new alias).
Proof.
  intros Hdst. apply stays_tool. intros ds ds' Hrun p H1 H2.
  eapply insert_outside; [done | by apply written_path].
Qed.

Lemma stays_SpatialJoin (target join dst : string * string) :
  dst.1 = S \/ dst = out ->
  stays S out gdb (analysis_SpatialJoin SpatialJoin_rows target join dst).
Proof.
  intros Hdst. apply stays_tool. intros ds ds' Hrun p H1 H2.
  destruct (ds !! target), (ds !! join); try done.
  injection Hrun as <-. apply lookup_insert_ne.
  apply not_eq_sym. by apply written_path.
Qed.


(** *** The functions of the script *)

Lemma stays_change_spatial_reference (wkid : Z) (fc feature : string * string) :
  stays S out gdb (change_spatial_reference wkid fc feature).
Proof.
  unfold change_spatial_reference. apply stays_seq; [apply stays_Describe |].
  intros l. destruct (negb _); [| apply stays_ret].
  apply stays_scratchGDB.
  apply stays_seq; [apply stays_Project; by left | intros; apply stays_ret].
Qed.

Lemma stays_delete_join_fields (feature : string * string) (delete : option string) :
  feature.1 = S -> stays S out gdb (delete_join_fields feature delete).
Proof.
  intros Hf. unfold delete_join_fields. apply stays_seq; [apply stays_ListFields |].
  intros fs. destruct delete as [t |]; [| apply stays_ret].
  apply stays_seq; [| intros; apply stays_ret].
  apply stays_for_each. intros f.
  destruct (Py.contains _ _); [apply stays_DeleteField; by left | apply stays_ret].
Qed.

Lemma stays_rename_fields (feature : string * string) (fs : list Field)
      (joinFields_str : list string) :
  feature.1 = S -> stays S out gdb (rename_fields feature fs joinFields_str).
Proof.
  intros Hf. revert joinFields_str.
  induction fs as [|f fs IH]; intros joinFields_str; [apply stays_ret |].
  cbn [rename_fields]. destruct (negb _); [| apply IH].
  apply stays_seq; [apply stays_AlterField; by left | intros; apply IH].
Qed.

Lemma stays_change_join_field_names (feature : string * string)
      (joinFields_str : list string) :
  feature.1 = S -> stays S out gdb (change_join_field_names feature joinFields_str).
Proof.
  intros Hf. unfold change_join_field_names.
  apply stays_seq; [apply stays_ListFields | intros; by apply stays_rename_fields].
Qed.

Lemma stays_coral_geo_join (coral feature : string * string) :
  stays S out gdb (coral_geo_join SpatialJoin_rows coral feature).
Proof.
  unfold coral_geo_join. apply stays_scratchGDB.
  apply stays_CreateScratchName. intros scratch_name Hname.
  apply stays_seq; [apply stays_SpatialJoin; by left |]. intros _.
  apply stays_seq; [apply stays_DeleteField; by left | intros; apply stays_ret].
Qed.

Lemma stays_join_step (P : parameters) (wkid : Z) (numFeatures counter : nat)
      (fc : string) (t : string * string) (joinFields_str : list string) :
  gdb = is_gdb (workspace P) ->
  stays S out gdb
        (join_step SpatialJoin_rows P wkid numFeatures counter fc t joinFields_str).
Proof.
  intros Hgdb. unfold join_step. apply stays_workspace. intros ws Hws.
  apply stays_seq; [apply stays_Describe |]. intros d.
  destruct (String.eqb _ _); [| apply stays_ret].
  apply (stays_bind (fun p : string * string => p.1 = S)).
  - destruct (is_gdb (workspace P)); [| apply stays_ret].
    apply stays_scratchGDB.
    apply stays_seq; [apply stays_CopyFeatures; by left | intros; apply stays_ret].
  - intros e a HS _. destruct (is_gdb (workspace P)).
    + unfold bind, gets.
      destruct (CopyFeatures_management _ _ e) as [[[] | x] e']; simpl; [| done].
      by intros [= <-].
    + simpl. intros [= <-]. simpl. destruct Hws; congruence.
  - intros feature Hfeature.
    apply stays_seq; [apply stays_change_spatial_reference |]. intros _.
    apply stays_seq; [apply stays_AddMessage |]. intros _.
    apply stays_seq; [by apply stays_delete_join_fields |]. intros _.
    apply stays_seq; [by apply stays_change_join_field_names |]. intros jf.
    apply stays_seq; [apply stays_AddMessage |]. intros _.
    apply stays_seq; [apply stays_coral_geo_join |]. intros t'.
    apply stays_seq; [apply stays_AddMessage | intros; apply stays_ret].
Qed.







End Footprint.




(** ** What a run logs *)

Lemma quiet_bind {A B} (m : M A) (k : A -> M B) :
  quiet m -> (forall a, quiet (k a)) -> quiet (bind m k).
Proof.
  intros Hm Hk e. unfold bind. destruct (Hm e) as (logged1 & Hlog1 & Hok1).
  destruct (m e) as [[a | x] e1]; simpl in *.
  - destruct (Hk a e1) as (logged2 & Hlog2 & Hok2).
    exists (logged1 ++ logged2). split.
    + by rewrite Hlog2, Hlog1, app_assoc.
    + intros b Hb. apply Forall_app. split; [by eapply Hok1 | by eapply Hok2].
  - exists logged1. split; [done | by intros].
Qed.

Lemma quiet_silent {A} (m : M A) :
  (forall e, messages (m e).2 = messages e) -> quiet m.
Proof.
  intros Hm e. exists []. rewrite app_nil_r. split; [apply Hm | by intros].
Qed.

Lemma quiet_ret {A} (a : A) : quiet (ret a).
Proof. by apply quiet_silent. Qed.

Lemma quiet_gets {A} (f : engine -> A) : quiet (gets f).
Proof. by apply quiet_silent. Qed.

Lemma quiet_AddMessage (s : string) : quiet (AddMessage s).
Proof.
  intros e. exists [(Message, s)]. split; [done |].
  intros _ _. by apply Forall_singleton.
Qed.

(** Lines 145-146 and 150-151: an error line, then [sys.exit()]. *)
Lemma quiet_exit {A} (s : string) : quiet (AddError s ;; sys_exit (A := A)).
Proof. intros e. exists [(Error, s)]. split; [done | by intros]. Qed.

Lemma quiet_print (s : string) : quiet (print s).
Proof. by apply quiet_silent. Qed.

Lemma quiet_Describe (p : string * string) : quiet (Describe p).
Proof. apply quiet_silent. intros e. unfold Describe. by destruct (datasets e !! p). Qed.

Lemma quiet_ListFields (p : string * string) : quiet (ListFields p).
Proof.
  unfold ListFields. apply quiet_bind; [apply quiet_Describe | intros; apply quiet_ret].
Qed.

Lemma quiet_ListFeatureClasses (feature_type : option string) :
  quiet (ListFeatureClasses feature_type).
Proof. by apply quiet_silent. Qed.

Lemma quiet_CreateScratchName (prefix ws : string) :
  quiet (CreateScratchName prefix ws).
Proof. by apply quiet_silent. Qed.

Lemma quiet_tool (c : call)
      (run : gmap (string * string) layer -> option (gmap (string * string) layer))
      (err : string) :
  quiet (tool c run err).
Proof. apply quiet_silent. intros e. unfold tool. by destruct (run _). Qed.

Lemma quiet_open_cursor (table : string * string) (field : string) :
  quiet (open_cursor table field).
Proof.
  apply quiet_silent. intros e. unfold open_cursor.
  destruct (datasets e !! table); [| done]. by destruct (bool_decide _).
Qed.

Lemma quiet_update_rows (table : string * string) (field : string)
      (written : list value) :
  quiet (update_rows table field written).
Proof.
  apply quiet_silent. intros e. unfold update_rows. by destruct (datasets e !! table).
Qed.

Lemma quiet_for_each {A} (l : list A) (f : A -> M unit) :
  (forall x, quiet (f x)) -> quiet (for_each l f).
Proof.
  intros Hf. induction l as [|x l IH]; [apply quiet_ret |].
  cbn [for_each]. by apply quiet_bind.
Qed.

Lemma quiet_change_spatial_reference (wkid : Z) (fc feature : string * string) :
  quiet (change_spatial_reference wkid fc feature).
Proof.
  unfold change_spatial_reference. apply quiet_bind; [apply quiet_Describe |].
  intros l. destruct (negb _); [| apply quiet_ret].
  apply quiet_bind; [apply quiet_gets |]. intros scratchGDB.
  apply quiet_bind; [apply quiet_tool | intros; apply quiet_ret].
Qed.

Lemma quiet_delete_join_fields (feature : string * string) (delete : option string) :
  quiet (delete_join_fields feature delete).
Proof.
  unfold delete_join_fields. apply quiet_bind; [apply quiet_ListFields |].
  intros fs. destruct delete as [t |]; [| apply quiet_ret].
  apply quiet_bind; [| intros; apply quiet_ret].
  apply quiet_for_each. intros f.
  destruct (Py.contains _ _); [apply quiet_tool | apply quiet_ret].
Qed.

Lemma quiet_rename_fields (feature : string * string) (fs : list Field)
      (joinFields_str : list string) :
  quiet (rename_fields feature fs joinFields_str).
Proof.
  revert joinFields_str.
  induction fs as [|f fs IH]; intros joinFields_str; [apply quiet_ret |].
  cbn [rename_fields]. destruct (negb _); [| apply IH].
  apply quiet_bind; [apply quiet_tool | intros; apply IH].
Qed.

Lemma quiet_change_join_field_names (feature : string * string)
      (joinFields_str : list string) :
  quiet (change_join_field_names feature joinFields_str).
Proof.
  unfold change_join_field_names.
  apply quiet_bind; [apply quiet_ListFields | intros; apply quiet_rename_fields].
Qed.

Lemma quiet_coral_geo_join
      (SpatialJoin_rows : layer -> layer -> list (gmap string value))
      (coral feature : string * string) :
  quiet (coral_geo_join SpatialJoin_rows coral feature).
Proof.
  unfold coral_geo_join. apply quiet_bind; [apply quiet_gets |]. intros scratchGDB.
  apply quiet_bind; [apply quiet_CreateScratchName |]. intros scratch_name.
  apply quiet_bind; [apply quiet_tool |]. intros _.
  apply quiet_bind; [apply quiet_tool | intros; apply quiet_ret].
Qed.

Lemma quiet_convert_shapefiles (features : list string) :
  quiet (convert_shapefiles features).
Proof.
  unfold convert_shapefiles. apply quiet_bind.
  - apply quiet_for_each. intros shapefile.
    apply quiet_bind; [apply quiet_gets |]. intros ws.
    apply quiet_bind; [apply quiet_Describe |]. intros d.
    destruct (String.eqb _ _); [| apply quiet_ret].
    apply quiet_bind; [apply quiet_gets | intros; apply quiet_tool].
  - intros _. apply quiet_bind; [apply quiet_gets |]. intros scratchGDB.
    apply quiet_bind; [by apply quiet_silent | intros; apply quiet_ListFeatureClasses].
Qed.

Lemma quiet_join_step
      (SpatialJoin_rows : layer -> layer -> list (gmap string value))
      (P : parameters) (wkid : Z) (numFeatures counter : nat)
      (fc : string) (t : string * string) (joinFields_str : list string) :
  quiet (join_step SpatialJoin_rows P wkid numFeatures counter fc t joinFields_str).
Proof.
  unfold join_step. apply quiet_bind; [apply quiet_gets |]. intros ws.
  apply quiet_bind; [apply quiet_Describe |]. intros d.
  destruct (String.eqb _ _); [| apply quiet_ret].
  apply quiet_bind.
  { destruct (is_gdb (workspace P)); [| apply quiet_ret].
    apply quiet_bind; [apply quiet_gets |]. intros scratchGDB.
    apply quiet_bind; [apply quiet_tool | intros; apply quiet_ret]. }
  intros feature.
  apply quiet_bind; [apply quiet_change_spatial_reference |]. intros _.
  apply quiet_bind; [apply quiet_AddMessage |]. intros _.
  apply quiet_bind; [apply quiet_delete_join_fields |]. intros _.
  apply quiet_bind; [apply quiet_change_join_field_names |]. intros jf.
  apply quiet_bind; [apply quiet_AddMessage |]. intros _.
  apply quiet_bind; [apply quiet_coral_geo_join |]. intros t'.
  apply quiet_bind; [apply quiet_AddMessage | intros; apply quiet_ret].
Qed.

Lemma quiet_join_loop
      (SpatialJoin_rows : layer -> layer -> list (gmap string value))
      (P : parameters) (wkid : Z) (numFeatures : nat) (features : list string) :
  forall (counter : nat) (t : string * string) (joinFields_str : list string),
    quiet (join_loop SpatialJoin_rows P wkid numFeatures counter features t
                     joinFields_str).
Proof.
  induction features as [|fc rest IH]; intros counter t joinFields_str.
  - apply quiet_ret.
  - cbn [join_loop]. apply quiet_bind; [apply quiet_join_step | intros; apply IH].
Qed.

Lemma quiet_first_pass (field : string) (cursor : list value)
      (unique_attributes : list value) (string_fields : list string) :
  quiet (first_pass field cursor unique_attributes string_fields).
Proof.
  revert unique_attributes.
  induction cursor as [|row0 rest IH]; intros unique_attributes; [apply quiet_ret |].
  cbn [first_pass]. destruct (_ <? _)%nat; [| apply IH].
  apply quiet_bind; [apply quiet_print | intros; apply quiet_ret].
Qed.

Lemma quiet_recode_field (table : string * string) (field : string) :
  quiet (recode_field table field).
Proof.
  unfold recode_field. apply quiet_bind; [apply quiet_open_cursor |]. intros cursor.
  apply quiet_bind; [apply quiet_first_pass |]. intros [|field0 rest]; [apply quiet_ret |].
  apply quiet_bind; [apply quiet_open_cursor |]. intros cursor'.
  destruct (second_pass cursor' [] 1) as [[written attributes] i].
  apply quiet_bind; [apply quiet_update_rows |]. intros _.
  apply quiet_bind; [apply quiet_AddMessage |]. intros _.
  apply quiet_bind; [| intros; apply quiet_AddMessage].
  apply quiet_for_each. intros kv. apply quiet_AddMessage.
Qed.

Lemma quiet_recode_pass (P : parameters) (joinFields_str : list string) :
  quiet (recode_pass P joinFields_str).
Proof.
  unfold recode_pass. destruct (bool_decide _); [| apply quiet_ret].
  repeat (apply quiet_bind; [apply quiet_AddMessage |]; intros _).
  apply quiet_bind.
  - apply quiet_for_each. intros field. apply quiet_recode_field.
  - intros _. apply quiet_bind; [apply quiet_AddMessage | intros; apply quiet_AddMessage].
Qed.

Lemma quiet_preflight : quiet preflight.
Proof.
  unfold preflight. apply quiet_bind; [apply quiet_ListFeatureClasses |]. intros features.
  apply quiet_bind; [apply quiet_gets |]. intros extension.
  apply quiet_bind; [destruct (negb _); [apply quiet_exit | apply quiet_ret] |].
  intros _. apply quiet_bind; [| intros; apply quiet_ret].
  destruct (_ =? _)%nat; [apply quiet_exit | apply quiet_ret].
Qed.

Lemma quiet_execute_try
      (SpatialJoin_rows : layer -> layer -> list (gmap string value))
      (P : parameters) :
  quiet (execute_try SpatialJoin_rows P).
Proof.
  unfold execute_try. apply quiet_bind; [by apply quiet_silent |]. intros _.
  apply quiet_bind; [apply quiet_preflight |]. intros features.
  apply quiet_bind; [apply quiet_Describe |]. intros coral.
  apply quiet_bind.
  { destruct (negb _); [apply quiet_convert_shapefiles | apply quiet_ret]. }
  intros features'. apply quiet_bind; [| intros; apply quiet_recode_pass].
  unfold join_chain. apply quiet_bind; [apply quiet_join_loop |]. intros r.
  apply quiet_bind; [apply quiet_tool | intros; apply quiet_ret].
Qed.

Lemma execute_except_logs (x : exn) (e : engine) :
  exists line rest, messages (execute_except x e).2 = messages e ++ (Error, line) :: rest.
Proof.
  destruct x; unfold execute_except, bind, GetMessages_2, gets, AddError, print, modify;
    simpl.
  - by eexists _, [].
  - eexists _, [_]. by rewrite <- app_assoc.
  - eexists _, [_]. by rewrite <- app_assoc.
Qed.

(** X11.  A run adds to the log and never removes from it, and what it adds
    holds an error line exactly when the body of the [try] statement fails:
    a run that goes through logs no error, and no failure passes in
    silence. *)
Theorem error_logged_iff_body_fails
        (SpatialJoin_rows : layer -> layer -> list (gmap string value))
        (P : parameters) (e : engine) :
  exists e' logged,
    execute SpatialJoin_rows P e = (Ok tt, e') /\
    messages e' = messages e ++ logged /\
    ((exists line, (Error, line) ∈ logged) <->
     (exists x, (execute_try SpatialJoin_rows P e).1 = Raise x)).
Proof.
  destruct (quiet_execute_try SpatialJoin_rows P e) as (logged0 & Hlog0 & Hok0).
  unfold execute.
  destruct (finally_after_any_body (execute_try SpatialJoin_rows P) e)
    as (r0 & e0 & e1 & e2 & Hrun & Hexc & Hfin & Hall & _ & _).
  rewrite Hrun in Hlog0, Hok0 |- *. simpl in Hlog0, Hok0 |- *.
  destruct (execute_finally_run e1) as (e2' & Hfin' & _ & _ & _ & Hm2 & _).
  rewrite Hfin in Hfin'. injection Hfin' as <-.
  destruct r0 as [[] | x].
  - subst e1. exists e2, logged0. split; [done |]. split; [congruence |]. split.
    + intros (line & Hline). specialize (Hok0 tt eq_refl).
      rewrite Forall_forall in Hok0. by specialize (Hok0 _ Hline).
    + by intros (x & ?).
  - destruct (execute_except_logs x e0) as (line & rest & Hm1).
    rewrite Hexc in Hm1. simpl in Hm1.
    exists e2, (logged0 ++ (Error, line) :: rest). split; [done |]. split.
    + by rewrite Hm2, Hm1, Hlog0, app_assoc.
    + split; [by exists x |]. intros _. exists line.
      apply elem_of_app. right. apply list_elem_of_here.
Qed.

(** ** The conversion of a workspace of shapefiles *)

Lemma no_dot_cons (c : ascii) (s : string) :
  Py.contains "." (String c s) = false ->
  Ascii.eqb c "."%char = false /\ Py.contains "." s = false.
Proof.
  rewrite contains_cons. intros [Hp Hs]%orb_false_iff. split; [| done].
  destruct (Ascii.eqb_spec c "."%char) as [-> | ?]; [| done].
  by destruct s.
Qed.

Lemma before_last_dot_none (s : string) :
  Py.contains "." s = false -> Py.before_last_dot s = None.
Proof.
  induction s as [|c s IH]; [done |].
  intros [Hc Hs]%no_dot_cons. simpl. by rewrite (IH Hs), Hc.
Qed.

Lemma before_last_dot_app (root ext : string) :
  Py.contains "." ext = false ->
  Py.before_last_dot (root +:+ "." +:+ ext) = Some root.
Proof.
  intros Hext. induction root as [|c root IH].
  - change (Py.before_last_dot (String "." ext) = Some ""). simpl.
    by rewrite (before_last_dot_none ext).
  - change (Py.before_last_dot (String c (root +:+ "." +:+ ext)) = Some (String c root)).
    simpl. by rewrite IH.
Qed.

(** X12.  The name a converted shapefile is copied under: a name without a
    dot is kept; of a name with dots, what follows the last dot is dropped
    together with that dot, unless only dots precede it, in which case the
    name is kept whole. *)
Theorem splitext_root_drops_last_extension (name : string) :
  (Py.contains "." name = false -> Py.splitext_root name = name) /\
  (forall root ext,
      name = root +:+ "." +:+ ext -> Py.contains "." ext = false ->
      Py.splitext_root name = if Py.all_dots root then name else root).
Proof.
  split.
  - intros Hname. unfold Py.splitext_root. by rewrite before_last_dot_none.
  - intros root ext -> Hext. unfold Py.splitext_root.
    by rewrite before_last_dot_app.
Qed.

Lemma splitext_root_drops_last_extension_witness :
  Py.contains "." "reef" = false /\ Py.splitext_root "reef" = "reef" /\
  "reef.2019.shp" = "reef.2019" +:+ "." +:+ "shp" /\
  Py.contains "." "shp" = false /\
  Py.splitext_root "reef.2019.shp" = "reef.2019".
Proof.
  assert (Py.contains "." "reef" = false) as H1 by reflexivity.
  assert ("reef.2019.shp" = "reef.2019" +:+ "." +:+ "shp") as H2 by reflexivity.
  assert (Py.contains "." "shp" = false) as H3 by reflexivity.
  split; [exact H1 |].
  split; [exact (proj1 (splitext_root_drops_last_extension "reef") H1) |].
  split; [exact H2 |]. split; [exact H3 |].
  exact (proj2 (splitext_root_drops_last_extension "reef.2019.shp") _ _ H2 H3).
Defined.

Lemma convert_loop_run (features : list string) :
  forall e : engine,
  env_workspace e ≠ env_scratchGDB e ->
  NoDup (Py.splitext_root <$> features) ->
  (forall f, f ∈ features ->
     exists l, datasets e !! (env_workspace e, f) = Some l /\ shapeType l = "Polygon") ->
  exists e',
    for_each features (fun shapefile =>
      ws <- gets env_workspace ;;
      d <- Describe (ws, shapefile) ;;
      if String.eqb (shapeType d) "Polygon" then
        scratchGDB <- gets env_scratchGDB ;;
        let outFeatureClass := os_path_join scratchGDB (Py.splitext_root shapefile) in
        CopyFeatures_management (ws, shapefile) outFeatureClass
      else ret tt) e = (Ok tt, e') /\
    env_workspace e' = env_workspace e /\
    env_scratchGDB e' = env_scratchGDB e /\
    (forall f l, f ∈ features -> datasets e !! (env_workspace e, f) = Some l ->
                 datasets e' !! (env_scratchGDB e, Py.splitext_root f) = Some l) /\
    (forall p, (forall f, f ∈ features -> p ≠ (env_scratchGDB e, Py.splitext_root f)) ->
               datasets e' !! p = datasets e !! p).
Proof.
  induction features as [|f rest IH]; intros e Hws Hnd Hall.
  - exists e. repeat split; try done. by intros f l ?%elem_of_nil.
  - destruct (Hall f) as (l & Hl & Hshape); [apply list_elem_of_here |].
    rewrite fmap_cons in Hnd. apply NoDup_cons in Hnd as [Hnew Hnd].
    destruct (CopyFeatures_ok (env_workspace e, f)
                (env_scratchGDB e, Py.splitext_root f) l e Hl)
      as (e1 & Hstep & (Hw1 & Hs1 & _ & Hds1 & _) & _).
    set (body := fun shapefile : string => _) in IH |- *.
    assert (body f e = (Ok tt, e1)) as Hbody.
    { unfold body, bind, gets. rewrite (Describe_ok _ l) by done. rewrite Hshape.
      change (String.eqb "Polygon" "Polygon") with true. exact Hstep. }
    cbn [for_each]. unfold bind at 1. rewrite Hbody.
    destruct (IH e1) as (e' & -> & Hw' & Hs' & Hcopy & Hframe).
    { congruence. }
    { done. }
    { intros g Hg. rewrite Hw1, Hds1, lookup_insert_ne by congruence.
      apply Hall. by apply list_elem_of_further. }
    rewrite Hw1, Hs1 in Hcopy. rewrite Hs1 in Hframe.
    exists e'. split; [done |]. split; [congruence |]. split; [congruence |]. split.
    + intros g k [-> | Hg]%elem_of_cons Hk.
      * rewrite Hframe, Hds1, lookup_insert_eq; [congruence |].
        intros g Hg [= Heq]. apply Hnew. rewrite Heq.
        by apply list_elem_of_fmap_2.
      * apply Hcopy; [done |]. by rewrite Hds1, lookup_insert_ne by congruence.
    + intros p Hp. rewrite Hframe.
      * rewrite Hds1. apply lookup_insert_ne. apply not_eq_sym, Hp, list_elem_of_here.
      * intros g Hg. apply Hp. by apply list_elem_of_further.
Qed.

(** X13.  The conversion of a workspace that is not the scratch database:
    every polygon shapefile listed is copied as it is into the scratch
    database, under its name without extension, and nothing else changes;
    the scratch database becomes the current workspace, and the layers
    joined afterwards are its polygon layers: the copies, and those that
    were there before. *)
Theorem conversion_copies_into_scratch (features : list string) (e : engine) :
  env_workspace e ≠ env_scratchGDB e ->
  NoDup (Py.splitext_root <$> features) ->
  (forall f, f ∈ features ->
     exists l, datasets e !! (env_workspace e, f) = Some l /\ shapeType l = "Polygon") ->
  exists features' e',
    convert_shapefiles features e = (Ok features', e') /\
    env_workspace e' = env_scratchGDB e /\
    env_scratchGDB e' = env_scratchGDB e /\
    (forall f l, f ∈ features -> datasets e !! (env_workspace e, f) = Some l ->
                 datasets e' !! (env_scratchGDB e, Py.splitext_root f) = Some l) /\
    (forall p, (forall f, f ∈ features -> p ≠ (env_scratchGDB e, Py.splitext_root f)) ->
               datasets e' !! p = datasets e !! p) /\
    (forall n, n ∈ features' <->
               n ∈ Py.splitext_root <$> features \/
               exists l, datasets e !! (env_scratchGDB e, n) = Some l /\
                         shapeType l = "Polygon").
Proof.
  intros Hws Hnd Hall.
  destruct (convert_loop_run features e Hws Hnd Hall)
    as (e1 & Hrun & Hw1 & Hs1 & Hcopy & Hframe).
  cbv zeta in Hrun. unfold convert_shapefiles. unfold bind at 1. rewrite Hrun.
  unfold bind, gets, modify, ListFeatureClasses. cbn [env_workspace with_workspace datasets].
  eexists _, _. split; [done |]. cbn [env_workspace env_scratchGDB datasets].
  split; [done |]. split; [done |]. split; [done |]. split; [done |].
  intros n. rewrite elem_of_listing, Hs1.
  assert (n ∈ Py.splitext_root <$> features ->
          exists l, datasets e1 !! (env_scratchGDB e, n) = Some l /\
                    shapeType l = "Polygon") as Hcopied.
  { intros (f & -> & Hf)%list_elem_of_fmap.
    destruct (Hall f Hf) as (l & Hl & Hshape). exists l. split; [| done].
    by apply Hcopy. }
  assert (n ∉ Py.splitext_root <$> features ->
          datasets e1 !! (env_scratchGDB e, n) = datasets e !! (env_scratchGDB e, n))
    as Hkept.
  { intros Hn. apply Hframe. intros f Hf [= ->]. apply Hn.
    by apply list_elem_of_fmap_2. }
  destruct (decide (n ∈ Py.splitext_root <$> features)) as [Hn | Hn].
  - split; [by left | intros _; by apply Hcopied].
  - rewrite (Hkept Hn). split; [by right | by intros [? | ?]].
Qed.

Lemma conversion_copies_into_scratch_witness :
  let e := mkEngine "C:/data/shapes" Demo.scratch_gdb "Available"
                    {[ ("C:/data/shapes", "reef.shp") := Demo.reef ]} [] [] "" [] in
  env_workspace e ≠ env_scratchGDB e /\
  NoDup (Py.splitext_root <$> ["reef.shp"]) /\
  exists features' e',
    convert_shapefiles ["reef.shp"] e = (Ok features', e') /\
    env_workspace e' = Demo.scratch_gdb /\
    datasets e' !! (Demo.scratch_gdb, "reef") = Some Demo.reef /\
    "reef" ∈ features'.
Proof.
  set (e := mkEngine "C:/data/shapes" Demo.scratch_gdb "Available"
                     {[ ("C:/data/shapes", "reef.shp") := Demo.reef ]} [] [] "" []).
  assert (env_workspace e ≠ env_scratchGDB e) as H1 by discriminate.
  assert (NoDup (Py.splitext_root <$> ["reef.shp"])) as H2 by by_evaluation.
  assert (forall f, f ∈ ["reef.shp"] ->
            exists l, datasets e !! (env_workspace e, f) = Some l /\
                      shapeType l = "Polygon") as H3.
  { intros f Hf. apply list_elem_of_singleton in Hf as ->.
    exists Demo.reef. split; vm_compute; reflexivity. }
  split; [exact H1 |]. split; [exact H2 |].
  destruct (conversion_copies_into_scratch ["reef.shp"] e H1 H2 H3)
    as (features' & e' & Hrun & Hw & _ & Hcopy & _ & Hin).
  exists features', e'. split; [exact Hrun |]. split; [exact Hw |]. split.
  - apply (Hcopy "reef.shp"); [apply list_elem_of_here | vm_compute; reflexivity].
  - apply Hin. left. by_evaluation.
Defined.

(** ** A run from end to end *)

Lemma scratch_prefix_underscore (fc : string) :
  String.prefix "tempCoralJoin" fc = false ->
  String.prefix "tempCoralJoin" (fc +:+ "_") = false.
Proof.
  intros Hfc. destruct (String.prefix "tempCoralJoin" (fc +:+ "_")) eqn:Hp; [| done].
  exfalso. revert Hfc Hp.
  do 13 (destruct fc as [|? fc];
         [by vm_compute |
          change (String ?c fc +:+ "_") with (String c (fc +:+ "_"));
          cbn [String.prefix]; destruct (Ascii.ascii_dec _ _); [| done]]).
  by destruct fc.
Qed.

Lemma preflight_ok (e : engine) :
  extension_Spatial e = "Available" ->
  listing (env_workspace e) (Some "Polygon") (datasets e) ≠ [] ->
  preflight e = (Ok (listing (env_workspace e) (Some "Polygon") (datasets e)), e).
Proof.
  intros Hext Hsome. unfold preflight.
  unfold bind at 1. rewrite ListFeatureClasses_run.
  unfold bind at 1, CheckExtension_Spatial, gets. rewrite Hext.
  change (String.eqb "Available" "Available") with true. cbn [negb].
  unfold bind at 1, ret at 1.
  by destruct (listing (env_workspace e) (Some "Polygon") (datasets e)).
Qed.

(** X14.  A run on a geodatabase, without the recode pass: when the
    extension is available, the target exists, the workspace has polygon
    layers none of which is named like a scratch layer, and neither the
    workspace nor the target nor the output lies in the scratch database, the
    run ends normally, and the output feature class is the target joined
    with every polygon layer of the workspace in turn, each with its fields
    deleted and renamed; the cleanup leaves it in place. *)
Theorem run_on_geodatabase_gives_the_chain
        (SpatialJoin_rows : layer -> layer -> list (gmap string value))
        (P : parameters) (T0 : layer) (e : engine) :
  is_gdb (workspace P) = true ->
  update_fields P ≠ Some "Yes" ->
  extension_Spatial e = "Available" ->
  datasets e !! corals_input P = Some T0 ->
  workspace P ≠ env_scratchGDB e ->
  (corals_input P).1 ≠ env_scratchGDB e ->
  (corals_output P).1 ≠ env_scratchGDB e ->
  listing (workspace P) (Some "Polygon") (datasets e) ≠ [] ->
  (forall fc, fc ∈ listing (workspace P) (Some "Polygon") (datasets e) ->
              String.prefix "tempCoralJoin" fc = false) ->
  exists e',
    execute SpatialJoin_rows P e = (Ok tt, e') /\
    datasets e' !! corals_output P =
      Some (foldl (join_result SpatialJoin_rows) T0
                  (joined_layers P (datasets e) (workspace P)
                     (listing (workspace P) (Some "Polygon") (datasets e)))).
Proof.
  intros Hgdb Hno Hext HT0 Hws Hin Hout Hsome Hnames.
  set (features := listing (workspace P) (Some "Polygon") (datasets e)) in *.
  set (e0 := with_workspace (workspace P) e).
  destruct (join_loop_run SpatialJoin_rows P (factoryCode T0) (length features)
              features 1 (corals_input P) [] T0 e0)
    as (tN & eN & Hloop & HwN & HsN & HtN).
  { done. }
  { intros fc (l & Hl & _)%elem_of_listing. by exists l. }
  { apply NoDup_listing. }
  { intros fc _. unfold work_path, project_path. rewrite Hgdb.
    split; intros Heq; apply Hin; by rewrite Heq. }
  { intros fc Hfc. split; [by apply Hnames |].
    by apply scratch_prefix_underscore, Hnames. }
  { intros fc fc' _ _ [= Heq _]. done. }
  destruct (CopyFeatures_ok tN (corals_output P) _ eN HtN)
    as (e1 & Hcopy & (_ & Hs1 & _ & Hds1 & _) & _).
  assert (execute_try SpatialJoin_rows P e = (Ok tt, e1)) as Hbody.
  { unfold execute_try. unfold bind at 1, modify at 1. fold e0.
    unfold bind at 1. rewrite (preflight_ok e0) by done.
    unfold bind at 1. rewrite (Describe_ok _ T0) by done.
    unfold bind at 1. rewrite Hgdb. cbn [negb]. unfold ret at 1.
    unfold bind at 1, join_chain. unfold bind at 1.
    change (listing (env_workspace e0) (Some "Polygon") (datasets e0)) with features.
    rewrite Hloop. cbn [fst snd].
    unfold bind at 1. rewrite Hcopy. unfold ret at 1.
    unfold recode_pass. by rewrite bool_decide_eq_false_2. }
  destruct (finally_after_any_body (execute_try SpatialJoin_rows P) e)
    as (r0 & e0' & e1' & e2 & Hrun & Hexc & Hfin & Hall & _ & _).
  rewrite Hbody in Hrun. injection Hrun as <- <-. subst e1'.
  destruct (execute_finally_run e1) as (e2' & Hfin' & _ & Hd2 & _).
  rewrite Hfin in Hfin'. injection Hfin' as <-.
  exists e2. split; [exact Hall |].
  rewrite Hd2, decide_False by (rewrite Hs1, HsN; exact Hout).
  by rewrite Hds1, lookup_insert_eq.
Qed.

Lemma run_on_geodatabase_gives_the_chain_witness :
  let P := mkParameters Demo.workspace_gdb Demo.target_path Demo.output_path None None in
  let e := Demo.engine0 in
  listing (workspace P) (Some "Polygon") (datasets e) ≠ [] /\
  exists e' l',
    execute Demo.first_row_join P e = (Ok tt, e') /\
    datasets e' !! corals_output P = Some l' /\
    names (fields l') =
      ["OBJECTID"; "Shape"; "SITE";
       "OBJECTID"; "Shape"; "Shape_Length"; "Shape_Area"; "reefNAME";
       "OBJECTID"; "Shape"; "Shape_Length"; "Shape_Area"; "depthZONE"; "depthMETRES"].
Proof.
  set (P := mkParameters Demo.workspace_gdb Demo.target_path Demo.output_path None None).
  assert (is_gdb (workspace P) = true) as H1 by reflexivity.
  assert (update_fields P ≠ Some "Yes") as H2 by discriminate.
  assert (extension_Spatial Demo.engine0 = "Available") as H3 by reflexivity.
  assert (datasets Demo.engine0 !! corals_input P = Some Demo.corals) as H4
      by (vm_compute; reflexivity).
  assert (workspace P ≠ env_scratchGDB Demo.engine0) as H5 by discriminate.
  assert ((corals_input P).1 ≠ env_scratchGDB Demo.engine0) as H6 by discriminate.
  assert ((corals_output P).1 ≠ env_scratchGDB Demo.engine0) as H7 by discriminate.
  assert (listing (workspace P) (Some "Polygon") (datasets Demo.engine0) ≠ []) as H8
      by (vm_compute; discriminate).
  assert (forall fc, fc ∈ listing (workspace P) (Some "Polygon") (datasets Demo.engine0) ->
                     String.prefix "tempCoralJoin" fc = false) as H9.
  { apply Forall_forall. by_evaluation. }
  split; [exact H8 |].
  destruct (run_on_geodatabase_gives_the_chain Demo.first_row_join P Demo.corals
              Demo.engine0 H1 H2 H3 H4 H5 H6 H7 H8 H9) as (e' & Hrun & Hout).
  eexists e', _. split; [exact Hrun |]. split; [exact Hout |].
  vm_compute. reflexivity.
Defined.

Lemma preflight_cases (e : engine) :
  preflight e = (Ok (listing (env_workspace e) (Some "Polygon") (datasets e)), e) \/
  exists msg, preflight e = (Raise SystemExit, with_message (Error, msg) e).
Proof.
  destruct (decide (extension_Spatial e = "Available")) as [Hext | Hext].
  - destruct (decide (listing (env_workspace e) (Some "Polygon") (datasets e) = []))
      as [Hnil | Hsome].
    + right. destruct (preflight_exit e) as (msg & Hrun & _); [by right |].
      by exists msg.
    + left. by apply preflight_ok.
  - right. destruct (preflight_exit e) as (msg & Hrun & _); [by left |].
    by exists msg.
Qed.

(** X15.  A target that does not exist ends the run before anything is
    copied, projected or joined: the body of the [try] statement fails at
    the preflight checks or when it describes the target, having made no
    geoprocessing call and changed no dataset; the run itself ends normally,
    with an error in the log and nothing but deletions from the scratch
    database done. *)
Theorem missing_target_aborts_before_any_work
        (SpatialJoin_rows : layer -> layer -> list (gmap string value))
        (P : parameters) (e : engine) :
  datasets e !! corals_input P = None ->
  exists x e0 e',
    execute_try SpatialJoin_rows P e = (Raise x, e0) /\
    (x = SystemExit \/ x = PyError "dataset does not exist") /\
    calls e0 = calls e /\
    (forall p, datasets e0 !! p = datasets e !! p) /\
    execute SpatialJoin_rows P e = (Ok tt, e') /\
    (exists line, (Error, line) ∈ messages e') /\
    (forall c, c ∈ calls e' -> c ∈ calls e \/ exists p, c = CallDelete p) /\
    (forall p l, datasets e' !! p = Some l -> datasets e !! p = Some l).
Proof.
  intros Hmissing.
  set (e1 := with_workspace (workspace P) e).
  assert (exists x e0,
             execute_try SpatialJoin_rows P e = (Raise x, e0) /\
             (x = SystemExit \/ x = PyError "dataset does not exist") /\
             calls e0 = calls e /\ datasets e0 = datasets e) as (x & e0 & Hbody & Hx & Hc0 & Hd0).
  { unfold execute_try. unfold bind at 1, modify at 1. fold e1. unfold bind at 1.
    destruct (preflight_cases e1) as [-> | (msg & ->)].
    - unfold bind at 1, Describe.
      change (datasets e1) with (datasets e). rewrite Hmissing.
      eexists _, _. split; [done |]. split; [by right | done].
    - eexists _, _. split; [done |]. split; [by left | done]. }
  destruct (finally_after_any_body (execute_try SpatialJoin_rows P) e)
    as (r0 & e0' & e2 & e3 & Hrun & Hexc & Hfin & Hall & Hcalls & _).
  rewrite Hbody in Hrun. injection Hrun as <- <-.
  destruct (execute_except_run x e0) as (e2' & Hexc' & (_ & _ & _ & Hd2 & Hc2) & _).
  rewrite Hexc in Hexc'. injection Hexc' as <-.
  destruct (execute_except_logs x e0) as (line & rest & Hm2).
  rewrite Hexc in Hm2. simpl in Hm2.
  destruct (execute_finally_run e2) as (e3' & Hfin' & _ & Hd3 & _ & Hm3 & _).
  rewrite Hfin in Hfin'. injection Hfin' as <-.
  exists x, e0, e3. split; [done |]. split; [done |]. split; [done |].
  split; [by rewrite Hd0 |]. split; [done |]. split; [| split].
  - exists line. rewrite Hm3, Hm2. apply elem_of_app. right. apply list_elem_of_here.
  - intros c. rewrite Hcalls, Hc2, app_nil_r, Hc0, elem_of_app.
    intros [Hc | Hc]; [by left | right].
    apply list_elem_of_fmap in Hc as (p & -> & _). by exists p.
  - intros p l. rewrite Hd3. destruct (decide _); [done |]. by rewrite Hd2, Hd0.
Qed.

Lemma missing_target_aborts_before_any_work_witness :
  let P := mkParameters Demo.workspace_gdb ("C:/data/survey.gdb", "missing")
                        Demo.output_path None None in
  datasets Demo.engine0 !! corals_input P = None /\
  exists x e0 e',
    execute_try Demo.first_row_join P Demo.engine0 = (Raise x, e0) /\
    calls e0 = [] /\
    execute Demo.first_row_join P Demo.engine0 = (Ok tt, e').
Proof.
  set (P := mkParameters Demo.workspace_gdb ("C:/data/survey.gdb", "missing")
                         Demo.output_path None None).
  assert (datasets Demo.engine0 !! corals_input P = None) as H1
      by (vm_compute; reflexivity).
  split; [exact H1 |].
  destruct (missing_target_aborts_before_any_work Demo.first_row_join P Demo.engine0 H1)
    as (x & e0 & e' & Hbody & _ & Hcalls & _ & Hrun & _).
  exists x, e0, e'. split; [exact Hbody |]. split; [exact Hcalls | exact Hrun].
Defined.

(** ** The progress lines of the loop *)

Lemma silent_bind {A B} (m : M A) (k : A -> M B) :
  silent m -> (forall a, silent (k a)) -> silent (bind m k).
Proof.
  intros Hm Hk e. unfold bind. specialize (Hm e).
  destruct (m e) as [[a | x] e1]; simpl in *; [| done].
  by rewrite Hk.
Qed.

Lemma silent_ret {A} (a : A) : silent (ret a).
Proof. done. Qed.

Lemma silent_gets {A} (f : engine -> A) : silent (gets f).
Proof. done. Qed.

Lemma silent_Describe (p : string * string) : silent (Describe p).
Proof. intros e. unfold Describe. by destruct (datasets e !! p). Qed.

Lemma silent_ListFields (p : string * string) : silent (ListFields p).
Proof.
  unfold ListFields. apply silent_bind; [apply silent_Describe | intros; apply silent_ret].
Qed.

Lemma silent_tool (c : call)
      (run : gmap (string * string) layer -> option (gmap (string * string) layer))
      (err : string) :
  silent (tool c run err).
Proof. intros e. unfold tool. by destruct (run _). Qed.

Lemma silent_for_each {A} (l : list A) (f : A -> M unit) :
  (forall x, silent (f x)) -> silent (for_each l f).
Proof.
  intros Hf. induction l as [|x l IH]; [done |].
  cbn [for_each]. by apply silent_bind.
Qed.

Lemma silent_change_spatial_reference (wkid : Z) (fc feature : string * string) :
  silent (change_spatial_reference wkid fc feature).
Proof.
  unfold change_spatial_reference. apply silent_bind; [apply silent_Describe |].
  intros l. destruct (negb _); [| apply silent_ret].
  apply silent_bind; [apply silent_gets |]. intros scratchGDB.
  apply silent_bind; [apply silent_tool | intros; apply silent_ret].
Qed.

Lemma silent_delete_join_fields (feature : string * string) (delete : option string) :
  silent (delete_join_fields feature delete).
Proof.
  unfold delete_join_fields. apply silent_bind; [apply silent_ListFields |].
  intros fs. destruct delete as [t |]; [| apply silent_ret].
  apply silent_bind; [| intros; apply silent_ret].
  apply silent_for_each. intros f.
  destruct (Py.contains _ _); [apply silent_tool | apply silent_ret].
Qed.

Lemma silent_change_join_field_names (feature : string * string)
      (joinFields_str : list string) :
  silent (change_join_field_names feature joinFields_str).
Proof.
  unfold change_join_field_names. apply silent_bind; [apply silent_ListFields |].
  intros fs. revert joinFields_str.
  induction fs as [|f fs IH]; intros joinFields_str; [apply silent_ret |].
  cbn [rename_fields]. destruct (negb _); [| apply IH].
  apply silent_bind; [apply silent_tool | intros; apply IH].
Qed.

Lemma silent_coral_geo_join
      (SpatialJoin_rows : layer -> layer -> list (gmap string value))
      (coral feature : string * string) :
  silent (coral_geo_join SpatialJoin_rows coral feature).
Proof.
  unfold coral_geo_join. apply silent_bind; [apply silent_gets |]. intros scratchGDB.
  apply silent_bind; [done |]. intros scratch_name.
  apply silent_bind; [apply silent_tool |]. intros _.
  apply silent_bind; [apply silent_tool | intros; apply silent_ret].
Qed.

(** What a computation that ended normally has logged. *)
Lemma logged_bind {A B} (m : M A) (k : A -> M B) (l1 l2 : list (severity * string))
      (e e' : engine) (b : B) :
  (forall a e1, m e = (Ok a, e1) -> messages e1 = messages e ++ l1) ->
  (forall a e1, m e = (Ok a, e1) -> k a e1 = (Ok b, e') ->
                messages e' = messages e1 ++ l2) ->
  bind m k e = (Ok b, e') ->
  messages e' = messages e ++ l1 ++ l2.
Proof.
  intros Hm Hk. unfold bind. destruct (m e) as [[a | x] e1]; [| done].
  intros Hrun. rewrite (Hk a e1 eq_refl Hrun), (Hm a e1 eq_refl). by rewrite app_assoc.
Qed.

Lemma logged_silent {A} (m : M A) (e e1 : engine) (a : A) :
  silent m -> m e = (Ok a, e1) -> messages e1 = messages e ++ [].
Proof. intros Hm Hrun. specialize (Hm e). rewrite Hrun in Hm. by rewrite app_nil_r. Qed.

Lemma join_step_logs
      (SpatialJoin_rows : layer -> layer -> list (gmap string value))
      (P : parameters) (wkid : Z) (numFeatures counter : nat) (fc : string)
      (t : string * string) (jf : list string) (l : layer) (e e' : engine)
      (r : (string * string) * list string) :
  datasets e !! (env_workspace e, fc) = Some l ->
  shapeType l = "Polygon" ->
  join_step SpatialJoin_rows P wkid numFeatures counter fc t jf e = (Ok r, e') ->
  messages e' = messages e ++ progress_lines numFeatures counter.
Proof.
  intros Hl Hshape. unfold join_step. unfold bind at 1, gets at 1. unfold bind at 1.
  rewrite (Describe_ok _ l) by done. rewrite Hshape.
  change (String.eqb "Polygon" "Polygon") with true. cbv iota.
  intros Hrun.
  apply (logged_bind _ _ [] (progress_lines numFeatures counter)) in Hrun; [done | |].
  { intros a e1. apply logged_silent.
    destruct (is_gdb (workspace P)); [| apply silent_ret].
    apply silent_bind; [apply silent_gets |]. intros scratchGDB.
    apply silent_bind; [apply silent_tool | intros; apply silent_ret]. }
  clear Hrun. intros feature e1 _ Hrun.
  apply (logged_bind _ _ [] (progress_lines numFeatures counter)) in Hrun; [done | |].
  { intros a e2. apply logged_silent, silent_change_spatial_reference. }
  clear Hrun. intros _ e2 _ Hrun.
  apply (logged_bind _ _ [(Message, "change spatial reference complete")]
           (tail (progress_lines numFeatures counter))) in Hrun; [done | |].
  { by intros [] e3 [= <-]. }
  clear Hrun. intros _ e3 _ Hrun.
  apply (logged_bind _ _ [] (tail (progress_lines numFeatures counter))) in Hrun;
    [done | |].
  { intros a e4. apply logged_silent, silent_delete_join_fields. }
  clear Hrun. intros _ e4 _ Hrun.
  apply (logged_bind _ _ [] (tail (progress_lines numFeatures counter))) in Hrun;
    [done | |].
  { intros a e5. apply logged_silent, silent_change_join_field_names. }
  clear Hrun. intros jf' e5 _ Hrun.
  apply (logged_bind _ _ [(Message, "clean complete")]
           (tail (tail (progress_lines numFeatures counter)))) in Hrun; [done | |].
  { by intros [] e6 [= <-]. }
  clear Hrun. intros _ e6 _ Hrun.
  apply (logged_bind _ _ [] (tail (tail (progress_lines numFeatures counter)))) in Hrun;
    [done | |].
  { intros a e7. apply logged_silent, silent_coral_geo_join. }
  clear Hrun. intros t' e7 _ Hrun.
  apply (logged_bind _ _ (tail (tail (progress_lines numFeatures counter))) [])
    in Hrun; [by rewrite app_nil_r in Hrun | |].
  { by intros [] e8 [= <-]. }
  intros _ e8 _ [= _ <-]. by rewrite app_nil_r.
Qed.

(** X16.  The progress lines of a loop over polygon layers of a
    geodatabase other than the scratch database: when the loop ends
    normally it has logged, for each layer in turn, the two lines of the
    steps and the line [k/numFeatures joins complete], with [k] counting
    the layers from the start value on, and nothing else. *)
Theorem progress_lines_count_the_layers
        (SpatialJoin_rows : layer -> layer -> list (gmap string value))
        (P : parameters) (wkid : Z) (numFeatures : nat) (features : list string) :
  is_gdb (workspace P) = true ->
  forall (counter : nat) (t : string * string) (jf : list string) (e e' : engine)
         (r : (string * string) * list string),
  env_workspace e ≠ env_scratchGDB e ->
  (forall fc, fc ∈ features ->
     exists l, datasets e !! (env_workspace e, fc) = Some l /\ shapeType l = "Polygon") ->
  join_loop SpatialJoin_rows P wkid numFeatures counter features t jf e = (Ok r, e') ->
  messages e' =
    messages e ++ (seq counter (length features) ≫= progress_lines numFeatures).
Proof.
  intros Hgdb. induction features as [|fc rest IH]; intros counter t jf e e' r Hws Hall.
  - intros [= _ <-]. simpl. by rewrite app_nil_r.
  - cbn [join_loop]. unfold bind at 1.
    destruct (Hall fc) as (l & Hl & Hshape); [apply list_elem_of_here |].
    pose proof (join_step_logs SpatialJoin_rows P wkid numFeatures counter fc t jf l e)
      as Hstep.
    destruct (stays_join_step SpatialJoin_rows (env_scratchGDB e) (env_scratchGDB e, "")
                true P wkid numFeatures counter fc t jf) with (e := e)
      as [[Hs1 Hd1] Hw1]; [done | done | by left |].
    destruct (join_step SpatialJoin_rows P wkid numFeatures counter fc t jf e)
      as [[r1 | x] e1]; [| done].
    simpl in Hs1, Hd1, Hw1. intros Hrun.
    apply IH in Hrun.
    + rewrite Hrun, (Hstep e1 r1 Hl Hshape eq_refl). cbn [length seq].
      rewrite bind_cons. by rewrite <- app_assoc.
    + congruence.
    + intros g Hg. rewrite Hw1, Hd1.
      * apply Hall. by apply list_elem_of_further.
      * done.
      * intros [= Heq _]. done.
Qed.

Lemma progress_lines_count_the_layers_witness :
  let e := with_workspace Demo.workspace_gdb Demo.engine0 in
  let run := join_loop Demo.first_row_join Demo.parameters0 4326 2 1 ["reef"; "depth"]
                       Demo.target_path [] e in
  is_gdb (workspace Demo.parameters0) = true /\
  env_workspace e ≠ env_scratchGDB e /\
  (exists r, run.1 = Ok r) /\
  messages run.2 =
    [(Message, "change spatial reference complete"); (Message, "clean complete");
     (Message, "1/2 joins complete");
     (Message, "change spatial reference complete"); (Message, "clean complete");
     (Message, "2/2 joins complete")].
Proof.
  intros e run.
  assert (is_gdb (workspace Demo.parameters0) = true) as H1 by reflexivity.
  assert (env_workspace e ≠ env_scratchGDB e) as H2 by discriminate.
  assert (forall fc, fc ∈ ["reef"; "depth"] ->
            exists l, datasets e !! (env_workspace e, fc) = Some l /\
                      shapeType l = "Polygon") as H3.
  { intros fc Hfc. rewrite !elem_of_cons, elem_of_nil in Hfc.
    destruct Hfc as [-> | [-> | []]];
      [exists Demo.reef | exists Demo.depth]; split; vm_compute; reflexivity. }
  assert (run.1 = Ok ((Demo.scratch_gdb, "tempCoralJoin1"),
                      ["reefNAME"; "depthZONE"])) as H4 by (vm_compute; reflexivity).
  split; [exact H1 |]. split; [exact H2 |]. split; [by eexists |].
  assert (run = (Ok ((Demo.scratch_gdb, "tempCoralJoin1"), ["reefNAME"; "depthZONE"]),
                 run.2)) as H5.
  { destruct run as [r0 e0]. simpl in H4 |- *. by rewrite H4. }
  rewrite (progress_lines_count_the_layers Demo.first_row_join Demo.parameters0 4326 2
             ["reef"; "depth"] H1 1 Demo.target_path [] e run.2 _ H2 H3 H5).
  vm_compute. reflexivity.
Defined.
